(** * STM32MP image signing: header codec and sign/verify pipelines

    A shallow embedding of [stm32-sign.py] (local key) and
    [stm32-sign-pkcs11.py] (PKCS#11 token), with the properties of the
    header codec and of the two pipelines.

    - A [bytes]/[bytearray] is a [list byte].
    - The header dictionary [stm32] is a [gmap string value]: string keys,
      values that are either [bytes] or [int].
    - A function that mutates its [image] argument returns the new buffer
      next to its outcome; an outcome is a returned integer or a raised
      exception.
    - SHA-256, the DSS signer and the PKCS#11 token are library code: they
      are parameters of the development.
    - Calls to the logger change neither a buffer nor a return value and
      are left out; [main], which parses options and reads and writes the
      files, is not modelled. *)

From Stdlib Require Import ZArith Lia.
From Stdlib Require Import Strings.Byte.
From stdpp Require Import gmap strings list fin_maps.

Open Scope Z_scope.

(** ** Bytes and integers *)

Abbreviation bytes := (list byte).

Definition byte_to_Z (b : byte) : Z := Z.of_N (Byte.to_N b).

Definition byte_of_Z (z : Z) : byte :=
  match Byte.of_N (Z.to_N (z mod 256)) with
  | Some b => b
  | None => x00
  end.

(** [int.from_bytes(bs, 'little')] *)
Fixpoint le_to_Z (bs : bytes) : Z :=
  match bs with
  | [] => 0
  | b :: bs' => byte_to_Z b + 256 * le_to_Z bs'
  end.

(** [z.to_bytes(k, 'little')], for [z] in range *)
Fixpoint le_bytes (k : nat) (z : Z) : bytes :=
  match k with
  | O => []
  | S k' => byte_of_Z (z mod 256) :: le_bytes k' (z / 256)
  end.

(** Python's [l[a:b]] for [0 <= a <= b]. *)
Definition slice (a b : nat) (l : bytes) : bytes := take (b - a) (drop a l).

(** ** Outcomes *)

Inductive exn :=
| StructError   (* struct.error *)
| KeyError      (* dict lookup of a missing key *)
| ValueError    (* unsupported curve *)
| TypeError     (* signing without a private key *)
| PKCS11Error.  (* token, session or object not reachable *)

Inductive res (A : Type) :=
| Ok (a : A)
| Raise (e : exn).
Arguments Ok {A} a.
Arguments Raise {A} e.

#[global] Instance res_bind : MBind res := λ A B k r,
  match r with
  | Ok a => k a
  | Raise e => Raise e
  end.

(** ** [struct]: the part used by the header format *)

Inductive value :=
| VBytes (b : bytes)
| VInt (z : Z).

#[global] Instance byte_eq_decision : EqDecision byte := Byte.byte_eq_dec.

#[global] Instance value_eq_decision : EqDecision value.
Proof. solve_decision. Defined.

#[global] Instance exn_eq_decision : EqDecision exn.
Proof. solve_decision. Defined.

(** One item of a format string: [ns], [I], [nx], [B]. *)
Inductive fmt_item :=
| Fs (n : nat)   (* ns : a bytes field of n bytes *)
| FI             (* I  : unsigned 32-bit integer *)
| Fx (n : nat)   (* nx : n pad bytes, no value *)
| FB.            (* B  : unsigned 8-bit integer *)

Definition item_size (it : fmt_item) : nat :=
  match it with
  | Fs n => n
  | FI => 4
  | Fx n => n
  | FB => 1
  end.

(** [struct.calcsize]; with the [<] prefix there is no alignment. *)
Fixpoint calcsize (fmt : list fmt_item) : nat :=
  match fmt with
  | [] => 0
  | it :: fmt' => item_size it + calcsize fmt'
  end.

(** The values of the fields of [fmt] laid out in [data] from offset
    [off] on. *)
Fixpoint unpack_from (fmt : list fmt_item) (off : nat) (data : bytes) : list value :=
  match fmt with
  | [] => []
  | Fs n :: fmt' =>
      VBytes (slice off (off + n) data) :: unpack_from fmt' (off + n) data
  | FI :: fmt' =>
      VInt (le_to_Z (slice off (off + 4) data)) :: unpack_from fmt' (off + 4) data
  | Fx n :: fmt' => unpack_from fmt' (off + n) data
  | FB :: fmt' =>
      VInt (le_to_Z (slice off (off + 1) data)) :: unpack_from fmt' (off + 1) data
  end.

(** [struct.unpack(fmt, data)]: the buffer must have exactly the size of
    the format. *)
Definition struct_unpack (fmt : list fmt_item) (data : bytes) : res (list value) :=
  if decide (length data = calcsize fmt) then Ok (unpack_from fmt 0 data)
  else Raise StructError.

(** An [s] field: a bytes argument, cut or padded with zero bytes. *)
Definition pack_s (n : nat) (v : value) : res bytes :=
  match v with
  | VBytes b => Ok (take n b ++ replicate (n - length b) x00)
  | VInt _ => Raise StructError
  end.

(** An unsigned integer field of [k] bytes: an int argument in range. *)
Definition pack_uint (k : nat) (v : value) : res bytes :=
  match v with
  | VInt z =>
      if decide (0 ≤ z < 256 ^ Z.of_nat k) then Ok (le_bytes k z)
      else Raise StructError
  | VBytes _ => Raise StructError
  end.

(** [struct.pack(fmt, *args)] *)
Fixpoint struct_pack (fmt : list fmt_item) (args : list value) : res bytes :=
  match fmt with
  | [] => match args with [] => Ok [] | _ :: _ => Raise StructError end
  | Fx n :: fmt' =>
      r ← struct_pack fmt' args ; Ok (replicate n x00 ++ r)
  | Fs n :: fmt' =>
      match args with
      | v :: args' =>
          b ← pack_s n v ; r ← struct_pack fmt' args' ; Ok (b ++ r)
      | [] => Raise StructError
      end
  | FI :: fmt' =>
      match args with
      | v :: args' =>
          b ← pack_uint 4 v ; r ← struct_pack fmt' args' ; Ok (b ++ r)
      | [] => Raise StructError
      end
  | FB :: fmt' =>
      match args with
      | v :: args' =>
          b ← pack_uint 1 v ; r ← struct_pack fmt' args' ; Ok (b ++ r)
      | [] => Raise StructError
      end
  end.

(** ** The header format and dictionary *)

(** ['<4s64s10I64s83xB'] *)
Definition hdr_fmt : list fmt_item :=
  [Fs 4; Fs 64] ++ replicate 10 FI ++ [Fs 64; Fx 83; FB].

(** The 256 bytes the format lays out for the values of the fourteen
    fields, reserved words and padding included. *)
Definition header_bytes (magic signature : bytes)
    (checksum w3 length entry_addr w6 load_addr w8 w9 option_flags ecdsa_algo : Z)
    (ecdsa_pubkey : bytes) (binding : Z) : bytes :=
  magic ++ signature ++ le_bytes 4 checksum ++ le_bytes 4 w3 ++
  le_bytes 4 length ++ le_bytes 4 entry_addr ++ le_bytes 4 w6 ++
  le_bytes 4 load_addr ++ le_bytes 4 w8 ++ le_bytes 4 w9 ++
  le_bytes 4 option_flags ++ le_bytes 4 ecdsa_algo ++ ecdsa_pubkey ++
  replicate 83 x00 ++ le_bytes 1 binding.

(** [b'STM2'] *)
Definition STM2 : bytes := [x53; x54; x4d; x32].

(** [stm32[k]] *)
Definition getitem (d : gmap string value) (k : string) : res value :=
  match d !! k with
  | Some v => Ok v
  | None => Raise KeyError
  end.

(** [fields[i]] of the tuple returned by [struct.unpack]. *)
Definition field (fields : list value) (i : nat) : value :=
  nth i fields (VInt 0).

(** [image[0:256] = packed] on a bytearray. *)
Definition set_header (image packed : bytes) : bytes :=
  packed ++ drop 256 image.

(** [image[0x04:0x44] = signature] on a bytearray. *)
Definition set_signature (image signature : bytes) : bytes :=
  take 4 image ++ signature ++ drop 68 image.

(** ** Keys and the cryptographic library *)

(** An [ECC] key object: the curve name, the public point and whether the
    private scalar is present. *)
Record EccKey := {
  curve : string;
  pointQ_x : Z;
  pointQ_y : Z;
  has_private : bool;
}.

(** Big-endian digits of a positive integer, most significant first. *)
Fixpoint be_digits (fuel : nat) (n : Z) (acc : bytes) : bytes :=
  match fuel with
  | O => acc
  | S fuel' =>
      if decide (n = 0) then acc
      else be_digits fuel' (n / 256) (byte_of_Z (n mod 256) :: acc)
  end.

(** [Integer.to_bytes()] without a block size: the shortest big-endian
    encoding, one zero byte for zero. The coordinates of a point are not
    negative; the library raises on a negative integer. *)
Definition to_bytes (n : Z) : bytes :=
  if decide (n = 0) then [x00]
  else be_digits (S (Z.to_nat (Z.log2 n))) n [].

(** [b.rjust(w, b'\0')] *)
Definition rjust (w : nat) (b : bytes) : bytes :=
  replicate (w - length b) x00 ++ b.

Definition p256_names : list string :=
  ["NIST P-256"; "p256"; "P-256"; "prime256v1"; "secp256r1"]%string.

Definition brainpool_names : list string := [].

(** The hash and signature primitives of the [Cryptodome] package. The
    signer of mode ['fips-186-3'] consumes entropy for its nonce, which is
    an explicit argument here. *)
Record CryptoLib (Entropy : Type) := {
  SHA256 : bytes → bytes;
  DSS_sign : EccKey → Entropy → bytes → res bytes;
  DSS_verify : EccKey → bytes → bytes → bool;
}.
Arguments SHA256 {Entropy} _ _.
Arguments DSS_sign {Entropy} _ _ _ _.
Arguments DSS_verify {Entropy} _ _ _ _.

(** The objects of the [pkcs11] package that the token variant uses: a
    session on a token, the two key objects found by label, the token's
    signature mechanism, and the conversion of a public key object into an
    [ECC] key ([ECC.import_key(encode_ec_public_key(pubkey))]). *)
Record Session (PrivateKey PublicKey : Type) := {
  get_private_key : string → res PrivateKey;
  get_public_key : string → res PublicKey;
}.
Arguments get_private_key {PrivateKey PublicKey} _ _.
Arguments get_public_key {PrivateKey PublicKey} _ _.

Record Pkcs11Lib (Entropy PrivateKey PublicKey : Type) := {
  token_open : string → string → option string → res (Session PrivateKey PublicKey);
  token_sign : PrivateKey → Entropy → bytes → res bytes;
  import_key : PublicKey → EccKey;
}.
Arguments token_open {Entropy PrivateKey PublicKey} _ _ _ _.
Arguments token_sign {Entropy PrivateKey PublicKey} _ _ _ _.
Arguments import_key {Entropy PrivateKey PublicKey} _ _.

(** ** Well-formed arguments and headers *)

(** The arguments [struct.pack] takes without cutting or padding: one value
    per field, a bytes value of exactly the field's size for [s], an int in
    range for [I] and [B]. *)
Fixpoint args_ok (fmt : list fmt_item) (args : list value) : bool :=
  match fmt with
  | [] => bool_decide (args = [])
  | Fx _ :: fmt' => args_ok fmt' args
  | Fs n :: fmt' =>
      match args with
      | VBytes b :: args' => bool_decide (length b = n) && args_ok fmt' args'
      | _ => false
      end
  | FI :: fmt' =>
      match args with
      | VInt z :: args' => bool_decide (0 ≤ z < 256 ^ 4) && args_ok fmt' args'
      | _ => false
      end
  | FB :: fmt' =>
      match args with
      | VInt z :: args' => bool_decide (0 ≤ z < 256 ^ 1) && args_ok fmt' args'
      | _ => false
      end
  end.

Definition is_bytes (n : nat) (v : option value) : bool :=
  match v with
  | Some (VBytes b) => bool_decide (length b = n)
  | _ => false
  end.

Definition is_u32 (v : option value) : bool :=
  match v with
  | Some (VInt z) => bool_decide (0 ≤ z < 256 ^ 4)
  | _ => false
  end.

(** The fields every header dictionary has, in both files. *)
Definition common_fields_ok (h : gmap string value) : bool :=
  is_bytes 4 (h !! "magic") && is_bytes 64 (h !! "signature") &&
  is_u32 (h !! "checksum") && is_u32 (h !! "hdr_version") &&
  is_u32 (h !! "length") && is_u32 (h !! "entry_addr") &&
  is_u32 (h !! "load_addr") && is_u32 (h !! "option_flags") &&
  is_u32 (h !! "ecdsa_algo") && is_bytes 64 (h !! "ecdsa_pubkey").

Definition common_keys : gset string :=
  list_to_set ["magic"; "signature"; "checksum"; "hdr_version"; "length";
               "entry_addr"; "load_addr"; "option_flags"; "ecdsa_algo";
               "ecdsa_pubkey"]%string.

(** ** [stm32-sign.py] *)

Module Local.

Definition get_raw_pubkey (key : EccKey) : bytes :=
  let coord_x_bytes := rjust 32 (to_bytes (pointQ_x key)) in
  let coord_y_bytes := rjust 32 (to_bytes (pointQ_y key)) in
  coord_x_bytes ++ coord_y_bytes.

Definition unpack_header (image : bytes) : res (gmap string value) :=
  fields ← struct_unpack hdr_fmt (take 256 image);
  let stm32 : gmap string value := ∅ in
  let stm32 := <["magic" := field fields 0]> stm32 in
  let stm32 := <["signature" := field fields 1]> stm32 in
  let stm32 := <["checksum" := field fields 2]> stm32 in
  let stm32 := <["hdr_version" := field fields 3]> stm32 in
  let stm32 := <["length" := field fields 4]> stm32 in
  let stm32 := <["entry_addr" := field fields 5]> stm32 in
  let stm32 := <["load_addr" := field fields 7]> stm32 in
  let stm32 := <["hdr_version" := field fields 9]> stm32 in
  let stm32 := <["option_flags" := field fields 10]> stm32 in
  let stm32 := <["ecdsa_algo" := field fields 11]> stm32 in
  let stm32 := <["ecdsa_pubkey" := field fields 12]> stm32 in
  Ok stm32.

Definition repack_header (image : bytes) (stm32 : gmap string value) : res bytes :=
  a0 ← getitem stm32 "magic";
  a1 ← getitem stm32 "signature";
  a2 ← getitem stm32 "checksum";
  a3 ← getitem stm32 "hdr_version";
  a4 ← getitem stm32 "length";
  a5 ← getitem stm32 "entry_addr";
  a7 ← getitem stm32 "load_addr";
  a9 ← getitem stm32 "hdr_version";
  a10 ← getitem stm32 "option_flags";
  a11 ← getitem stm32 "ecdsa_algo";
  a12 ← getitem stm32 "ecdsa_pubkey";
  packed ← struct_pack hdr_fmt
    [a0; a1; a2; a3; a4; a5; VInt 0; a7; VInt 0; a9; a10; a11; a12; VInt 0];
  Ok (set_header image packed).

Definition key_algorithm (key : EccKey) : res Z :=
  if decide (curve key ∈ p256_names) then Ok 1
  else if decide (curve key ∈ brainpool_names) then Ok 2
  else Raise ValueError.

Section Pipelines.
Context {Entropy : Type} (lib : CryptoLib Entropy).

Definition verify_signature (image : bytes) (key : EccKey) : res Z :=
  hdr ← unpack_header image;
  signature ← getitem hdr "signature";
  image_pubkey ← getitem hdr "ecdsa_pubkey";
  let raw_pubkey := get_raw_pubkey key in
  if decide (VBytes raw_pubkey ≠ image_pubkey) then Ok 1
  else
    let sha := SHA256 lib (drop 0x48 image) in
    match signature with
    | VBytes sig => if DSS_verify lib key sha sig then Ok 0 else Ok 2
    | VInt _ => Raise TypeError
    end.

(** The outcome and the buffer as the call leaves it. *)
Definition sign_image (image : bytes) (key : EccKey) (rng : Entropy)
  : res Z * bytes :=
  match unpack_header image with
  | Raise e => (Raise e, image)
  | Ok stm32 =>
  match getitem stm32 "magic" with
  | Raise e => (Raise e, image)
  | Ok magic =>
  if decide (magic ≠ VBytes STM2) then (Ok (-1), image)
  else
    let stm32 := <["ecdsa_pubkey" := VBytes (get_raw_pubkey key)]> stm32 in
    match key_algorithm key with
    | Raise e => (Raise e, image)
    | Ok algo =>
    let stm32 := <["ecdsa_algo" := VInt algo]> stm32 in
    let stm32 := <["option_flags" := VInt 0]> stm32 in
    match repack_header image stm32 with
    | Raise e => (Raise e, image)
    | Ok image =>
    let sha := SHA256 lib (drop 0x48 image) in
    match DSS_sign lib key rng sha with
    | Raise e => (Raise e, image)
    | Ok signature =>
    let image := set_signature image signature in
    (* the verdict of the check is dropped; an exception is not *)
    match verify_signature image key with
    | Raise e => (Raise e, image)
    | Ok _ => (Ok 0, image)
    end end end end
  end end.

End Pipelines.

(** The dictionaries [unpack_header] of this file builds. *)
Definition wf_header (h : gmap string value) : bool :=
  bool_decide (dom h = common_keys) && common_fields_ok h.

End Local.

(** ** [stm32-sign-pkcs11.py] *)

Module Pkcs11.

Section Pipelines.
Context {Entropy PrivateKey PublicKey : Type}.
Context (lib : CryptoLib Entropy).
Context (p11 : Pkcs11Lib Entropy PrivateKey PublicKey).

Definition get_raw_pubkey (pubkey : PublicKey) : bytes :=
  let pkey := import_key p11 pubkey in
  let coord_x_bytes := rjust 32 (to_bytes (pointQ_x pkey)) in
  let coord_y_bytes := rjust 32 (to_bytes (pointQ_y pkey)) in
  coord_x_bytes ++ coord_y_bytes.

Definition key_algorithm (pubkey : PublicKey) : res Z :=
  let pkey := import_key p11 pubkey in
  if decide (curve pkey ∈ p256_names) then Ok 1
  else if decide (curve pkey ∈ brainpool_names) then Ok 2
  else Raise ValueError.

End Pipelines.

Definition unpack_header (image : bytes) : res (gmap string value) :=
  fields ← struct_unpack hdr_fmt (take 256 image);
  let stm32 : gmap string value := ∅ in
  let stm32 := <["magic" := field fields 0]> stm32 in
  let stm32 := <["signature" := field fields 1]> stm32 in
  let stm32 := <["checksum" := field fields 2]> stm32 in
  let stm32 := <["hdr_version" := field fields 3]> stm32 in
  let stm32 := <["length" := field fields 4]> stm32 in
  let stm32 := <["entry_addr" := field fields 5]> stm32 in
  let stm32 := <["load_addr" := field fields 7]> stm32 in
  let stm32 := <["rollback_version" := field fields 9]> stm32 in
  let stm32 := <["option_flags" := field fields 10]> stm32 in
  let stm32 := <["ecdsa_algo" := field fields 11]> stm32 in
  let stm32 := <["ecdsa_pubkey" := field fields 12]> stm32 in
  Ok stm32.

Definition repack_header (image : bytes) (stm32 : gmap string value) : res bytes :=
  a0 ← getitem stm32 "magic";
  a1 ← getitem stm32 "signature";
  a2 ← getitem stm32 "checksum";
  a3 ← getitem stm32 "hdr_version";
  a4 ← getitem stm32 "length";
  a5 ← getitem stm32 "entry_addr";
  a7 ← getitem stm32 "load_addr";
  a9 ← getitem stm32 "rollback_version";
  a10 ← getitem stm32 "option_flags";
  a11 ← getitem stm32 "ecdsa_algo";
  a12 ← getitem stm32 "ecdsa_pubkey";
  packed ← struct_pack hdr_fmt
    [a0; a1; a2; a3; a4; a5; VInt 0; a7; VInt 0; a9; a10; a11; a12; VInt 0];
  Ok (set_header image packed).

Section Pipelines.
Context {Entropy PrivateKey PublicKey : Type}.
Context (lib : CryptoLib Entropy).
Context (p11 : Pkcs11Lib Entropy PrivateKey PublicKey).

(** The outcome and the buffer as the call leaves it. *)
Definition pkcs11_sign_image (image : bytes) (module_path token key_label : string)
    (pin : option string) (rng : Entropy) : res Z * bytes :=
  match unpack_header image with
  | Raise e => (Raise e, image)
  | Ok stm32 =>
  match getitem stm32 "magic" with
  | Raise e => (Raise e, image)
  | Ok magic =>
  if decide (magic ≠ VBytes STM2) then (Ok (-1), image)
  else
    match token_open p11 module_path token pin with
    | Raise e => (Raise e, image)
    | Ok session =>
    match get_private_key session key_label with
    | Raise e => (Raise e, image)
    | Ok privkey =>
    match get_public_key session key_label with
    | Raise e => (Raise e, image)
    | Ok pubkey =>
    let stm32 := <["ecdsa_pubkey" := VBytes (get_raw_pubkey p11 pubkey)]> stm32 in
    match key_algorithm p11 pubkey with
    | Raise e => (Raise e, image)
    | Ok algo =>
    let stm32 := <["ecdsa_algo" := VInt algo]> stm32 in
    let stm32 := <["option_flags" := VInt 0]> stm32 in
    match repack_header image stm32 with
    | Raise e => (Raise e, image)
    | Ok image =>
    let sha := SHA256 lib (drop 0x48 image) in
    match token_sign p11 privkey rng sha with
    | Raise e => (Raise e, image)
    | Ok signature => (Ok 0, set_signature image signature)
    end end end end end end
  end end.

Definition pkcs11_verify_signature (image : bytes) (module_path token key_label : string)
    (pin : option string) : res Z :=
  hdr ← unpack_header image;
  signature ← getitem hdr "signature";
  image_pubkey ← getitem hdr "ecdsa_pubkey";
  session ← token_open p11 module_path token pin;
  pubkey ← get_public_key session key_label;
  let sha := SHA256 lib (drop 0x48 image) in
  match signature with
  | VBytes sig =>
      if DSS_verify lib (import_key p11 pubkey) sha sig then Ok 0 else Ok 2
  | VInt _ => Raise TypeError
  end.

End Pipelines.

(** The dictionaries [unpack_header] of this file builds. *)
Definition wf_header (h : gmap string value) : bool :=
  bool_decide (dom h = common_keys ∪ {["rollback_version"]}) &&
  common_fields_ok h && is_u32 (h !! "rollback_version").

End Pkcs11.

(** ** A small instance to run the definitions on

    A stand-in for the cryptographic library and for a token holding one
    key pair: the tag of a digest is the digest followed by the raw public
    key, cut to 64 bytes. It has the interface of the real primitives and
    none of their security. *)

Definition demo_tag (key : EccKey) (digest : bytes) : bytes :=
  take 64 (digest ++ Local.get_raw_pubkey key ++ replicate 64 x00).

Definition demo_lib : CryptoLib unit := {|
  SHA256 := λ data, take 32 (data ++ replicate 32 x00);
  DSS_sign := λ key _ digest,
    if has_private key then Ok (demo_tag key digest) else Raise TypeError;
  DSS_verify := λ key digest sig, bool_decide (sig = demo_tag key digest);
|}.

(** The key pair of private scalar 1 on P-256: its public point is the
    generator of the curve. *)
Definition demo_key : EccKey := {|
  curve := "NIST P-256";
  pointQ_x := 0x6B17D1F2E12C4247F8BCE6E563A440F277037D812DEB33A0F4A13945D898C296;
  pointQ_y := 0x4FE342E2FE1A7F9B8EE7EB4A7C0F9E162BCE33576B315ECECBB6406837BF51F5;
  has_private := true;
|}.

(** A key on a curve the tool does not know. *)
Definition demo_key_p384 : EccKey := {|
  curve := "NIST P-384";
  pointQ_x := 2 ^ 383 + 5;
  pointQ_y := 2 ^ 380 + 7;
  has_private := true;
|}.

(** A second key of the token, on a curve the tool does not know, under
    the label [key384]. *)
Definition demo_session : Session EccKey EccKey := {|
  get_private_key := λ label,
    if decide (label = "key6892") then Ok demo_key
    else if decide (label = "key384") then Ok demo_key_p384
    else Raise PKCS11Error;
  get_public_key := λ label,
    if decide (label = "key6892") then Ok demo_key
    else if decide (label = "key384") then Ok demo_key_p384
    else Raise PKCS11Error;
|}.

Definition demo_p11 : Pkcs11Lib unit EccKey EccKey := {|
  token_open := λ module_path token pin,
    if decide (token = "boot") then Ok demo_session else Raise PKCS11Error;
  token_sign := λ privkey _ digest, Ok (demo_tag privkey digest);
  import_key := λ pubkey, pubkey;
|}.

(** A 256-byte header with magic [STM2], header version 1 at 0x48 and
    rollback version 2 at 0x60, followed by 16 payload bytes. *)
Definition demo_image : bytes :=
  STM2 ++ replicate 64 x00 ++ le_bytes 4 0x11223344 ++
  le_bytes 4 1 ++ le_bytes 4 16 ++ le_bytes 4 0x2ffc2500 ++ le_bytes 4 0 ++
  le_bytes 4 0x2ffc2400 ++ le_bytes 4 0 ++ le_bytes 4 2 ++ le_bytes 4 0x5a ++
  le_bytes 4 0 ++ replicate 64 xff ++ replicate 83 x00 ++ [x00] ++
  replicate 16 xab.

(** [demo_image] with a tag of [demo_key] in its signature field, and its
    public key field left as it was: 64 bytes 0xff, not the key. *)
Definition demo_forged : bytes :=
  set_signature demo_image
    (demo_tag demo_key (SHA256 demo_lib (drop 0x48 demo_image))).

(** An image that does not start with [STM2]. *)
Definition demo_not_stm32 : bytes := replicate 272 x00.

(** A header dictionary of [stm32-sign.py], and one of
    [stm32-sign-pkcs11.py]. *)
Definition demo_header : gmap string value :=
  <["ecdsa_pubkey" := VBytes (replicate 64 xff)]> (
  <["ecdsa_algo" := VInt 1]> (
  <["option_flags" := VInt 0x5a]> (
  <["load_addr" := VInt 0x2ffc2400]> (
  <["entry_addr" := VInt 0x2ffc2500]> (
  <["length" := VInt 16]> (
  <["hdr_version" := VInt 0x00010000]> (
  <["checksum" := VInt 0x11223344]> (
  <["signature" := VBytes (replicate 64 x00)]> (
  <["magic" := VBytes STM2]> ∅))))))))).

Definition demo_header_p11 : gmap string value :=
  <["rollback_version" := VInt 2]> demo_header.

(** ** Properties named in the statements *)

(** The coordinates of a point of P-256 are below the field prime, hence
    below [2 ^ 256]. *)
Definition p256_point (key : EccKey) : Prop :=
  0 ≤ pointQ_x key < 2 ^ 256 ∧ 0 ≤ pointQ_y key < 2 ^ 256.

(** What the library promises for a P-256 key with its private scalar:
    signing succeeds, the signature is the raw 64 bytes r‖s, and the
    verifier accepts it for the digest that was signed. *)
Definition dss_sound {Entropy} (lib : CryptoLib Entropy) (key : EccKey) : Prop :=
  ∀ rng digest, ∃ sig,
    DSS_sign lib key rng digest = Ok sig ∧ length sig = 64%nat ∧
    DSS_verify lib key digest sig = true.

(** The image with its header written anew: magic, checksum, length, entry
    and load address and the word at 0x60 as they are in [image]; [w3] at
    0x48; option flags 0; algorithm 1; the given public key and signature;
    zeros in the reserved places. *)
Definition rebuilt (image : bytes) (w3 : Z) (pubkey signature : bytes) : bytes :=
  header_bytes (slice 0 4 image) signature (le_to_Z (slice 68 72 image)) w3
    (le_to_Z (slice 76 80 image)) (le_to_Z (slice 80 84 image)) 0
    (le_to_Z (slice 88 92 image)) 0 (le_to_Z (slice 96 100 image)) 0 1
    pubkey 0
  ++ drop 256 image.



(** What the token promises for a private key object: its [ECDSA]
    mechanism returns the raw 64 bytes r‖s. *)
Definition token_signs {Entropy PrivateKey PublicKey}
    (p11 : Pkcs11Lib Entropy PrivateKey PublicKey) (privkey : PrivateKey) : Prop :=
  ∀ rng digest, ∃ sig,
    token_sign p11 privkey rng digest = Ok sig ∧ length sig = 64%nat.

(** The reserved words, the padding and the binding byte are zero. *)
Definition reserved_zero (image : bytes) : Prop :=
  slice 0x54 0x58 image = replicate 4 x00 ∧
  slice 0x5C 0x60 image = replicate 4 x00 ∧
  slice 0xAC 0xFF image = replicate 83 x00 ∧
  slice 0xFF 0x100 image = [x00].

(** ** Reading a raw public key back *)

(** [int.from_bytes(bs, 'big')] *)
Definition be_to_Z (bs : bytes) : Z :=
  fold_left (λ acc b, 256 * acc + byte_to_Z b) bs 0.

(** ** The command line *)

(** Reading a whole file, or writing one, succeeds or raises [OSError]
    with an error number. The files are a parameter. *)
Inductive os_res (A : Type) :=
| OsOk (a : A)
| OsError (errno : Z).
Arguments OsOk {A} a.
Arguments OsError {A} errno.

Record FileSystem (FS : Type) := {
  read_file : FS → string → os_res bytes;
  write_file : FS → string → bytes → os_res FS;
}.
Arguments read_file {FS} _ _ _.
Arguments write_file {FS} _ _ _ _.

(** How [main] ends: with the integer it returns, or with an exception
    nothing catches. *)
Inductive main_outcome :=
| Exit (code : Z)
| Uncaught (e : exn)
| UncaughtOSError (errno : Z).

(** An option as [optparse] stores it, under a test such as
    [if options.sign:]: it counts when it is a string that is not empty. *)
Definition given (o : option string) : option string :=
  match o with
  | Some s => if decide (s = "") then None else Some s
  | None => None
  end.

(** [main] of [stm32-sign.py], from the parsed options on. The key file is
    read and handed to [ECC.import_key], a parameter that takes the bytes
    of the file and the passphrase. *)
Module LocalCli.

Record Options := {
  key_file : option string;
  keypass : option string;
  verbose : bool;
  debug : bool;
  verify_file : option string;
  sign : option string;
  outfile : option string;
}.

Section Main.
Context {Entropy FS : Type} (lib : CryptoLib Entropy) (fsys : FileSystem FS).
Context (ECC_import_key : bytes → option string → res EccKey).

(** [if options.verify_file: ...] and the final [return 0]. *)
Definition main_verify (options : Options) (key : EccKey) (fs : FS)
  : main_outcome * FS :=
  match given (verify_file options) with
  | Some path =>
    match read_file fsys fs path with
    | OsError errno => (Exit errno, fs)
    | OsOk data =>
      match Local.verify_signature lib data key with
      | Raise e => (Uncaught e, fs)
      | Ok _ => (Exit 0, fs)
      end
    end
  | None => (Exit 0, fs)
  end.

Definition main (options : Options) (rng : Entropy) (fs : FS)
  : main_outcome * FS :=
  match given (key_file options) with
  | None => (Exit 1, fs)
  | Some key_path =>
  match read_file fsys fs key_path with
  | OsError errno => (UncaughtOSError errno, fs)
  | OsOk pem =>
  match ECC_import_key pem (keypass options) with
  | Raise e => (Uncaught e, fs)
  | Ok key =>
  match given (sign options) with
  | None => main_verify options key fs
  | Some sign_path =>
    if negb (has_private key) then (Exit 1, fs)
    else
    match read_file fsys fs sign_path with
    | OsError errno => (UncaughtOSError errno, fs)
    | OsOk data =>
    match Local.sign_image lib data key rng with
    | (Raise e, _) => (Uncaught e, fs)
    | (Ok _, data) =>
    match given (outfile options) with
    | None => main_verify options key fs
    | Some out_path =>
      match write_file fsys fs out_path data with
      | OsError errno => (UncaughtOSError errno, fs)
      | OsOk fs => main_verify options key fs
      end
    end end end
  end end end end.

End Main.

End LocalCli.

(** [main] of [stm32-sign-pkcs11.py], from the parsed options on. *)
Module Pkcs11Cli.

Record Options := {
  module_path : option string;
  token : option string;
  key_label : option string;
  pin : option string;
  verbose : bool;
  debug : bool;
  verify_file : option string;
  sign : option string;
  outfile : option string;
}.

Section Main.
Context {Entropy PrivateKey PublicKey FS : Type}.
Context (lib : CryptoLib Entropy) (p11 : Pkcs11Lib Entropy PrivateKey PublicKey).
Context (fsys : FileSystem FS).

(** [if options.verify_file: ...] and the final [return 0]. *)
Definition main_verify (options : Options) (mp tok label : string) (fs : FS)
  : main_outcome * FS :=
  match given (verify_file options) with
  | Some path =>
    match read_file fsys fs path with
    | OsError errno => (Exit errno, fs)
    | OsOk data =>
      match Pkcs11.pkcs11_verify_signature lib p11 data mp tok label (pin options) with
      | Raise e => (Uncaught e, fs)
      | Ok _ => (Exit 0, fs)
      end
    end
  | None => (Exit 0, fs)
  end.

Definition main (options : Options) (rng : Entropy) (fs : FS)
  : main_outcome * FS :=
  match given (module_path options) with
  | None => (Exit 1, fs)
  | Some mp =>
  match given (token options) with
  | None => (Exit 1, fs)
  | Some tok =>
  match given (key_label options) with
  | None => (Exit 1, fs)
  | Some label =>
  match given (sign options) with
  | None => main_verify options mp tok label fs
  | Some sign_path =>
    match read_file fsys fs sign_path with
    | OsError errno => (UncaughtOSError errno, fs)
    | OsOk data =>
    match Pkcs11.pkcs11_sign_image lib p11 data mp tok label (pin options) rng with
    | (Raise e, _) => (Uncaught e, fs)
    | (Ok _, data) =>
    match given (outfile options) with
    | None => main_verify options mp tok label fs
    | Some out_path =>
      match write_file fsys fs out_path data with
      | OsError errno => (UncaughtOSError errno, fs)
      | OsOk fs => main_verify options mp tok label fs
      end
    end end end
  end end end end.

End Main.

End Pkcs11Cli.

(** ** More stand-ins *)

(** The stand-in library with a verifier that accepts nothing. *)
Definition demo_lib_deaf : CryptoLib unit := {|
  SHA256 := SHA256 demo_lib;
  DSS_sign := DSS_sign demo_lib;
  DSS_verify := λ _ _ _, false;
|}.

(** The stand-in token with a signature mechanism that fails. *)
Definition demo_p11_locked : Pkcs11Lib unit EccKey EccKey := {|
  token_open := token_open demo_p11;
  token_sign := λ _ _ _, Raise PKCS11Error;
  import_key := import_key demo_p11;
|}.

(** [demo_key] without its private scalar. *)
Definition demo_key_public : EccKey := {|
  curve := curve demo_key;
  pointQ_x := pointQ_x demo_key;
  pointQ_y := pointQ_y demo_key;
  has_private := false;
|}.

(** ** Files to run [main] on *)

(** Files as a finite map from paths to contents: a missing path cannot be
    read (error number 2), and any path can be written. *)
Definition demo_files : FileSystem (gmap string bytes) := {|
  read_file := λ fs path,
    match fs !! path with
    | Some data => OsOk data
    | None => OsError 2
    end;
  write_file := λ fs path data, OsOk (<[path := data]> fs);
|}.

Definition demo_pem : bytes := [x2d; x2d; x2d; x2d; x2d; x42; x45; x47].
Definition demo_pem_p384 : bytes := [x2d; x2d; x2d; x2d; x2d; x33; x38; x34].

(** A stand-in for [ECC.import_key] that knows the two demo key files. *)
Definition demo_import_key (pem : bytes) (passphrase : option string) : res EccKey :=
  if decide (pem = demo_pem) then Ok demo_key
  else if decide (pem = demo_pem_p384) then Ok demo_key_p384
  else Raise ValueError.

Definition demo_fs : gmap string bytes :=
  <["key.pem" := demo_pem]> (
  <["p384.pem" := demo_pem_p384]> (
  <["tf-a.stm32" := demo_image]> (
  <["forged.stm32" := demo_forged]> (
  <["notes.txt" := demo_not_stm32]> (
  <["empty.bin" := []]> ∅))))).

(** Options as the command line gives them: for [stm32-sign.py] the key
    file and the files to sign, to write and to verify; for
    [stm32-sign-pkcs11.py] the demo token and its P-256 key, and the same
    three files. *)
Definition demo_options (key sign out verify : option string) : LocalCli.Options := {|
  LocalCli.key_file := key;
  LocalCli.keypass := None;
  LocalCli.verbose := false;
  LocalCli.debug := false;
  LocalCli.verify_file := verify;
  LocalCli.sign := sign;
  LocalCli.outfile := out;
|}.

Definition demo_p11_options (sign out verify : option string) : Pkcs11Cli.Options := {|
  Pkcs11Cli.module_path := Some "softhsm"%string;
  Pkcs11Cli.token := Some "boot"%string;
  Pkcs11Cli.key_label := Some "key6892"%string;
  Pkcs11Cli.pin := None;
  Pkcs11Cli.verbose := false;
  Pkcs11Cli.debug := false;
  Pkcs11Cli.verify_file := verify;
  Pkcs11Cli.sign := sign;
  Pkcs11Cli.outfile := out;
|}.

(** * Properties *)

(** ** Bytes and little-endian integers *)

Lemma byte_to_Z_range (b : byte) : 0 ≤ byte_to_Z b < 256.
Proof.
  unfold byte_to_Z. pose proof (Byte.to_N_bounded b). lia.
Qed.

Lemma byte_of_to_Z (b : byte) : byte_of_Z (byte_to_Z b) = b.
Proof.
  unfold byte_of_Z. pose proof (byte_to_Z_range b) as Hr.
  rewrite Z.mod_small by lia. unfold byte_to_Z.
  rewrite N2Z.id. by rewrite Byte.of_to_N.
Qed.

Lemma byte_to_of_Z (z : Z) : byte_to_Z (byte_of_Z z) = z mod 256.
Proof.
  unfold byte_of_Z, byte_to_Z.
  pose proof (Z.mod_pos_bound z 256 ltac:(lia)) as Hr.
  destruct (Byte.of_N (Z.to_N (z mod 256))) as [b|] eqn:E.
  - apply Byte.to_of_N in E. rewrite E. lia.
  - apply Byte.of_N_None_iff in E. lia.
Qed.

Lemma length_le_bytes k z : length (le_bytes k z) = k.
Proof. revert z. induction k as [|k IH]; intros z; simpl; [done|]. by rewrite IH. Qed.

Lemma le_to_Z_range (bs : bytes) : 0 ≤ le_to_Z bs < 256 ^ Z.of_nat (length bs).
Proof.
  induction bs as [|b bs IH]; [simpl; lia|].
  cbn [le_to_Z length]. rewrite Nat2Z.inj_succ, Z.pow_succ_r by lia.
  pose proof (byte_to_Z_range b). lia.
Qed.

Lemma le_bytes_to_Z (bs : bytes) : le_bytes (length bs) (le_to_Z bs) = bs.
Proof.
  induction bs as [|b bs IH]; [done|].
  cbn [le_to_Z length le_bytes].
  pose proof (byte_to_Z_range b) as Hb.
  rewrite <- (Z.mod_unique _ 256 (le_to_Z bs) (byte_to_Z b)) by lia.
  rewrite <- (Z.div_unique _ 256 (le_to_Z bs) (byte_to_Z b)) by lia.
  by rewrite byte_of_to_Z, IH.
Qed.

Lemma le_to_Z_bytes k z : 0 ≤ z < 256 ^ Z.of_nat k → le_to_Z (le_bytes k z) = z.
Proof.
  revert z. induction k as [|k IH]; intros z Hz.
  - simpl in *. lia.
  - cbn [le_bytes le_to_Z]. rewrite byte_to_of_Z, Z.mod_mod by lia.
    rewrite Nat2Z.inj_succ, Z.pow_succ_r in Hz by lia.
    rewrite IH.
    + pose proof (Z.div_mod z 256 ltac:(lia)). lia.
    + split; [apply Z.div_pos; lia|].
      apply Z.div_lt_upper_bound; lia.
Qed.

(** ** Slices *)

Lemma length_slice a b (l : bytes) :
  (b ≤ length l)%nat → length (slice a b l) = (b - a)%nat.
Proof. intros H. unfold slice. rewrite length_take, length_drop. lia. Qed.

Lemma slice_app_skip a b (l k : bytes) n :
  n = length l → (n ≤ a)%nat → slice a b (l ++ k) = slice (a - n) (b - n) k.
Proof.
  intros -> Ha. unfold slice. rewrite drop_app_ge by lia.
  f_equal. lia.
Qed.

Lemma slice_app_hit b (l k : bytes) :
  b = length l → slice 0 b (l ++ k) = l.
Proof.
  intros ->. unfold slice. rewrite drop_0, Nat.sub_0_r. by apply take_app_length'.
Qed.

Lemma slice_take a b k (l : bytes) :
  (b ≤ k)%nat → slice a b (take k l) = slice a b l.
Proof.
  intros H. unfold slice. rewrite skipn_firstn_comm, take_take.
  f_equal. lia.
Qed.

Lemma drop_app_skip a (l k : bytes) n :
  n = length l → (n ≤ a)%nat → drop a (l ++ k) = drop (a - n) k.
Proof. intros -> Ha. by rewrite drop_app_ge by lia. Qed.

Lemma slice_drop a b n (l : bytes) :
  slice a b (drop n l) = slice (n + a) (n + b) l.
Proof. unfold slice. rewrite drop_drop. f_equal. lia. Qed.

Lemma slice_join a b c (l : bytes) :
  (a ≤ b)%nat → (b ≤ c)%nat → slice a b l ++ slice b c l = slice a c l.
Proof.
  intros Hab Hbc. unfold slice.
  replace (drop b l) with (drop (b - a) (drop a l)) by (rewrite drop_drop; f_equal; lia).
  rewrite take_take_drop. f_equal. lia.
Qed.


(** ** [struct.pack] and [struct.unpack] *)

Lemma pack_s_exact n b : length b = n → pack_s n (VBytes b) = Ok b.
Proof.
  intros <-. unfold pack_s. rewrite firstn_all, Nat.sub_diag. simpl.
  by rewrite app_nil_r.
Qed.

Lemma pack_uint_ok k z :
  0 ≤ z < 256 ^ Z.of_nat k → pack_uint k (VInt z) = Ok (le_bytes k z).
Proof. intros H. unfold pack_uint. by rewrite decide_True. Qed.

Lemma pack_uint_le (bs : bytes) :
  pack_uint (length bs) (VInt (le_to_Z bs)) = Ok bs.
Proof.
  rewrite pack_uint_ok by apply le_to_Z_range. by rewrite le_bytes_to_Z.
Qed.

Lemma res_bind_Ok {A B} (a : A) (k : A → res B) : (Ok a ≫= k) = k a.
Proof. done. Qed.

Lemma struct_pack_Fs n fmt b args r :
  length b = n → struct_pack fmt args = Ok r →
  struct_pack (Fs n :: fmt) (VBytes b :: args) = Ok (b ++ r).
Proof. intros Hb Hr. cbn [struct_pack]. by rewrite pack_s_exact, Hr. Qed.

Lemma struct_pack_FI fmt z args r :
  0 ≤ z < 256 ^ 4 → struct_pack fmt args = Ok r →
  struct_pack (FI :: fmt) (VInt z :: args) = Ok (le_bytes 4 z ++ r).
Proof. intros Hz Hr. cbn [struct_pack]. by rewrite pack_uint_ok, Hr. Qed.

Lemma struct_pack_FB fmt z args r :
  0 ≤ z < 256 ^ 1 → struct_pack fmt args = Ok r →
  struct_pack (FB :: fmt) (VInt z :: args) = Ok (le_bytes 1 z ++ r).
Proof. intros Hz Hr. cbn [struct_pack]. by rewrite pack_uint_ok, Hr. Qed.

Lemma struct_pack_Fx n fmt args r :
  struct_pack fmt args = Ok r →
  struct_pack (Fx n :: fmt) args = Ok (replicate n x00 ++ r).
Proof. intros Hr. cbn [struct_pack]. by rewrite Hr. Qed.

(** Packing well-formed arguments succeeds, gives [calcsize] bytes, and
    unpacking them, wherever they lie in a buffer, gives the arguments
    back. *)
Lemma struct_pack_unpack fmt : ∀ args,
  args_ok fmt args = true →
  ∃ b, struct_pack fmt args = Ok b ∧ length b = calcsize fmt ∧
       ∀ pre rest, unpack_from fmt (length pre) (pre ++ b ++ rest) = args.
Proof.
  assert (Hslice : ∀ (pre x r rest : bytes) n, length x = n →
    slice (length pre) (length pre + n) (pre ++ (x ++ r) ++ rest) = x).
  { intros pre x r rest n Hn. rewrite (slice_app_skip _ _ pre _ (length pre)) by lia.
    rewrite <- app_assoc. rewrite Nat.sub_diag.
    replace (length pre + n - length pre)%nat with n by lia.
    by apply slice_app_hit. }
  assert (Hstep : ∀ fmt' args' (pre x r rest : bytes) n, length x = n →
    (∀ pre rest, unpack_from fmt' (length pre) (pre ++ r ++ rest) = args') →
    unpack_from fmt' (length pre + n) (pre ++ (x ++ r) ++ rest) = args').
  { intros fmt' args' pre x r rest n Hn Hun.
    replace (pre ++ (x ++ r) ++ rest) with ((pre ++ x) ++ r ++ rest)
      by (by rewrite <- !app_assoc).
    replace (length pre + n)%nat with (length (pre ++ x))
      by (rewrite length_app; lia).
    apply Hun. }
  induction fmt as [|it fmt IH]; intros args Hok.
  - apply bool_decide_eq_true in Hok as ->. by exists [].
  - destruct it as [n| |n|]; cbn [args_ok] in Hok.
    + destruct args as [|[b|z] args]; try done.
      apply andb_prop in Hok as [Hb Hok]. apply bool_decide_eq_true in Hb.
      destruct (IH _ Hok) as (r & Hr & Hlen & Hun).
      exists (b ++ r). split; [by apply struct_pack_Fs|].
      split; [rewrite length_app; cbn; lia|].
      intros pre rest. cbn [unpack_from].
      by rewrite Hslice, (Hstep fmt args).
    + destruct args as [|[b|z] args]; try done.
      apply andb_prop in Hok as [Hz Hok]. apply bool_decide_eq_true in Hz.
      destruct (IH _ Hok) as (r & Hr & Hlen & Hun).
      exists (le_bytes 4 z ++ r). split; [by apply struct_pack_FI|].
      split; [rewrite length_app, length_le_bytes; cbn; lia|].
      intros pre rest. cbn [unpack_from].
      rewrite Hslice, (Hstep fmt args) by (done || apply length_le_bytes).
      by rewrite le_to_Z_bytes.
    + destruct (IH _ Hok) as (r & Hr & Hlen & Hun).
      exists (replicate n x00 ++ r). split; [by apply struct_pack_Fx|].
      split; [rewrite length_app, length_replicate; cbn; lia|].
      intros pre rest. cbn [unpack_from].
      by rewrite (Hstep fmt args) by (done || apply length_replicate).
    + destruct args as [|[b|z] args]; try done.
      apply andb_prop in Hok as [Hz Hok]. apply bool_decide_eq_true in Hz.
      destruct (IH _ Hok) as (r & Hr & Hlen & Hun).
      exists (le_bytes 1 z ++ r). split; [by apply struct_pack_FB|].
      split; [rewrite length_app, length_le_bytes; cbn; lia|].
      intros pre rest. cbn [unpack_from].
      rewrite Hslice, (Hstep fmt args) by (done || apply length_le_bytes).
      by rewrite le_to_Z_bytes.
Qed.

(** Whatever [struct.pack] returns has the size of the format. *)
Lemma struct_pack_length fmt : ∀ args b,
  struct_pack fmt args = Ok b → length b = calcsize fmt.
Proof.
  induction fmt as [|it fmt IH]; intros args b H.
  - destruct args; [|done]. by injection H as <-.
  - destruct it as [n| |n|]; cbn [struct_pack] in H.
    + destruct args as [|[v|z] args]; try done. cbn in H.
      destruct (struct_pack fmt args) as [r|] eqn:Hr; [|done].
      injection H as <-. apply IH in Hr.
      rewrite !length_app, length_take, length_replicate. cbn. lia.
    + destruct args as [|[v|z] args]; try done.
      unfold pack_uint in H. case_decide; [|done].
      rewrite res_bind_Ok in H.
      destruct (struct_pack fmt args) as [r|] eqn:Hr; [|done].
      injection H as <-. apply IH in Hr.
      cbn. lia.
    + destruct (struct_pack fmt args) as [r|] eqn:Hr; [|done].
      injection H as <-. apply IH in Hr.
      rewrite length_app, length_replicate. cbn. lia.
    + destruct args as [|[v|z] args]; try done.
      unfold pack_uint in H. case_decide; [|done].
      rewrite res_bind_Ok in H.
      destruct (struct_pack fmt args) as [r|] eqn:Hr; [|done].
      injection H as <-. apply IH in Hr.
      cbn. lia.
Qed.

Lemma calcsize_hdr_fmt : calcsize hdr_fmt = 256%nat.
Proof. reflexivity. Qed.

(** ** The header format *)

Lemma struct_unpack_hdr (image : bytes) :
  (256 ≤ length image)%nat →
  struct_unpack hdr_fmt (take 256 image) = Ok
    [VBytes (slice 0 4 image); VBytes (slice 4 68 image);
     VInt (le_to_Z (slice 68 72 image)); VInt (le_to_Z (slice 72 76 image));
     VInt (le_to_Z (slice 76 80 image)); VInt (le_to_Z (slice 80 84 image));
     VInt (le_to_Z (slice 84 88 image)); VInt (le_to_Z (slice 88 92 image));
     VInt (le_to_Z (slice 92 96 image)); VInt (le_to_Z (slice 96 100 image));
     VInt (le_to_Z (slice 100 104 image)); VInt (le_to_Z (slice 104 108 image));
     VBytes (slice 108 172 image); VInt (le_to_Z (slice 255 256 image))].
Proof.
  intros Hlen. unfold struct_unpack.
  rewrite decide_True by (rewrite length_take, calcsize_hdr_fmt; lia).
  cbv [hdr_fmt app replicate unpack_from Nat.add].
  by rewrite !slice_take by lia.
Qed.

Lemma struct_unpack_hdr_short (image : bytes) :
  (length image < 256)%nat →
  struct_unpack hdr_fmt (take 256 image) = Raise StructError.
Proof.
  intros Hlen. unfold struct_unpack.
  by rewrite decide_False by (rewrite length_take, calcsize_hdr_fmt; lia).
Qed.

Lemma length_header_bytes m s c w3 len ent w6 lo w8 w9 opt algo pk bd :
  length m = 4%nat → length s = 64%nat → length pk = 64%nat →
  length (header_bytes m s c w3 len ent w6 lo w8 w9 opt algo pk bd) = 256%nat.
Proof.
  intros Hm Hs Hpk. unfold header_bytes.
  rewrite !length_app, !length_le_bytes, length_replicate. lia.
Qed.

Lemma struct_pack_hdr m s c w3 len ent w6 lo w8 w9 opt algo pk bd :
  length m = 4%nat → length s = 64%nat → length pk = 64%nat →
  0 ≤ c < 256 ^ 4 → 0 ≤ w3 < 256 ^ 4 → 0 ≤ len < 256 ^ 4 →
  0 ≤ ent < 256 ^ 4 → 0 ≤ w6 < 256 ^ 4 → 0 ≤ lo < 256 ^ 4 →
  0 ≤ w8 < 256 ^ 4 → 0 ≤ w9 < 256 ^ 4 → 0 ≤ opt < 256 ^ 4 →
  0 ≤ algo < 256 ^ 4 → 0 ≤ bd < 256 ^ 1 →
  struct_pack hdr_fmt
    [VBytes m; VBytes s; VInt c; VInt w3; VInt len; VInt ent; VInt w6;
     VInt lo; VInt w8; VInt w9; VInt opt; VInt algo; VBytes pk; VInt bd]
  = Ok (header_bytes m s c w3 len ent w6 lo w8 w9 opt algo pk bd).
Proof.
  intros. unfold header_bytes.
  change hdr_fmt with
    [Fs 4; Fs 64; FI; FI; FI; FI; FI; FI; FI; FI; FI; FI; Fs 64; Fx 83; FB].
  repeat first
    [ apply struct_pack_Fs; [done|]
    | apply struct_pack_FI; [done|]
    | apply struct_pack_FB; [done|]
    | apply struct_pack_Fx ].
  reflexivity.
Qed.

(** ** Header dictionaries *)

Lemma is_bytes_inv n v :
  is_bytes n v = true → ∃ b, v = Some (VBytes b) ∧ length b = n.
Proof.
  destruct v as [[b|z]|]; try done. intros H%bool_decide_eq_true. eauto.
Qed.

Lemma is_u32_inv v :
  is_u32 v = true → ∃ z, v = Some (VInt z) ∧ 0 ≤ z < 256 ^ 4.
Proof.
  destruct v as [[b|z]|]; try done. intros H%bool_decide_eq_true. eauto.
Qed.

Lemma getitem_Some (h : gmap string value) k v :
  h !! k = Some v → getitem h k = Ok v.
Proof. intros H. unfold getitem. by rewrite H. Qed.

Lemma common_fields_inv (h : gmap string value) :
  common_fields_ok h = true →
  ∃ m s c hv len ent lo opt algo pk,
    (h !! "magic" = Some (VBytes m) ∧ h !! "signature" = Some (VBytes s) ∧
     h !! "checksum" = Some (VInt c) ∧ h !! "hdr_version" = Some (VInt hv) ∧
     h !! "length" = Some (VInt len) ∧ h !! "entry_addr" = Some (VInt ent) ∧
     h !! "load_addr" = Some (VInt lo) ∧ h !! "option_flags" = Some (VInt opt) ∧
     h !! "ecdsa_algo" = Some (VInt algo) ∧ h !! "ecdsa_pubkey" = Some (VBytes pk)) ∧
    (length m = 4%nat ∧ length s = 64%nat ∧ length pk = 64%nat) ∧
    (0 ≤ c < 256 ^ 4 ∧ 0 ≤ hv < 256 ^ 4 ∧ 0 ≤ len < 256 ^ 4 ∧
     0 ≤ ent < 256 ^ 4 ∧ 0 ≤ lo < 256 ^ 4 ∧ 0 ≤ opt < 256 ^ 4 ∧
     0 ≤ algo < 256 ^ 4).
Proof.
  unfold common_fields_ok. intros H.
  repeat (apply andb_prop in H as [H ?]).
  repeat match goal with
  | H : is_bytes _ _ = true |- _ => apply is_bytes_inv in H as (? & ? & ?)
  | H : is_u32 _ = true |- _ => apply is_u32_inv in H as (? & ? & ?)
  end.
  do 10 eexists. repeat split; first [eassumption | lia].
Qed.

Lemma common_fields_intro (h : gmap string value) m s c hv len ent lo opt algo pk :
  h !! "magic" = Some (VBytes m) → h !! "signature" = Some (VBytes s) →
  h !! "checksum" = Some (VInt c) → h !! "hdr_version" = Some (VInt hv) →
  h !! "length" = Some (VInt len) → h !! "entry_addr" = Some (VInt ent) →
  h !! "load_addr" = Some (VInt lo) → h !! "option_flags" = Some (VInt opt) →
  h !! "ecdsa_algo" = Some (VInt algo) → h !! "ecdsa_pubkey" = Some (VBytes pk) →
  length m = 4%nat → length s = 64%nat → length pk = 64%nat →
  0 ≤ c < 256 ^ 4 → 0 ≤ hv < 256 ^ 4 → 0 ≤ len < 256 ^ 4 →
  0 ≤ ent < 256 ^ 4 → 0 ≤ lo < 256 ^ 4 → 0 ≤ opt < 256 ^ 4 →
  0 ≤ algo < 256 ^ 4 →
  common_fields_ok h = true.
Proof.
  intros. unfold common_fields_ok.
  repeat match goal with H : h !! _ = Some _ |- _ => rewrite H; clear H end.
  cbn [is_bytes is_u32].
  by rewrite !bool_decide_eq_true_2 by done.
Qed.

Lemma u32_of_slice (image : bytes) a b :
  (b ≤ length image)%nat → (b - a = 4)%nat →
  0 ≤ le_to_Z (slice a b image) < 256 ^ 4.
Proof.
  intros Hb Hab. pose proof (le_to_Z_range (slice a b image)) as H.
  by rewrite length_slice, Hab in H.
Qed.

(** *** [stm32-sign.py] *)

Lemma local_unpack_header_short (image : bytes) :
  (length image < 256)%nat → Local.unpack_header image = Raise StructError.
Proof.
  intros H. unfold Local.unpack_header. by rewrite struct_unpack_hdr_short.
Qed.

Lemma local_unpack_header_ok (image : bytes) :
  (256 ≤ length image)%nat →
  Local.unpack_header image = Ok (
    <["ecdsa_pubkey" := VBytes (slice 108 172 image)]> (
    <["ecdsa_algo" := VInt (le_to_Z (slice 104 108 image))]> (
    <["option_flags" := VInt (le_to_Z (slice 100 104 image))]> (
    <["hdr_version" := VInt (le_to_Z (slice 96 100 image))]> (
    <["load_addr" := VInt (le_to_Z (slice 88 92 image))]> (
    <["entry_addr" := VInt (le_to_Z (slice 80 84 image))]> (
    <["length" := VInt (le_to_Z (slice 76 80 image))]> (
    <["hdr_version" := VInt (le_to_Z (slice 72 76 image))]> (
    <["checksum" := VInt (le_to_Z (slice 68 72 image))]> (
    <["signature" := VBytes (slice 4 68 image)]> (
    <["magic" := VBytes (slice 0 4 image)]> ∅))))))))))).
Proof.
  intros H. unfold Local.unpack_header. by rewrite struct_unpack_hdr.
Qed.

Lemma local_repack_header_ok (image : bytes) (h : gmap string value)
    m s c hv len ent lo opt algo pk :
  h !! "magic" = Some (VBytes m) → h !! "signature" = Some (VBytes s) →
  h !! "checksum" = Some (VInt c) → h !! "hdr_version" = Some (VInt hv) →
  h !! "length" = Some (VInt len) → h !! "entry_addr" = Some (VInt ent) →
  h !! "load_addr" = Some (VInt lo) → h !! "option_flags" = Some (VInt opt) →
  h !! "ecdsa_algo" = Some (VInt algo) → h !! "ecdsa_pubkey" = Some (VBytes pk) →
  length m = 4%nat → length s = 64%nat → length pk = 64%nat →
  0 ≤ c < 256 ^ 4 → 0 ≤ hv < 256 ^ 4 → 0 ≤ len < 256 ^ 4 →
  0 ≤ ent < 256 ^ 4 → 0 ≤ lo < 256 ^ 4 → 0 ≤ opt < 256 ^ 4 →
  0 ≤ algo < 256 ^ 4 →
  Local.repack_header image h =
    Ok (set_header image (header_bytes m s c hv len ent 0 lo 0 hv opt algo pk 0)).
Proof.
  intros. unfold Local.repack_header.
  repeat match goal with
  | H : h !! _ = Some _ |- _ => rewrite (getitem_Some _ _ _ H), ?res_bind_Ok; clear H
  end.
  rewrite ?res_bind_Ok.
  by rewrite struct_pack_hdr by (done || lia).
Qed.

(** *** [stm32-sign-pkcs11.py] *)

Lemma pkcs11_unpack_header_short (image : bytes) :
  (length image < 256)%nat → Pkcs11.unpack_header image = Raise StructError.
Proof.
  intros H. unfold Pkcs11.unpack_header. by rewrite struct_unpack_hdr_short.
Qed.

Lemma pkcs11_unpack_header_ok (image : bytes) :
  (256 ≤ length image)%nat →
  Pkcs11.unpack_header image = Ok (
    <["ecdsa_pubkey" := VBytes (slice 108 172 image)]> (
    <["ecdsa_algo" := VInt (le_to_Z (slice 104 108 image))]> (
    <["option_flags" := VInt (le_to_Z (slice 100 104 image))]> (
    <["rollback_version" := VInt (le_to_Z (slice 96 100 image))]> (
    <["load_addr" := VInt (le_to_Z (slice 88 92 image))]> (
    <["entry_addr" := VInt (le_to_Z (slice 80 84 image))]> (
    <["length" := VInt (le_to_Z (slice 76 80 image))]> (
    <["hdr_version" := VInt (le_to_Z (slice 72 76 image))]> (
    <["checksum" := VInt (le_to_Z (slice 68 72 image))]> (
    <["signature" := VBytes (slice 4 68 image)]> (
    <["magic" := VBytes (slice 0 4 image)]> ∅))))))))))).
Proof.
  intros H. unfold Pkcs11.unpack_header. by rewrite struct_unpack_hdr.
Qed.

Lemma pkcs11_repack_header_ok (image : bytes) (h : gmap string value)
    m s c hv len ent lo rb opt algo pk :
  h !! "magic" = Some (VBytes m) → h !! "signature" = Some (VBytes s) →
  h !! "checksum" = Some (VInt c) → h !! "hdr_version" = Some (VInt hv) →
  h !! "length" = Some (VInt len) → h !! "entry_addr" = Some (VInt ent) →
  h !! "load_addr" = Some (VInt lo) → h !! "rollback_version" = Some (VInt rb) →
  h !! "option_flags" = Some (VInt opt) →
  h !! "ecdsa_algo" = Some (VInt algo) → h !! "ecdsa_pubkey" = Some (VBytes pk) →
  length m = 4%nat → length s = 64%nat → length pk = 64%nat →
  0 ≤ c < 256 ^ 4 → 0 ≤ hv < 256 ^ 4 → 0 ≤ len < 256 ^ 4 →
  0 ≤ ent < 256 ^ 4 → 0 ≤ lo < 256 ^ 4 → 0 ≤ rb < 256 ^ 4 →
  0 ≤ opt < 256 ^ 4 → 0 ≤ algo < 256 ^ 4 →
  Pkcs11.repack_header image h =
    Ok (set_header image (header_bytes m s c hv len ent 0 lo 0 rb opt algo pk 0)).
Proof.
  intros. unfold Pkcs11.repack_header.
  repeat match goal with
  | H : h !! _ = Some _ |- _ => rewrite (getitem_Some _ _ _ H), ?res_bind_Ok; clear H
  end.
  rewrite ?res_bind_Ok.
  by rewrite struct_pack_hdr by (done || lia).
Qed.

(** ** The layout of the 256 header bytes *)

Lemma slice_app_skip' a b (l k : bytes) :
  (length l ≤ a)%nat → slice a b (l ++ k) = slice (a - length l) (b - length l) k.
Proof. intros H. by apply slice_app_skip. Qed.

Lemma drop_app_skip' a (l k : bytes) :
  (length l ≤ a)%nat → drop a (l ++ k) = drop (a - length l) k.
Proof. intros H. by apply drop_app_skip. Qed.

Lemma slice_app_hit' b (l k : bytes) : b = length l → slice 0 b (l ++ k) = l.
Proof. apply slice_app_hit. Qed.

Lemma slice_all b (l : bytes) : b = length l → slice 0 b l = l.
Proof. intros ->. unfold slice. by rewrite drop_0, Nat.sub_0_r, firstn_all. Qed.

Section Layout.
Context (m s : bytes) (c w3 len ent w6 lo w8 w9 opt algo : Z) (pk : bytes) (bd : Z).
Context (rest : bytes).
Context (Hm : length m = 4%nat) (Hs : length s = 64%nat) (Hpk : length pk = 64%nat).

Local Abbreviation img :=
  (header_bytes m s c w3 len ent w6 lo w8 w9 opt algo pk bd ++ rest).

Local Ltac lens :=
  rewrite ?length_le_bytes, ?length_replicate, ?Hm, ?Hs, ?Hpk; cbn [Nat.sub]; lia.

Local Ltac walk :=
  unfold header_bytes; rewrite <- ?app_assoc;
  repeat (rewrite slice_app_skip' by lens);
  repeat (rewrite drop_app_skip' by lens);
  rewrite ?length_le_bytes, ?length_replicate, ?Hm, ?Hs, ?Hpk; cbn [Nat.sub];
  first [ apply slice_app_hit'; lens | apply drop_0 ].

Lemma layout_magic : slice 0 4 img = m.
Proof. walk. Qed.
Lemma layout_signature : slice 4 68 img = s.
Proof. walk. Qed.
Lemma layout_checksum : slice 68 72 img = le_bytes 4 c.
Proof. walk. Qed.
Lemma layout_w3 : slice 72 76 img = le_bytes 4 w3.
Proof. walk. Qed.
Lemma layout_length : slice 76 80 img = le_bytes 4 len.
Proof. walk. Qed.
Lemma layout_entry_addr : slice 80 84 img = le_bytes 4 ent.
Proof. walk. Qed.
Lemma layout_w6 : slice 84 88 img = le_bytes 4 w6.
Proof. walk. Qed.
Lemma layout_load_addr : slice 88 92 img = le_bytes 4 lo.
Proof. walk. Qed.
Lemma layout_w8 : slice 92 96 img = le_bytes 4 w8.
Proof. walk. Qed.
Lemma layout_w9 : slice 96 100 img = le_bytes 4 w9.
Proof. walk. Qed.
Lemma layout_option_flags : slice 100 104 img = le_bytes 4 opt.
Proof. walk. Qed.
Lemma layout_ecdsa_algo : slice 104 108 img = le_bytes 4 algo.
Proof. walk. Qed.
Lemma layout_ecdsa_pubkey : slice 108 172 img = pk.
Proof. walk. Qed.
Lemma layout_padding : slice 172 255 img = replicate 83 x00.
Proof. walk. Qed.
Lemma layout_binding : slice 255 256 img = le_bytes 1 bd.
Proof. walk. Qed.
Lemma layout_payload : drop 256 img = rest.
Proof. walk. Qed.

Lemma layout_length_total : length img = (256 + length rest)%nat.
Proof. rewrite length_app, length_header_bytes by done. lia. Qed.

(** Replacing the signature field keeps every other byte. *)
Lemma layout_set_signature sig :
  set_signature img sig =
  header_bytes m sig c w3 len ent w6 lo w8 w9 opt algo pk bd ++ rest.
Proof.
  unfold set_signature. unfold header_bytes.
  rewrite <- !app_assoc.
  rewrite take_app_length' by done.
  rewrite (drop_app_skip' 68) by lens. rewrite Hm.
  rewrite (drop_app_skip' _ s) by lens. rewrite Hs.
  done.
Qed.

End Layout.

(** ** What [struct.pack] returns, read back from a success *)

Lemma length_pack_s n v b : pack_s n v = Ok b → length b = n.
Proof.
  destruct v as [x|z]; [|done]. intros [= <-].
  rewrite length_app, length_take, length_replicate. lia.
Qed.

Lemma struct_pack_Fs_inv n fmt v args b :
  struct_pack (Fs n :: fmt) (v :: args) = Ok b →
  ∃ x r, b = x ++ r ∧ length x = n ∧ struct_pack fmt args = Ok r.
Proof.
  cbn [struct_pack]. destruct (pack_s n v) as [x|] eqn:Hx; [|done].
  rewrite res_bind_Ok. destruct (struct_pack fmt args) as [r|]; [|done].
  intros [= <-]. exists x, r. eauto using length_pack_s.
Qed.

Lemma struct_pack_uint_inv k v b :
  pack_uint k v = Ok b → ∃ z, v = VInt z ∧ 0 ≤ z < 256 ^ Z.of_nat k ∧ b = le_bytes k z.
Proof.
  destruct v as [x|z]; [done|]. unfold pack_uint. case_decide; [|done].
  intros [= <-]. eauto.
Qed.

Lemma struct_pack_FI_inv fmt v args b :
  struct_pack (FI :: fmt) (v :: args) = Ok b →
  ∃ z r, v = VInt z ∧ 0 ≤ z < 256 ^ 4 ∧ b = le_bytes 4 z ++ r ∧
         struct_pack fmt args = Ok r.
Proof.
  cbn [struct_pack]. destruct (pack_uint 4 v) as [x|] eqn:Hx; [|done].
  rewrite res_bind_Ok. destruct (struct_pack fmt args) as [r|]; [|done].
  intros [= <-]. apply struct_pack_uint_inv in Hx as (z & -> & Hz & ->).
  exists z, r. eauto.
Qed.

Lemma struct_pack_FB_inv fmt v args b :
  struct_pack (FB :: fmt) (v :: args) = Ok b →
  ∃ z r, v = VInt z ∧ 0 ≤ z < 256 ^ 1 ∧ b = le_bytes 1 z ++ r ∧
         struct_pack fmt args = Ok r.
Proof.
  cbn [struct_pack]. destruct (pack_uint 1 v) as [x|] eqn:Hx; [|done].
  rewrite res_bind_Ok. destruct (struct_pack fmt args) as [r|]; [|done].
  intros [= <-]. apply struct_pack_uint_inv in Hx as (z & -> & Hz & ->).
  exists z, r. eauto.
Qed.

Lemma struct_pack_Fx_inv n fmt args b :
  struct_pack (Fx n :: fmt) args = Ok b →
  ∃ r, b = replicate n x00 ++ r ∧ struct_pack fmt args = Ok r.
Proof.
  cbn [struct_pack]. destruct (struct_pack fmt args) as [r|]; [|done].
  intros [= <-]. eauto.
Qed.

(** Whatever the fourteen arguments, a header that packs has the layout of
    [header_bytes]. *)
Lemma struct_pack_hdr_inv a0 a1 a2 a3 a4 a5 a6 a7 a8 a9 a10 a11 a12 a13 packed :
  struct_pack hdr_fmt [a0; a1; a2; a3; a4; a5; a6; a7; a8; a9; a10; a11; a12; a13]
    = Ok packed →
  ∃ m s c w3 len ent w6 lo w8 w9 opt algo pk bd,
    packed = header_bytes m s c w3 len ent w6 lo w8 w9 opt algo pk bd ∧
    (length m = 4%nat ∧ length s = 64%nat ∧ length pk = 64%nat) ∧
    (a2 = VInt c ∧ a3 = VInt w3 ∧ a4 = VInt len ∧ a5 = VInt ent ∧
     a6 = VInt w6 ∧ a7 = VInt lo ∧ a8 = VInt w8 ∧ a9 = VInt w9 ∧
     a10 = VInt opt ∧ a11 = VInt algo ∧ a13 = VInt bd).
Proof.
  change hdr_fmt with
    [Fs 4; Fs 64; FI; FI; FI; FI; FI; FI; FI; FI; FI; FI; Fs 64; Fx 83; FB].
  intros H.
  apply struct_pack_Fs_inv in H as (m & r0 & -> & Hm & H).
  apply struct_pack_Fs_inv in H as (s & r1 & -> & Hs & H).
  apply struct_pack_FI_inv in H as (c & r2 & -> & _ & -> & H).
  apply struct_pack_FI_inv in H as (w3 & r3 & -> & _ & -> & H).
  apply struct_pack_FI_inv in H as (len & r4 & -> & _ & -> & H).
  apply struct_pack_FI_inv in H as (ent & r5 & -> & _ & -> & H).
  apply struct_pack_FI_inv in H as (w6 & r6 & -> & _ & -> & H).
  apply struct_pack_FI_inv in H as (lo & r7 & -> & _ & -> & H).
  apply struct_pack_FI_inv in H as (w8 & r8 & -> & _ & -> & H).
  apply struct_pack_FI_inv in H as (w9 & r9 & -> & _ & -> & H).
  apply struct_pack_FI_inv in H as (opt & r10 & -> & _ & -> & H).
  apply struct_pack_FI_inv in H as (algo & r11 & -> & _ & -> & H).
  apply struct_pack_Fs_inv in H as (pk & r12 & -> & Hpk & H).
  apply struct_pack_Fx_inv in H as (r13 & -> & H).
  apply struct_pack_FB_inv in H as (bd & r14 & -> & _ & -> & H).
  injection H as <-.
  exists m, s, c, w3, len, ent, w6, lo, w8, w9, opt, algo, pk, bd.
  unfold header_bytes. by rewrite app_nil_r.
Qed.

(** ** Decoding after encoding *)

Local Ltac dict_eq h Hdom :=
  apply map_eq; intros k;
  destruct (decide (k ∈ dom h)) as [Hin|Hin];
  [ rewrite Hdom in Hin; set_unfold in Hin;
    destruct_or?; try (exfalso; assumption); subst;
    simplify_map_eq; congruence
  | pose proof Hin as Hnone; apply not_elem_of_dom in Hnone; rewrite Hnone;
    rewrite Hdom in Hin; set_unfold in Hin;
    rewrite !lookup_insert_ne by (intros <-; apply Hin; tauto);
    apply lookup_empty ].

Lemma local_round_trip (image : bytes) (h : gmap string value) :
  Local.wf_header h = true →
  ∃ image', Local.repack_header image h = Ok image' ∧
            Local.unpack_header image' = Ok h.
Proof.
  intros Hwf. apply andb_prop in Hwf as [Hdom Hf].
  apply bool_decide_eq_true in Hdom.
  destruct (common_fields_inv _ Hf)
    as (m & s & c & hv & len & ent & lo & opt & algo & pk & Hl & (Hm & Hs & Hpk) & Hr).
  destruct Hl as (L0 & L1 & L2 & L3 & L4 & L5 & L6 & L7 & L8 & L9).
  destruct Hr as (R0 & R1 & R2 & R3 & R4 & R5 & R6).
  eexists. split.
  { eapply local_repack_header_ok; eauto. }
  unfold set_header.
  rewrite local_unpack_header_ok
    by (rewrite length_app, length_header_bytes by done; lia).
  rewrite layout_magic, layout_signature, layout_checksum, layout_w3,
    layout_length, layout_entry_addr, layout_load_addr, layout_w9,
    layout_option_flags, layout_ecdsa_algo, layout_ecdsa_pubkey by done.
  rewrite !le_to_Z_bytes by done.
  f_equal. dict_eq h Hdom.
Qed.

Lemma pkcs11_round_trip (image : bytes) (h : gmap string value) :
  Pkcs11.wf_header h = true →
  ∃ image', Pkcs11.repack_header image h = Ok image' ∧
            Pkcs11.unpack_header image' = Ok h.
Proof.
  intros Hwf. apply andb_prop in Hwf as [Hwf Hrb].
  apply andb_prop in Hwf as [Hdom Hf].
  apply bool_decide_eq_true in Hdom.
  apply is_u32_inv in Hrb as (rb & Lrb & Rrb).
  destruct (common_fields_inv _ Hf)
    as (m & s & c & hv & len & ent & lo & opt & algo & pk & Hl & (Hm & Hs & Hpk) & Hr).
  destruct Hl as (L0 & L1 & L2 & L3 & L4 & L5 & L6 & L7 & L8 & L9).
  destruct Hr as (R0 & R1 & R2 & R3 & R4 & R5 & R6).
  eexists. split.
  { eapply pkcs11_repack_header_ok; eauto. }
  unfold set_header.
  rewrite pkcs11_unpack_header_ok
    by (rewrite length_app, length_header_bytes by done; lia).
  rewrite layout_magic, layout_signature, layout_checksum, layout_w3,
    layout_length, layout_entry_addr, layout_load_addr, layout_w9,
    layout_option_flags, layout_ecdsa_algo, layout_ecdsa_pubkey by done.
  rewrite !le_to_Z_bytes by done.
  f_equal. dict_eq h Hdom.
Qed.

(** What [unpack_header] returns is a well-formed header of its file. *)
Lemma local_unpack_header_wf (image : bytes) (h : gmap string value) :
  Local.unpack_header image = Ok h → Local.wf_header h = true.
Proof.
  destruct (decide (256 ≤ length image)%nat) as [Hlen|Hlen].
  2: { rewrite local_unpack_header_short by lia. done. }
  rewrite local_unpack_header_ok by done. intros [= <-].
  unfold Local.wf_header. apply andb_true_intro. split.
  - apply bool_decide_eq_true. unfold common_keys.
    rewrite !dom_insert_L, dom_empty_L. set_solver.
  - eapply common_fields_intro; simplify_map_eq; try reflexivity;
      first [ apply length_slice; lia | apply u32_of_slice; lia ].
Qed.

Lemma pkcs11_unpack_header_wf (image : bytes) (h : gmap string value) :
  Pkcs11.unpack_header image = Ok h → Pkcs11.wf_header h = true.
Proof.
  destruct (decide (256 ≤ length image)%nat) as [Hlen|Hlen].
  2: { rewrite pkcs11_unpack_header_short by lia. done. }
  rewrite pkcs11_unpack_header_ok by done. intros [= <-].
  unfold Pkcs11.wf_header.
  apply andb_true_intro; split; [apply andb_true_intro; split|].
  - apply bool_decide_eq_true. unfold common_keys.
    rewrite !dom_insert_L, dom_empty_L. set_solver.
  - eapply common_fields_intro; simplify_map_eq; try reflexivity;
      first [ apply length_slice; lia | apply u32_of_slice; lia ].
  - simplify_map_eq. cbn [is_u32]. apply bool_decide_eq_true.
    apply u32_of_slice; lia.
Qed.

(** ** Claims on the header codec *)

(** C2 (the code departs from it, see the evaluation below). The claim:
    decoding returns [header_version] from offset 0x48 and
    [rollback_version] from offset 0x60 as two fields, in both files.
    On an image with 1 at 0x48 and 2 at 0x60, [stm32-sign-pkcs11.py]
    returns both, while [stm32-sign.py] returns 2 under [hdr_version] and
    has no [rollback_version] entry: its second assignment to
    ['hdr_version'] overwrites the first. *)
Theorem unpack_header_versions_on_demo_image :
  le_to_Z (slice 0x48 0x4C demo_image) = 1 ∧
  le_to_Z (slice 0x60 0x64 demo_image) = 2 ∧
  (h ← Pkcs11.unpack_header demo_image;
   Ok (h !! "hdr_version", h !! "rollback_version"))
    = Ok (Some (VInt 1), Some (VInt 2)) ∧
  (h ← Local.unpack_header demo_image;
   Ok (h !! "hdr_version", h !! "rollback_version"))
    = Ok (Some (VInt 2), None).
Proof. vm_compute. done. Qed.

(** The same for every image of 256 bytes or more. *)
Lemma pkcs11_unpack_header_versions (image : bytes) :
  (256 ≤ length image)%nat →
  ∃ h, Pkcs11.unpack_header image = Ok h ∧
       h !! "hdr_version" = Some (VInt (le_to_Z (slice 0x48 0x4C image))) ∧
       h !! "rollback_version" = Some (VInt (le_to_Z (slice 0x60 0x64 image))).
Proof.
  intros H. eexists. split; [by apply pkcs11_unpack_header_ok|].
  by simplify_map_eq.
Qed.

Lemma local_unpack_header_versions (image : bytes) :
  (256 ≤ length image)%nat →
  ∃ h, Local.unpack_header image = Ok h ∧
       h !! "hdr_version" = Some (VInt (le_to_Z (slice 0x60 0x64 image))) ∧
       h !! "rollback_version" = None.
Proof.
  intros H. eexists. split; [by apply local_unpack_header_ok|].
  by simplify_map_eq.
Qed.

(** C3 (the code departs from it, see the evaluation below). The claim:
    every header record, with [header_version] and [rollback_version] as
    two fields, comes back from encoding and decoding. On the record
    [demo_header_p11], which has header version 0x10000 and rollback
    version 2, [stm32-sign-pkcs11.py] gives the record back, while
    [stm32-sign.py] gives back a record without [rollback_version]: its
    encoder packs [hdr_version] at 0x48 and at 0x60, so the rollback
    version 2 is never written and the bytes at 0x60 hold the header
    version. This is the slip of C2 seen from the encoder. *)
Theorem round_trip_on_demo_header_p11 :
  Pkcs11.wf_header demo_header_p11 = true ∧
  demo_header_p11 !! "hdr_version" = Some (VInt 0x10000) ∧
  demo_header_p11 !! "rollback_version" = Some (VInt 2) ∧
  (image' ← Pkcs11.repack_header demo_image demo_header_p11;
   Pkcs11.unpack_header image') = Ok demo_header_p11 ∧
  (image' ← Local.repack_header demo_image demo_header_p11;
   Local.unpack_header image') = Ok (delete "rollback_version" demo_header_p11) ∧
  (image' ← Local.repack_header demo_image demo_header_p11;
   Local.unpack_header image') ≠ Ok demo_header_p11 ∧
  (image' ← Local.repack_header demo_image demo_header_p11;
   Ok (slice 0x48 0x4C image', slice 0x60 0x64 image'))
    = Ok (le_bytes 4 0x10000, le_bytes 4 0x10000).
Proof.
  assert (Hl : (image' ← Local.repack_header demo_image demo_header_p11;
                Local.unpack_header image')
               = Ok (delete "rollback_version" demo_header_p11))
    by (vm_compute; reflexivity).
  split; [vm_compute; reflexivity|].
  split; [reflexivity|]. split; [reflexivity|].
  split; [vm_compute; reflexivity|].
  split; [exact Hl|]. split; [|vm_compute; reflexivity].
  rewrite Hl. intros H.
  assert (Hk : delete "rollback_version" demo_header_p11 !! "rollback_version"
               = demo_header_p11 !! "rollback_version")
    by (f_equal; congruence).
  rewrite lookup_delete_eq in Hk. discriminate Hk.
Qed.

(** X27. What holds of C3 in both files: for every header dictionary as
    the decoder of the file builds it — in [stm32-sign.py] the ten keys
    with the one version entry, in [stm32-sign-pkcs11.py] the eleven keys
    with both — encoding it into a buffer and decoding the buffer gives
    the dictionary back. The dictionaries have no entry for the reserved
    words, the padding or the binding byte; encoding writes zeros there. *)
Theorem header_round_trip (image : bytes) (hl hp : gmap string value) :
  Local.wf_header hl = true →
  Pkcs11.wf_header hp = true →
  (∃ image', Local.repack_header image hl = Ok image' ∧
             Local.unpack_header image' = Ok hl) ∧
  (∃ image', Pkcs11.repack_header image hp = Ok image' ∧
             Pkcs11.unpack_header image' = Ok hp).
Proof.
  intros Hl Hp. split; [by apply local_round_trip | by apply pkcs11_round_trip].
Qed.

Lemma header_round_trip_witness :
  Local.wf_header demo_header = true ∧
  Pkcs11.wf_header demo_header_p11 = true ∧
  (∃ image', Local.repack_header demo_image demo_header = Ok image' ∧
             Local.unpack_header image' = Ok demo_header) ∧
  (∃ image', Pkcs11.repack_header demo_image demo_header_p11 = Ok image' ∧
             Pkcs11.unpack_header image' = Ok demo_header_p11).
Proof.
  split; [vm_compute; reflexivity|]. split; [vm_compute; reflexivity|].
  apply (header_round_trip demo_image demo_header demo_header_p11);
    vm_compute; reflexivity.
Defined.

Lemma bind_Ok_inv {A B} (r : res A) (k : A → res B) (b : B) :
  (r ≫= k) = Ok b → ∃ a, r = Ok a ∧ k a = Ok b.
Proof. destruct r as [a|e]; [|done]. intros H. by exists a. Qed.

Lemma set_header_frame (image packed : bytes) :
  (256 ≤ length image)%nat → length packed = 256%nat →
  length (set_header image packed) = length image ∧
  drop 256 (set_header image packed) = drop 256 image.
Proof.
  intros Hi Hp. unfold set_header. split.
  - rewrite length_app, length_drop. lia.
  - by rewrite drop_app_length'.
Qed.

Lemma header_bytes_reserved_zero m s c w3 len ent lo w9 opt algo pk rest :
  length m = 4%nat → length s = 64%nat → length pk = 64%nat →
  reserved_zero (header_bytes m s c w3 len ent 0 lo 0 w9 opt algo pk 0 ++ rest).
Proof.
  intros Hm Hs Hpk. unfold reserved_zero.
  change 0x54%nat with 84%nat. change 0x58%nat with 88%nat.
  change 0x5C%nat with 92%nat. change 0x60%nat with 96%nat.
  change 0xAC%nat with 172%nat. change 0xFF%nat with 255%nat.
  change 0x100%nat with 256%nat.
  by rewrite layout_w6, layout_w8, layout_padding, layout_binding by done.
Qed.

(** Encoding any dictionary, when it succeeds, keeps the length and the
    payload and leaves zeros in the reserved places. *)
Lemma local_repack_frame (image image' : bytes) (h : gmap string value) :
  (256 ≤ length image)%nat →
  Local.repack_header image h = Ok image' →
  length image' = length image ∧ drop 256 image' = drop 256 image ∧
  reserved_zero image'.
Proof.
  intros Hlen H. unfold Local.repack_header in H.
  do 11 (apply bind_Ok_inv in H as (? & _ & H)).
  apply bind_Ok_inv in H as (packed & Hp & H). injection H as <-.
  pose proof (struct_pack_length _ _ _ Hp) as Hl.
  destruct (set_header_frame image packed Hlen Hl) as [? ?].
  do 2 (split; [done|]).
  apply struct_pack_hdr_inv in Hp
    as (m & s & c & w3 & len & ent & w6 & lo & w8 & w9 & opt & algo & pk & bd
        & -> & (Hm & Hs & Hpk) & Ha).
  destruct Ha as (_ & _ & _ & _ & [= <-] & _ & [= <-] & _ & _ & _ & [= <-]).
  by apply header_bytes_reserved_zero.
Qed.

Lemma pkcs11_repack_frame (image image' : bytes) (h : gmap string value) :
  (256 ≤ length image)%nat →
  Pkcs11.repack_header image h = Ok image' →
  length image' = length image ∧ drop 256 image' = drop 256 image ∧
  reserved_zero image'.
Proof.
  intros Hlen H. unfold Pkcs11.repack_header in H.
  do 11 (apply bind_Ok_inv in H as (? & _ & H)).
  apply bind_Ok_inv in H as (packed & Hp & H). injection H as <-.
  pose proof (struct_pack_length _ _ _ Hp) as Hl.
  destruct (set_header_frame image packed Hlen Hl) as [? ?].
  do 2 (split; [done|]).
  apply struct_pack_hdr_inv in Hp
    as (m & s & c & w3 & len & ent & w6 & lo & w8 & w9 & opt & algo & pk & bd
        & -> & (Hm & Hs & Hpk) & Ha).
  destruct Ha as (_ & _ & _ & _ & [= <-] & _ & [= <-] & _ & _ & _ & [= <-]).
  by apply header_bytes_reserved_zero.
Qed.

(** C9. Encoding a header dictionary into a buffer of 256 bytes or more
    succeeds, keeps the length of the buffer and every byte from offset 256
    on, and leaves reserved1, reserved2, the 83 padding bytes and the
    binding byte zero, in both files. *)
Theorem repack_header_frame (image : bytes) (hl hp : gmap string value) :
  (256 ≤ length image)%nat →
  Local.wf_header hl = true →
  Pkcs11.wf_header hp = true →
  (∃ image', Local.repack_header image hl = Ok image' ∧
     length image' = length image ∧ drop 256 image' = drop 256 image ∧
     reserved_zero image') ∧
  (∃ image', Pkcs11.repack_header image hp = Ok image' ∧
     length image' = length image ∧ drop 256 image' = drop 256 image ∧
     reserved_zero image').
Proof.
  intros Hlen Hl Hp. split.
  - destruct (local_round_trip image hl Hl) as (image' & He & _).
    exists image'. split; [done|]. by eapply local_repack_frame.
  - destruct (pkcs11_round_trip image hp Hp) as (image' & He & _).
    exists image'. split; [done|]. by eapply pkcs11_repack_frame.
Qed.

Lemma repack_header_frame_witness :
  (256 ≤ length demo_image)%nat ∧
  Local.wf_header demo_header = true ∧
  Pkcs11.wf_header demo_header_p11 = true ∧
  (∃ image', Local.repack_header demo_image demo_header = Ok image' ∧
     length image' = length demo_image ∧
     drop 256 image' = drop 256 demo_image ∧ reserved_zero image') ∧
  (∃ image', Pkcs11.repack_header demo_image demo_header_p11 = Ok image' ∧
     length image' = length demo_image ∧
     drop 256 image' = drop 256 demo_image ∧ reserved_zero image').
Proof.
  split; [vm_compute; lia|].
  split; [vm_compute; reflexivity|]. split; [vm_compute; reflexivity|].
  apply (repack_header_frame demo_image demo_header demo_header_p11);
    [vm_compute; lia | vm_compute; reflexivity | vm_compute; reflexivity].
Defined.

(** ** Keys *)

Lemma length_be_digits fuel : ∀ (k : nat) n acc,
  0 ≤ n < 256 ^ Z.of_nat k →
  (length (be_digits fuel n acc) ≤ length acc + k)%nat.
Proof.
  induction fuel as [|fuel IH]; intros k n acc Hn; cbn [be_digits]; [lia|].
  case_decide; [lia|].
  destruct k as [|k]; [simpl in Hn; lia|].
  rewrite Nat2Z.inj_succ, Z.pow_succ_r in Hn by lia.
  specialize (IH k (n / 256) (byte_of_Z (n mod 256) :: acc)).
  cbn [length] in IH.
  assert (0 ≤ n / 256 < 256 ^ Z.of_nat k).
  { split; [apply Z.div_pos; lia | apply Z.div_lt_upper_bound; lia]. }
  specialize (IH ltac:(done)). lia.
Qed.

Lemma length_to_bytes (k : nat) n :
  (1 ≤ k)%nat → 0 ≤ n < 256 ^ Z.of_nat k → (length (to_bytes n) ≤ k)%nat.
Proof.
  intros Hk Hn. unfold to_bytes. case_decide; [simpl; lia|].
  pose proof (length_be_digits (S (Z.to_nat (Z.log2 n))) k n [] Hn) as H'.
  simpl in H'. done.
Qed.

Lemma length_rjust w (b : bytes) : (length b ≤ w)%nat → length (rjust w b) = w.
Proof. intros H. unfold rjust. rewrite length_app, length_replicate. lia. Qed.

Lemma length_raw_point (x y : Z) :
  0 ≤ x < 2 ^ 256 → 0 ≤ y < 2 ^ 256 →
  length (rjust 32 (to_bytes x) ++ rjust 32 (to_bytes y)) = 64%nat.
Proof.
  intros Hx Hy. rewrite length_app.
  rewrite !length_rjust; [done| |].
  - apply length_to_bytes; [lia|]. by change (256 ^ Z.of_nat 32) with (2 ^ 256).
  - apply length_to_bytes; [lia|]. by change (256 ^ Z.of_nat 32) with (2 ^ 256).
Qed.

Lemma local_length_get_raw_pubkey (key : EccKey) :
  p256_point key → length (Local.get_raw_pubkey key) = 64%nat.
Proof. intros [Hx Hy]. by apply length_raw_point. Qed.

(** ** The rebuilt image *)

Lemma layout_tail m s c w3 len ent w6 lo w8 w9 opt algo pk bd rest :
  length m = 4%nat → length s = 64%nat →
  drop 72 (header_bytes m s c w3 len ent w6 lo w8 w9 opt algo pk bd ++ rest) =
  le_bytes 4 w3 ++ le_bytes 4 len ++ le_bytes 4 ent ++ le_bytes 4 w6 ++
  le_bytes 4 lo ++ le_bytes 4 w8 ++ le_bytes 4 w9 ++ le_bytes 4 opt ++
  le_bytes 4 algo ++ pk ++ replicate 83 x00 ++ le_bytes 1 bd ++ rest.
Proof.
  intros Hm Hs. unfold header_bytes. rewrite <- !app_assoc.
  rewrite (drop_app_skip' 72) by lia. rewrite Hm.
  rewrite (drop_app_skip' _ s) by (cbn [Nat.sub]; lia). rewrite Hs.
  rewrite (drop_app_skip' _ (le_bytes 4 c))
    by (rewrite length_le_bytes; cbn [Nat.sub]; lia).
  rewrite length_le_bytes. cbn [Nat.sub]. by rewrite drop_0.
Qed.

Section Rebuilt.
Context (image : bytes) (w3 : Z) (pk sig : bytes).
Context (Hlen : (256 ≤ length image)%nat).
Context (Hpk : length pk = 64%nat) (Hsig : length sig = 64%nat).

Local Ltac field_len := first [ done | apply length_slice; lia ].

Lemma length_rebuilt : length (rebuilt image w3 pk sig) = length image.
Proof.
  unfold rebuilt. rewrite layout_length_total by field_len.
  rewrite length_drop. lia.
Qed.

Lemma rebuilt_magic : slice 0 4 (rebuilt image w3 pk sig) = slice 0 4 image.
Proof. unfold rebuilt. by rewrite layout_magic by field_len. Qed.

Lemma rebuilt_signature : slice 4 68 (rebuilt image w3 pk sig) = sig.
Proof. unfold rebuilt. by rewrite layout_signature by field_len. Qed.

Local Ltac word lem :=
  unfold rebuilt; rewrite lem by field_len;
  match goal with
  | |- le_bytes 4 (le_to_Z (slice ?a ?b image)) = _ =>
      rewrite <- (le_bytes_to_Z (slice a b image)) at 2;
      by rewrite length_slice by lia
  | _ => reflexivity
  end.

Lemma rebuilt_checksum : slice 68 72 (rebuilt image w3 pk sig) = slice 68 72 image.
Proof. word layout_checksum. Qed.

Lemma rebuilt_w3 : slice 72 76 (rebuilt image w3 pk sig) = le_bytes 4 w3.
Proof. word layout_w3. Qed.

Lemma rebuilt_length : slice 76 80 (rebuilt image w3 pk sig) = slice 76 80 image.
Proof. word layout_length. Qed.

Lemma rebuilt_entry_addr : slice 80 84 (rebuilt image w3 pk sig) = slice 80 84 image.
Proof. word layout_entry_addr. Qed.

Lemma rebuilt_load_addr : slice 88 92 (rebuilt image w3 pk sig) = slice 88 92 image.
Proof. word layout_load_addr. Qed.

Lemma rebuilt_w9 : slice 96 100 (rebuilt image w3 pk sig) = slice 96 100 image.
Proof. word layout_w9. Qed.

Lemma rebuilt_option_flags : slice 100 104 (rebuilt image w3 pk sig) = le_bytes 4 0.
Proof. word layout_option_flags. Qed.

Lemma rebuilt_ecdsa_algo : slice 104 108 (rebuilt image w3 pk sig) = le_bytes 4 1.
Proof. word layout_ecdsa_algo. Qed.

Lemma rebuilt_ecdsa_pubkey : slice 108 172 (rebuilt image w3 pk sig) = pk.
Proof. unfold rebuilt. by rewrite layout_ecdsa_pubkey by field_len. Qed.

Lemma rebuilt_payload : drop 256 (rebuilt image w3 pk sig) = drop 256 image.
Proof. unfold rebuilt. by rewrite layout_payload by field_len. Qed.

Lemma rebuilt_reserved_zero : reserved_zero (rebuilt image w3 pk sig).
Proof. unfold rebuilt. apply header_bytes_reserved_zero; field_len. Qed.

(** The bytes from 0x48 on do not depend on the signature field. *)
Lemma rebuilt_tail sig' :
  length sig' = 64%nat →
  drop 72 (rebuilt image w3 pk sig') = drop 72 (rebuilt image w3 pk sig).
Proof.
  intros Hsig'. unfold rebuilt. by rewrite !layout_tail by field_len.
Qed.

Lemma rebuilt_set_signature sig' :
  length sig' = 64%nat →
  set_signature (rebuilt image w3 pk sig') sig = rebuilt image w3 pk sig.
Proof.
  intros Hsig'. unfold rebuilt. by rewrite layout_set_signature by field_len.
Qed.

End Rebuilt.

(** ** The pipelines of [stm32-sign.py] *)

Local Ltac dict_lookup :=
  unfold getitem;
  repeat first [ rewrite lookup_insert_eq | rewrite lookup_insert_ne by done ].

Lemma slice_0_take n (l : bytes) : slice 0 n l = take n l.
Proof. unfold slice. by rewrite drop_0, Nat.sub_0_r. Qed.

Section LocalPipelines.
Context {Entropy : Type} (lib : CryptoLib Entropy).

Lemma local_verify_signature_ok (image : bytes) (key : EccKey) :
  (256 ≤ length image)%nat →
  Local.verify_signature lib image key =
    if decide (Local.get_raw_pubkey key = slice 108 172 image) then
      if DSS_verify lib key (SHA256 lib (drop 72 image)) (slice 4 68 image)
      then Ok 0 else Ok 2
    else Ok 1.
Proof.
  intros Hlen. unfold Local.verify_signature.
  rewrite local_unpack_header_ok by done. rewrite res_bind_Ok.
  dict_lookup. rewrite !res_bind_Ok. cbv zeta.
  destruct (decide (Local.get_raw_pubkey key = slice 108 172 image)) as [He|Hne].
  - rewrite decide_False by (intros Hc; apply Hc; by rewrite He). done.
  - rewrite decide_True by congruence. done.
Qed.

Lemma local_verify_signature_short (image : bytes) (key : EccKey) :
  (length image < 256)%nat →
  Local.verify_signature lib image key = Raise StructError.
Proof.
  intros Hlen. unfold Local.verify_signature.
  by rewrite local_unpack_header_short.
Qed.

Lemma local_key_algorithm_p256 (key : EccKey) :
  curve key ∈ p256_names → Local.key_algorithm key = Ok 1.
Proof. intros H. unfold Local.key_algorithm. by rewrite decide_True. Qed.

Lemma local_key_algorithm_other (key : EccKey) :
  curve key ∉ p256_names → Local.key_algorithm key = Raise ValueError.
Proof.
  intros H. unfold Local.key_algorithm. rewrite decide_False by done.
  rewrite decide_False; [done|]. unfold brainpool_names. apply not_elem_of_nil.
Qed.

(** The header is rewritten before the digest is taken. *)
Lemma local_sign_image_repack (image : bytes) (key : EccKey) :
  (256 ≤ length image)%nat → p256_point key →
  Local.repack_header image (
    <["option_flags" := VInt 0]> (
    <["ecdsa_algo" := VInt 1]> (
    <["ecdsa_pubkey" := VBytes (Local.get_raw_pubkey key)]> (
    <["ecdsa_pubkey" := VBytes (slice 108 172 image)]> (
    <["ecdsa_algo" := VInt (le_to_Z (slice 104 108 image))]> (
    <["option_flags" := VInt (le_to_Z (slice 100 104 image))]> (
    <["hdr_version" := VInt (le_to_Z (slice 96 100 image))]> (
    <["load_addr" := VInt (le_to_Z (slice 88 92 image))]> (
    <["entry_addr" := VInt (le_to_Z (slice 80 84 image))]> (
    <["length" := VInt (le_to_Z (slice 76 80 image))]> (
    <["hdr_version" := VInt (le_to_Z (slice 72 76 image))]> (
    <["checksum" := VInt (le_to_Z (slice 68 72 image))]> (
    <["signature" := VBytes (slice 4 68 image)]> (
    <["magic" := VBytes (slice 0 4 image)]> ∅))))))))))))))
  = Ok (rebuilt image (le_to_Z (slice 96 100 image))
          (Local.get_raw_pubkey key) (slice 4 68 image)).
Proof.
  intros Hlen Hkey.
  erewrite local_repack_header_ok; [reflexivity|..];
    try (by simplify_map_eq);
    first [ apply length_slice; lia | apply u32_of_slice; lia
          | by apply local_length_get_raw_pubkey | lia ].
Qed.

Lemma local_sign_image_ok (image : bytes) (key : EccKey) (rng : Entropy) :
  (256 ≤ length image)%nat → take 4 image = STM2 →
  curve key ∈ p256_names → p256_point key → dss_sound lib key →
  ∃ sig,
    DSS_sign lib key rng
      (SHA256 lib (drop 72 (rebuilt image (le_to_Z (slice 96 100 image))
                              (Local.get_raw_pubkey key) sig))) = Ok sig ∧
    length sig = 64%nat ∧
    Local.sign_image lib image key rng =
      (Ok 0, rebuilt image (le_to_Z (slice 96 100 image))
               (Local.get_raw_pubkey key) sig) ∧
    Local.verify_signature lib
      (rebuilt image (le_to_Z (slice 96 100 image))
         (Local.get_raw_pubkey key) sig) key = Ok 0.
Proof.
  intros Hlen Hmagic Hcurve Hpt Hsound.
  pose proof (local_length_get_raw_pubkey key Hpt) as Hpk.
  set (w3 := le_to_Z (slice 96 100 image)).
  set (pk := Local.get_raw_pubkey key).
  set (old := slice 4 68 image).
  assert (Hold : length old = 64%nat) by (apply length_slice; lia).
  destruct (Hsound rng (SHA256 lib (drop 72 (rebuilt image w3 pk old))))
    as (sig & Hsign & Hsig & Hver).
  assert (Htail : drop 72 (rebuilt image w3 pk sig) = drop 72 (rebuilt image w3 pk old))
    by (by apply rebuilt_tail).
  assert (Hverify : Local.verify_signature lib (rebuilt image w3 pk sig) key = Ok 0).
  { rewrite local_verify_signature_ok by (by rewrite length_rebuilt).
    rewrite rebuilt_ecdsa_pubkey, rebuilt_signature by done.
    rewrite decide_True by done. by rewrite Htail, Hver. }
  exists sig. rewrite Htail. do 2 (split; [done|]). split; [|done].
  unfold Local.sign_image.
  rewrite local_unpack_header_ok by done.
  dict_lookup. cbv beta iota.
  rewrite decide_False by (rewrite slice_0_take, Hmagic; intros Hc; by apply Hc).
  rewrite local_key_algorithm_p256 by done.
  rewrite local_sign_image_repack by done.
  fold w3 pk old. cbv zeta. rewrite Hsign.
  rewrite rebuilt_set_signature by done.
  by rewrite Hverify.
Qed.

End LocalPipelines.

(** ** The pipelines of [stm32-sign-pkcs11.py] *)

Section Pkcs11Pipelines.
Context {Entropy PrivateKey PublicKey : Type}.
Context (lib : CryptoLib Entropy) (p11 : Pkcs11Lib Entropy PrivateKey PublicKey).

Lemma pkcs11_length_get_raw_pubkey (pubkey : PublicKey) :
  p256_point (import_key p11 pubkey) →
  length (Pkcs11.get_raw_pubkey p11 pubkey) = 64%nat.
Proof. intros [Hx Hy]. by apply length_raw_point. Qed.

Lemma pkcs11_key_algorithm_p256 (pubkey : PublicKey) :
  curve (import_key p11 pubkey) ∈ p256_names →
  Pkcs11.key_algorithm p11 pubkey = Ok 1.
Proof. intros H. unfold Pkcs11.key_algorithm. by rewrite decide_True. Qed.

Lemma pkcs11_key_algorithm_other (pubkey : PublicKey) :
  curve (import_key p11 pubkey) ∉ p256_names →
  Pkcs11.key_algorithm p11 pubkey = Raise ValueError.
Proof.
  intros H. unfold Pkcs11.key_algorithm. rewrite decide_False by done.
  rewrite decide_False; [done|]. unfold brainpool_names. apply not_elem_of_nil.
Qed.

Lemma pkcs11_verify_signature_ok (image : bytes)
    (module_path token key_label : string) (pin : option string)
    (session : Session PrivateKey PublicKey) (pubkey : PublicKey) :
  (256 ≤ length image)%nat →
  token_open p11 module_path token pin = Ok session →
  get_public_key session key_label = Ok pubkey →
  Pkcs11.pkcs11_verify_signature lib p11 image module_path token key_label pin =
    if DSS_verify lib (import_key p11 pubkey) (SHA256 lib (drop 72 image))
         (slice 4 68 image)
    then Ok 0 else Ok 2.
Proof.
  intros Hlen Hopen Hkey. unfold Pkcs11.pkcs11_verify_signature.
  rewrite pkcs11_unpack_header_ok by done. rewrite res_bind_Ok.
  dict_lookup. rewrite !res_bind_Ok, Hopen, res_bind_Ok, Hkey, res_bind_Ok.
  done.
Qed.


Lemma pkcs11_sign_image_repack (image : bytes) (pubkey : PublicKey) :
  (256 ≤ length image)%nat → p256_point (import_key p11 pubkey) →
  Pkcs11.repack_header image (
    <["option_flags" := VInt 0]> (
    <["ecdsa_algo" := VInt 1]> (
    <["ecdsa_pubkey" := VBytes (Pkcs11.get_raw_pubkey p11 pubkey)]> (
    <["ecdsa_pubkey" := VBytes (slice 108 172 image)]> (
    <["ecdsa_algo" := VInt (le_to_Z (slice 104 108 image))]> (
    <["option_flags" := VInt (le_to_Z (slice 100 104 image))]> (
    <["rollback_version" := VInt (le_to_Z (slice 96 100 image))]> (
    <["load_addr" := VInt (le_to_Z (slice 88 92 image))]> (
    <["entry_addr" := VInt (le_to_Z (slice 80 84 image))]> (
    <["length" := VInt (le_to_Z (slice 76 80 image))]> (
    <["hdr_version" := VInt (le_to_Z (slice 72 76 image))]> (
    <["checksum" := VInt (le_to_Z (slice 68 72 image))]> (
    <["signature" := VBytes (slice 4 68 image)]> (
    <["magic" := VBytes (slice 0 4 image)]> ∅))))))))))))))
  = Ok (rebuilt image (le_to_Z (slice 72 76 image))
          (Pkcs11.get_raw_pubkey p11 pubkey) (slice 4 68 image)).
Proof.
  intros Hlen Hkey.
  erewrite pkcs11_repack_header_ok; [reflexivity|..];
    try (by simplify_map_eq);
    first [ apply length_slice; lia | apply u32_of_slice; lia
          | by apply pkcs11_length_get_raw_pubkey | lia ].
Qed.

Lemma pkcs11_sign_image_ok (image : bytes)
    (module_path token key_label : string) (pin : option string) (rng : Entropy)
    (session : Session PrivateKey PublicKey)
    (privkey : PrivateKey) (pubkey : PublicKey) (sig : bytes) :
  (256 ≤ length image)%nat → take 4 image = STM2 →
  token_open p11 module_path token pin = Ok session →
  get_private_key session key_label = Ok privkey →
  get_public_key session key_label = Ok pubkey →
  curve (import_key p11 pubkey) ∈ p256_names →
  p256_point (import_key p11 pubkey) →
  token_sign p11 privkey rng
    (SHA256 lib (drop 72 (rebuilt image (le_to_Z (slice 72 76 image))
                            (Pkcs11.get_raw_pubkey p11 pubkey) (slice 4 68 image))))
    = Ok sig →
  Pkcs11.pkcs11_sign_image lib p11 image module_path token key_label pin rng =
    (Ok 0, set_signature
             (rebuilt image (le_to_Z (slice 72 76 image))
                (Pkcs11.get_raw_pubkey p11 pubkey) (slice 4 68 image)) sig).
Proof.
  intros Hlen Hmagic Hopen Hpriv Hpub Hcurve Hpt Hsign.
  unfold Pkcs11.pkcs11_sign_image.
  rewrite pkcs11_unpack_header_ok by done.
  dict_lookup. cbv beta iota.
  rewrite decide_False by (rewrite slice_0_take, Hmagic; intros Hc; by apply Hc).
  rewrite Hopen, Hpriv, Hpub.
  rewrite pkcs11_key_algorithm_p256 by done.
  rewrite pkcs11_sign_image_repack by done.
  cbv zeta. by rewrite Hsign.
Qed.

End Pkcs11Pipelines.

(** ** The stand-in library *)

Lemma length_demo_tag (key : EccKey) (digest : bytes) :
  length (demo_tag key digest) = 64%nat.
Proof.
  unfold demo_tag. rewrite length_take, !length_app, length_replicate. lia.
Qed.

Lemma demo_lib_sound (key : EccKey) :
  has_private key = true → dss_sound demo_lib key.
Proof.
  intros Hpriv rng digest. exists (demo_tag key digest). cbn.
  rewrite Hpriv. split; [done|]. split; [apply length_demo_tag|].
  by apply bool_decide_eq_true.
Qed.

(** ** Claims on signing and verifying *)

(** C1. For every image of a header and a payload of any length whose
    first four bytes are [STM2], and every P-256 key for which the library
    signs, signing the image and verifying the result with the same key
    returns 0. *)
Theorem sign_then_verify {Entropy} (lib : CryptoLib Entropy)
    (image : bytes) (key : EccKey) (rng : Entropy) :
  (256 ≤ length image)%nat → take 4 image = STM2 →
  curve key ∈ p256_names → p256_point key → dss_sound lib key →
  ∃ image', Local.sign_image lib image key rng = (Ok 0, image') ∧
            Local.verify_signature lib image' key = Ok 0.
Proof.
  intros Hlen Hmagic Hcurve Hpt Hsound.
  destruct (local_sign_image_ok lib image key rng Hlen Hmagic Hcurve Hpt Hsound)
    as (sig & _ & _ & Hsign & Hverify).
  eauto.
Qed.

Lemma sign_then_verify_witness :
  (256 ≤ length demo_image)%nat ∧ take 4 demo_image = STM2 ∧
  curve demo_key ∈ p256_names ∧ p256_point demo_key ∧
  dss_sound demo_lib demo_key ∧
  ∃ image', Local.sign_image demo_lib demo_image demo_key () = (Ok 0, image') ∧
            Local.verify_signature demo_lib image' demo_key = Ok 0.
Proof.
  assert (H1 : (256 ≤ length demo_image)%nat) by (vm_compute; lia).
  assert (H2 : take 4 demo_image = STM2) by reflexivity.
  assert (H3 : curve demo_key ∈ p256_names) by (apply list_elem_of_here).
  assert (H4 : p256_point demo_key) by (split; split; by vm_compute).
  assert (H5 : dss_sound demo_lib demo_key) by (by apply demo_lib_sound).
  do 5 (split; [assumption|]).
  exact (sign_then_verify demo_lib demo_image demo_key () H1 H2 H3 H4 H5).
Defined.




Lemma demo_p11_signs (privkey : EccKey) : token_signs demo_p11 privkey.
Proof.
  intros rng digest. exists (demo_tag privkey digest).
  split; [done | apply length_demo_tag].
Qed.


(** C5. For every image whose first four bytes are not [STM2], signing
    fails in both files and leaves the buffer as it was: it returns -1
    when the buffer holds a header, and [struct.error] is raised by the
    decoder when the buffer is shorter than 256 bytes. *)
Theorem sign_bad_magic {Entropy PrivateKey PublicKey}
    (lib : CryptoLib Entropy) (p11 : Pkcs11Lib Entropy PrivateKey PublicKey)
    (image : bytes) (key : EccKey) (rng : Entropy)
    (module_path token key_label : string) (pin : option string) :
  take 4 image ≠ STM2 →
  Local.sign_image lib image key rng =
    (if decide (256 ≤ length image)%nat then Ok (-1) else Raise StructError,
     image) ∧
  Pkcs11.pkcs11_sign_image lib p11 image module_path token key_label pin rng =
    (if decide (256 ≤ length image)%nat then Ok (-1) else Raise StructError,
     image).
Proof.
  intros Hmagic. case_decide as Hlen.
  - unfold Local.sign_image, Pkcs11.pkcs11_sign_image.
    rewrite local_unpack_header_ok, pkcs11_unpack_header_ok by done.
    dict_lookup. cbv beta iota.
    rewrite !decide_True by (rewrite slice_0_take; congruence).
    done.
  - unfold Local.sign_image, Pkcs11.pkcs11_sign_image.
    by rewrite local_unpack_header_short, pkcs11_unpack_header_short by lia.
Qed.

Lemma sign_bad_magic_witness :
  take 4 demo_not_stm32 ≠ STM2 ∧
  Local.sign_image demo_lib demo_not_stm32 demo_key () = (Ok (-1), demo_not_stm32) ∧
  Pkcs11.pkcs11_sign_image demo_lib demo_p11 demo_not_stm32 "softhsm" "boot"
    "key6892" None () = (Ok (-1), demo_not_stm32).
Proof.
  assert (H : take 4 demo_not_stm32 ≠ STM2) by (by vm_compute).
  split; [exact H|].
  exact (sign_bad_magic demo_lib demo_p11 demo_not_stm32 demo_key ()
           "softhsm" "boot" "key6892" None H).
Defined.

(** C6. For every image that holds a header with magic [STM2], signing
    with a key on a curve that is not P-256 raises [ValueError] and leaves
    the buffer as it was, in both files. *)
Theorem sign_unsupported_curve {Entropy PrivateKey PublicKey}
    (lib : CryptoLib Entropy) (p11 : Pkcs11Lib Entropy PrivateKey PublicKey)
    (image : bytes) (key : EccKey) (rng : Entropy)
    (module_path token key_label : string) (pin : option string)
    (session : Session PrivateKey PublicKey)
    (privkey : PrivateKey) (pubkey : PublicKey) :
  (256 ≤ length image)%nat → take 4 image = STM2 →
  curve key ∉ p256_names →
  token_open p11 module_path token pin = Ok session →
  get_private_key session key_label = Ok privkey →
  get_public_key session key_label = Ok pubkey →
  curve (import_key p11 pubkey) ∉ p256_names →
  Local.sign_image lib image key rng = (Raise ValueError, image) ∧
  Pkcs11.pkcs11_sign_image lib p11 image module_path token key_label pin rng =
    (Raise ValueError, image).
Proof.
  intros Hlen Hmagic Hcurve Hopen Hpriv Hpub Hcurve'.
  unfold Local.sign_image, Pkcs11.pkcs11_sign_image.
  rewrite local_unpack_header_ok, pkcs11_unpack_header_ok by done.
  dict_lookup. cbv beta iota.
  rewrite !decide_False by (rewrite slice_0_take, Hmagic; intros Hc; by apply Hc).
  rewrite Hopen, Hpriv, Hpub.
  by rewrite local_key_algorithm_other, pkcs11_key_algorithm_other by done.
Qed.

Lemma sign_unsupported_curve_witness :
  (256 ≤ length demo_image)%nat ∧ take 4 demo_image = STM2 ∧
  (curve demo_key_p384 ∉ p256_names) ∧
  Local.sign_image demo_lib demo_image demo_key_p384 () =
    (Raise ValueError, demo_image) ∧
  Pkcs11.pkcs11_sign_image demo_lib demo_p11 demo_image "softhsm" "boot"
    "key384" None () = (Raise ValueError, demo_image).
Proof.
  assert (H1 : (256 ≤ length demo_image)%nat) by (vm_compute; lia).
  assert (H2 : take 4 demo_image = STM2) by reflexivity.
  assert (H3 : curve demo_key_p384 ∉ p256_names).
  { apply (bool_decide_unpack _). by vm_compute. }
  do 3 (split; [assumption|]).
  exact (sign_unsupported_curve demo_lib demo_p11 demo_image demo_key_p384 ()
           "softhsm" "boot" "key384" None demo_session
           demo_key_p384 demo_key_p384 H1 H2 H3 eq_refl eq_refl eq_refl H3).
Defined.



(** ** What signing keeps and what it changes *)

(** X16. A successful signing in [stm32-sign-pkcs11.py] keeps the magic,
    the checksum, the header version, the image length, the entry and load
    addresses, the rollback version and the payload; the rest of the
    header is the signature, the cleared option flags, the algorithm, the
    public key and zeros. *)
Lemma pkcs11_sign_image_frame {Entropy PrivateKey PublicKey}
    (lib : CryptoLib Entropy) (p11 : Pkcs11Lib Entropy PrivateKey PublicKey)
    (image : bytes) (module_path token key_label : string)
    (pin : option string) (rng : Entropy)
    (session : Session PrivateKey PublicKey)
    (privkey : PrivateKey) (pubkey : PublicKey) :
  (256 ≤ length image)%nat → take 4 image = STM2 →
  token_open p11 module_path token pin = Ok session →
  get_private_key session key_label = Ok privkey →
  get_public_key session key_label = Ok pubkey →
  curve (import_key p11 pubkey) ∈ p256_names →
  p256_point (import_key p11 pubkey) →
  token_signs p11 privkey →
  ∃ image',
    Pkcs11.pkcs11_sign_image lib p11 image module_path token key_label pin rng
      = (Ok 0, image') ∧
    length image' = length image ∧
    slice 0x00 0x04 image' = slice 0x00 0x04 image ∧
    slice 0x44 0x48 image' = slice 0x44 0x48 image ∧
    slice 0x48 0x4C image' = slice 0x48 0x4C image ∧
    slice 0x4C 0x50 image' = slice 0x4C 0x50 image ∧
    slice 0x50 0x54 image' = slice 0x50 0x54 image ∧
    slice 0x58 0x5C image' = slice 0x58 0x5C image ∧
    slice 0x60 0x64 image' = slice 0x60 0x64 image ∧
    drop 256 image' = drop 256 image ∧
    slice 0x64 0x68 image' = le_bytes 4 0 ∧
    slice 0x68 0x6C image' = le_bytes 4 1 ∧
    slice 0x6C 0xAC image' = Pkcs11.get_raw_pubkey p11 pubkey ∧
    reserved_zero image'.
Proof.
  intros Hlen Hmagic Hopen Hpriv Hpub Hcurve Hpt Htok.
  pose proof (pkcs11_length_get_raw_pubkey p11 pubkey Hpt) as Hpk.
  destruct (Htok rng (SHA256 lib (drop 72
    (rebuilt image (le_to_Z (slice 72 76 image))
       (Pkcs11.get_raw_pubkey p11 pubkey) (slice 4 68 image)))))
    as (sig & Hsign & Hsig).
  assert (Hold : length (slice 4 68 image) = 64%nat) by (apply length_slice; lia).
  eexists. split.
  { eapply pkcs11_sign_image_ok; eauto. }
  rewrite rebuilt_set_signature by done.
  change 0x00%nat with 0%nat. change 0x04%nat with 4%nat.
  change 0x44%nat with 68%nat. change 0x48%nat with 72%nat.
  change 0x4C%nat with 76%nat. change 0x50%nat with 80%nat.
  change 0x54%nat with 84%nat. change 0x58%nat with 88%nat.
  change 0x5C%nat with 92%nat. change 0x60%nat with 96%nat.
  change 0x64%nat with 100%nat. change 0x68%nat with 104%nat.
  change 0x6C%nat with 108%nat. change 0xAC%nat with 172%nat.
  rewrite length_rebuilt, rebuilt_magic, rebuilt_checksum, rebuilt_w3,
    rebuilt_length, rebuilt_entry_addr, rebuilt_load_addr, rebuilt_w9,
    rebuilt_payload, rebuilt_option_flags, rebuilt_ecdsa_algo,
    rebuilt_ecdsa_pubkey by done.
  repeat (split; [done|]).
  split.
  { rewrite <- (le_bytes_to_Z (slice 72 76 image)) at 2.
    by rewrite length_slice by lia. }
  repeat (split; [done|]).
  by apply rebuilt_reserved_zero.
Qed.

(** X17. The same in [stm32-sign.py], but for the header version at
    0x48, which the next theorem is about. *)
Lemma local_sign_image_frame {Entropy} (lib : CryptoLib Entropy)
    (image : bytes) (key : EccKey) (rng : Entropy) :
  (256 ≤ length image)%nat → take 4 image = STM2 →
  curve key ∈ p256_names → p256_point key → dss_sound lib key →
  ∃ image',
    Local.sign_image lib image key rng = (Ok 0, image') ∧
    length image' = length image ∧
    slice 0x00 0x04 image' = slice 0x00 0x04 image ∧
    slice 0x44 0x48 image' = slice 0x44 0x48 image ∧
    slice 0x4C 0x50 image' = slice 0x4C 0x50 image ∧
    slice 0x50 0x54 image' = slice 0x50 0x54 image ∧
    slice 0x58 0x5C image' = slice 0x58 0x5C image ∧
    slice 0x60 0x64 image' = slice 0x60 0x64 image ∧
    drop 256 image' = drop 256 image ∧
    slice 0x64 0x68 image' = le_bytes 4 0 ∧
    slice 0x68 0x6C image' = le_bytes 4 1 ∧
    slice 0x6C 0xAC image' = Local.get_raw_pubkey key ∧
    reserved_zero image'.
Proof.
  intros Hlen Hmagic Hcurve Hpt Hsound.
  pose proof (local_length_get_raw_pubkey key Hpt) as Hpk.
  destruct (local_sign_image_ok lib image key rng Hlen Hmagic Hcurve Hpt Hsound)
    as (sig & _ & Hsig & Hres & _).
  eexists. split; [exact Hres|].
  change 0x00%nat with 0%nat. change 0x04%nat with 4%nat.
  change 0x44%nat with 68%nat. change 0x48%nat with 72%nat.
  change 0x4C%nat with 76%nat. change 0x50%nat with 80%nat.
  change 0x54%nat with 84%nat. change 0x58%nat with 88%nat.
  change 0x5C%nat with 92%nat. change 0x60%nat with 96%nat.
  change 0x64%nat with 100%nat. change 0x68%nat with 104%nat.
  change 0x6C%nat with 108%nat. change 0xAC%nat with 172%nat.
  rewrite length_rebuilt, rebuilt_magic, rebuilt_checksum,
    rebuilt_length, rebuilt_entry_addr, rebuilt_load_addr, rebuilt_w9,
    rebuilt_payload, rebuilt_option_flags, rebuilt_ecdsa_algo,
    rebuilt_ecdsa_pubkey by done.
  repeat (split; [done|]).
  by apply rebuilt_reserved_zero.
Qed.

(** C10 (the code departs from it). The claim: a successful signing may
    change only the signature, option flags, algorithm and public key
    fields and the reserved places. In [stm32-sign.py] it also writes the
    header version field: after a successful signing the four bytes at
    0x48 are the four bytes the image had at 0x60. *)
Theorem local_sign_image_overwrites_header_version {Entropy}
    (lib : CryptoLib Entropy) (image : bytes) (key : EccKey) (rng : Entropy) :
  (256 ≤ length image)%nat → take 4 image = STM2 →
  curve key ∈ p256_names → p256_point key → dss_sound lib key →
  ∃ image', Local.sign_image lib image key rng = (Ok 0, image') ∧
            slice 0x48 0x4C image' = slice 0x60 0x64 image.
Proof.
  intros Hlen Hmagic Hcurve Hpt Hsound.
  pose proof (local_length_get_raw_pubkey key Hpt) as Hpk.
  destruct (local_sign_image_ok lib image key rng Hlen Hmagic Hcurve Hpt Hsound)
    as (sig & _ & Hsig & Hres & _).
  eexists. split; [exact Hres|].
  change 0x48%nat with 72%nat. change 0x4C%nat with 76%nat.
  change 0x60%nat with 96%nat. change 0x64%nat with 100%nat.
  rewrite rebuilt_w3 by done.
  rewrite <- (le_bytes_to_Z (slice 96 100 image)) at 2.
  by rewrite length_slice by lia.
Qed.

Lemma local_sign_image_overwrites_header_version_witness :
  slice 0x48 0x4C demo_image = le_bytes 4 1 ∧
  slice 0x60 0x64 demo_image = le_bytes 4 2 ∧
  ∃ image', Local.sign_image demo_lib demo_image demo_key () = (Ok 0, image') ∧
            slice 0x48 0x4C image' = slice 0x60 0x64 demo_image.
Proof.
  split; [reflexivity|]. split; [reflexivity|].
  apply (local_sign_image_overwrites_header_version demo_lib demo_image demo_key ()).
  - vm_compute; lia.
  - reflexivity.
  - apply list_elem_of_here.
  - split; split; by vm_compute.
  - by apply demo_lib_sound.
Defined.

(** ** The signer's entropy *)

(** The signed image depends on the entropy only through the signature
    the library returns: two runs in which the signer gives the same
    answers leave the same image. Whether it does is a property of the
    library's mode ['fips-186-3'], not of this code. *)
Lemma local_sign_image_entropy {Entropy} (lib : CryptoLib Entropy)
    (image : bytes) (key : EccKey) (rng1 rng2 : Entropy) :
  (∀ digest, DSS_sign lib key rng1 digest = DSS_sign lib key rng2 digest) →
  Local.sign_image lib image key rng1 = Local.sign_image lib image key rng2.
Proof.
  intros H. unfold Local.sign_image.
  repeat case_match; try done; congruence.
Qed.

(** * Further properties *)

(** ** The raw public key *)

Lemma be_to_Z_fold (bs : bytes) : ∀ a,
  fold_left (λ acc b, 256 * acc + byte_to_Z b) bs a =
  a * 256 ^ Z.of_nat (length bs) + be_to_Z bs.
Proof.
  unfold be_to_Z. induction bs as [|b bs IH]; intros a; [simpl; lia|].
  cbn [fold_left length]. rewrite IH, (IH (256 * 0 + byte_to_Z b)).
  rewrite Nat2Z.inj_succ, Z.pow_succ_r by lia. lia.
Qed.

Lemma be_to_Z_cons b (bs : bytes) :
  be_to_Z (b :: bs) = byte_to_Z b * 256 ^ Z.of_nat (length bs) + be_to_Z bs.
Proof.
  unfold be_to_Z at 1. cbn [fold_left]. rewrite be_to_Z_fold. lia.
Qed.

Lemma be_to_Z_range (bs : bytes) : 0 ≤ be_to_Z bs < 256 ^ Z.of_nat (length bs).
Proof.
  induction bs as [|b bs IH]; [by vm_compute|].
  rewrite be_to_Z_cons. cbn [length].
  rewrite Nat2Z.inj_succ, Z.pow_succ_r by lia.
  pose proof (byte_to_Z_range b). nia.
Qed.

Lemma be_to_Z_zeros k (bs : bytes) : be_to_Z (replicate k x00 ++ bs) = be_to_Z bs.
Proof.
  induction k as [|k IH]; [done|].
  cbn [replicate app]. rewrite be_to_Z_cons, IH.
  change (byte_to_Z x00) with 0. lia.
Qed.

Lemma be_to_Z_be_digits fuel : ∀ n acc,
  0 ≤ n < 256 ^ Z.of_nat fuel →
  be_to_Z (be_digits fuel n acc) = n * 256 ^ Z.of_nat (length acc) + be_to_Z acc.
Proof.
  induction fuel as [|fuel IH]; intros n acc Hn; cbn [be_digits].
  - simpl in Hn. assert (n = 0) as -> by lia. lia.
  - case_decide as Hz; [subst; lia|].
    rewrite Nat2Z.inj_succ, Z.pow_succ_r in Hn by lia.
    rewrite IH.
    2: { split; [apply Z.div_pos; lia | apply Z.div_lt_upper_bound; lia]. }
    rewrite be_to_Z_cons, byte_to_of_Z, Z.mod_mod by lia. cbn [length].
    rewrite Nat2Z.inj_succ, Z.pow_succ_r by lia.
    pose proof (Z.div_mod n 256 ltac:(lia)). nia.
Qed.

(** The integer library's encoding reads back as the integer. *)
Lemma be_to_Z_to_bytes n : 0 ≤ n → be_to_Z (to_bytes n) = n.
Proof.
  intros Hn. unfold to_bytes. case_decide as Hz; [by subst|].
  rewrite be_to_Z_be_digits;
    [change (256 ^ Z.of_nat (length (@nil byte))) with 1;
     change (be_to_Z []) with 0; lia|].
  split; [done|].
  rewrite Nat2Z.inj_succ, Z2Nat.id by apply Z.log2_nonneg.
  pose proof (Z.log2_spec n ltac:(lia)) as [_ Hlt].
  eapply Z.lt_le_trans; [exact Hlt|].
  replace 256 with (2 ^ 8) by reflexivity.
  rewrite <- Z.pow_mul_r by (pose proof (Z.log2_nonneg n); lia).
  apply Z.pow_le_mono_r; pose proof (Z.log2_nonneg n); lia.
Qed.

Lemma length_rjust_ge w (b : bytes) : (w ≤ length (rjust w b))%nat.
Proof. unfold rjust. rewrite length_app, length_replicate. lia. Qed.

Lemma length_rjust_long w (b : bytes) :
  (w ≤ length b)%nat → length (rjust w b) = length b.
Proof. intros H. unfold rjust. rewrite length_app, length_replicate. lia. Qed.

Lemma be_to_Z_rjust w (b : bytes) : be_to_Z (rjust w b) = be_to_Z b.
Proof. apply be_to_Z_zeros. Qed.

Lemma raw_point_decode (x y : Z) :
  0 ≤ x < 2 ^ 256 → 0 ≤ y < 2 ^ 256 →
  be_to_Z (take 32 (rjust 32 (to_bytes x) ++ rjust 32 (to_bytes y))) = x ∧
  be_to_Z (drop 32 (rjust 32 (to_bytes x) ++ rjust 32 (to_bytes y))) = y.
Proof.
  intros Hx Hy.
  assert (Hlx : length (rjust 32 (to_bytes x)) = 32%nat).
  { apply length_rjust, length_to_bytes; [lia|].
    by change (256 ^ Z.of_nat 32) with (2 ^ 256). }
  rewrite take_app_length', drop_app_length' by done.
  rewrite !be_to_Z_rjust, !be_to_Z_to_bytes by lia. done.
Qed.

Lemma raw_point_length_iff (x y : Z) :
  0 ≤ x → 0 ≤ y →
  length (rjust 32 (to_bytes x) ++ rjust 32 (to_bytes y)) = 64%nat ↔
  x < 2 ^ 256 ∧ y < 2 ^ 256.
Proof.
  intros Hx Hy. split.
  - rewrite length_app. intros Hlen.
    pose proof (length_rjust_ge 32 (to_bytes x)).
    pose proof (length_rjust_ge 32 (to_bytes y)).
    assert (Hbound : ∀ n, 0 ≤ n → length (rjust 32 (to_bytes n)) = 32%nat →
                          n < 2 ^ 256).
    { intros n Hn Hl. pose proof (be_to_Z_range (rjust 32 (to_bytes n))) as Hr.
      rewrite be_to_Z_rjust, be_to_Z_to_bytes, Hl in Hr by done.
      change (256 ^ Z.of_nat 32) with (2 ^ 256) in Hr. lia. }
    split; apply Hbound; lia.
  - intros [Hx' Hy']. by apply length_raw_point.
Qed.

(** X1. The raw public key of a P-256 point is X‖Y, 32 bytes each, most
    significant byte first: read back as two big-endian integers, its
    halves are the coordinates, in both files. So two keys with the same
    raw bytes have the same point. *)
Theorem get_raw_pubkey_decode {Entropy PrivateKey PublicKey}
    (p11 : Pkcs11Lib Entropy PrivateKey PublicKey)
    (key : EccKey) (pubkey : PublicKey) :
  p256_point key → p256_point (import_key p11 pubkey) →
  (be_to_Z (take 32 (Local.get_raw_pubkey key)) = pointQ_x key ∧
   be_to_Z (drop 32 (Local.get_raw_pubkey key)) = pointQ_y key) ∧
  (be_to_Z (take 32 (Pkcs11.get_raw_pubkey p11 pubkey))
     = pointQ_x (import_key p11 pubkey) ∧
   be_to_Z (drop 32 (Pkcs11.get_raw_pubkey p11 pubkey))
     = pointQ_y (import_key p11 pubkey)).
Proof.
  intros [Hx Hy] [Hx' Hy']. split; by apply raw_point_decode.
Qed.

Lemma get_raw_pubkey_decode_witness :
  p256_point demo_key ∧
  be_to_Z (take 32 (Local.get_raw_pubkey demo_key)) = pointQ_x demo_key ∧
  be_to_Z (drop 32 (Local.get_raw_pubkey demo_key)) = pointQ_y demo_key ∧
  be_to_Z (take 32 (Pkcs11.get_raw_pubkey demo_p11 demo_key)) = pointQ_x demo_key ∧
  be_to_Z (drop 32 (Pkcs11.get_raw_pubkey demo_p11 demo_key)) = pointQ_y demo_key.
Proof.
  assert (H : p256_point demo_key) by (split; split; by vm_compute).
  split; [exact H|].
  destruct (get_raw_pubkey_decode demo_p11 demo_key demo_key H H)
    as [[H1 H2] [H3 H4]].
  repeat split; assumption.
Defined.

(** X2. For a point with coordinates that are not negative, the raw public
    key has 64 bytes exactly when both coordinates are below [2 ^ 256]:
    [rjust] pads a short coordinate and never cuts a long one, so the key
    of a larger curve gives more than 64 bytes. *)
Theorem get_raw_pubkey_length_iff (key : EccKey) :
  0 ≤ pointQ_x key → 0 ≤ pointQ_y key →
  length (Local.get_raw_pubkey key) = 64%nat ↔
  pointQ_x key < 2 ^ 256 ∧ pointQ_y key < 2 ^ 256.
Proof. intros Hx Hy. by apply raw_point_length_iff. Qed.

Lemma get_raw_pubkey_length_iff_witness :
  0 ≤ pointQ_x demo_key_p384 ∧ 0 ≤ pointQ_y demo_key_p384 ∧
  length (Local.get_raw_pubkey demo_key_p384) = 96%nat ∧
  (length (Local.get_raw_pubkey demo_key_p384) = 64%nat ↔
   pointQ_x demo_key_p384 < 2 ^ 256 ∧ pointQ_y demo_key_p384 < 2 ^ 256).
Proof.
  assert (Hx : 0 ≤ pointQ_x demo_key_p384) by (by vm_compute).
  assert (Hy : 0 ≤ pointQ_y demo_key_p384) by (by vm_compute).
  do 2 (split; [assumption|]). split; [reflexivity|].
  exact (get_raw_pubkey_length_iff demo_key_p384 Hx Hy).
Defined.

(** ** Decoding, and encoding what was decoded *)

(** X3. Decoding fails exactly on a buffer shorter than 256 bytes, with
    [struct.error]; on any other buffer it returns a well-formed header
    dictionary, whatever the bytes are. In both files. *)
Theorem unpack_header_total (image : bytes) :
  match Local.unpack_header image with
  | Ok h => (256 ≤ length image)%nat ∧ Local.wf_header h = true
  | Raise e => e = StructError ∧ (length image < 256)%nat
  end ∧
  match Pkcs11.unpack_header image with
  | Ok h => (256 ≤ length image)%nat ∧ Pkcs11.wf_header h = true
  | Raise e => e = StructError ∧ (length image < 256)%nat
  end.
Proof.
  destruct (decide (256 ≤ length image)%nat) as [Hlen|Hlen].
  - split.
    + destruct (Local.unpack_header image) as [h|e] eqn:E.
      * split; [done|]. by eapply local_unpack_header_wf.
      * by rewrite local_unpack_header_ok in E.
    + destruct (Pkcs11.unpack_header image) as [h|e] eqn:E.
      * split; [done|]. by eapply pkcs11_unpack_header_wf.
      * by rewrite pkcs11_unpack_header_ok in E.
  - rewrite local_unpack_header_short, pkcs11_unpack_header_short by lia.
    repeat split; lia.
Qed.

Lemma image_fields (image : bytes) :
  (256 ≤ length image)%nat →
  image =
    slice 0 4 image ++ slice 4 68 image ++ slice 68 72 image ++
    slice 72 76 image ++ slice 76 80 image ++ slice 80 84 image ++
    slice 84 88 image ++ slice 88 92 image ++ slice 92 96 image ++
    slice 96 100 image ++ slice 100 104 image ++ slice 104 108 image ++
    slice 108 172 image ++ slice 172 255 image ++ slice 255 256 image ++
    drop 256 image.
Proof.
  intros Hlen.
  rewrite !app_assoc.
  rewrite !slice_join by lia.
  rewrite slice_0_take. by rewrite take_drop.
Qed.

Lemma le_bytes_of_slice (image : bytes) a b :
  (b ≤ length image)%nat → (b - a = 4)%nat →
  le_bytes 4 (le_to_Z (slice a b image)) = slice a b image.
Proof.
  intros Hb Hab. rewrite <- (le_bytes_to_Z (slice a b image)) at 2.
  by rewrite length_slice, Hab.
Qed.

(** The buffer after decoding it and encoding the dictionary back, with
    the word [w3] that the file writes at 0x48. *)
Lemma reencoded_eq (image : bytes) (w3 : bytes) :
  (256 ≤ length image)%nat → length w3 = 4%nat →
  header_bytes (slice 0 4 image) (slice 4 68 image)
    (le_to_Z (slice 68 72 image)) (le_to_Z w3)
    (le_to_Z (slice 76 80 image)) (le_to_Z (slice 80 84 image)) 0
    (le_to_Z (slice 88 92 image)) 0 (le_to_Z (slice 96 100 image))
    (le_to_Z (slice 100 104 image)) (le_to_Z (slice 104 108 image))
    (slice 108 172 image) 0 ++ drop 256 image = image ↔
  reserved_zero image ∧ slice 72 76 image = w3.
Proof.
  intros Hlen Hw3.
  assert (Hm : length (slice 0 4 image) = 4%nat) by (apply length_slice; lia).
  assert (Hs : length (slice 4 68 image) = 64%nat) by (apply length_slice; lia).
  assert (Hpk : length (slice 108 172 image) = 64%nat) by (apply length_slice; lia).
  assert (Hw : le_bytes 4 (le_to_Z w3) = w3).
  { rewrite <- Hw3. apply le_bytes_to_Z. }
  split.
  - intros Heq. split.
    + rewrite <- Heq. by apply header_bytes_reserved_zero.
    + rewrite <- Heq at 1. rewrite layout_w3 by done. exact Hw.
  - intros [(Hr1 & Hr2 & Hpad & Hbd) Hv].
    change 0x54%nat with 84%nat in Hr1. change 0x58%nat with 88%nat in Hr1.
    change 0x5C%nat with 92%nat in Hr2. change 0x60%nat with 96%nat in Hr2.
    change 0xAC%nat with 172%nat in Hpad. change 0xFF%nat with 255%nat in Hpad, Hbd.
    change 0x100%nat with 256%nat in Hbd.
    etransitivity; [|symmetry; exact (image_fields image Hlen)].
    unfold header_bytes. rewrite <- !app_assoc.
    rewrite !le_bytes_of_slice by lia.
    rewrite Hw, Hv, Hr1, Hr2, Hpad, Hbd. reflexivity.
Qed.

(** X4. In [stm32-sign-pkcs11.py], decoding a buffer of 256 bytes or more
    and encoding the dictionary back succeeds, and gives the buffer back
    exactly when its reserved words, padding and binding byte are zero. *)
Theorem pkcs11_unpack_repack (image : bytes) :
  (256 ≤ length image)%nat →
  ∃ h image', Pkcs11.unpack_header image = Ok h ∧
              Pkcs11.repack_header image h = Ok image' ∧
              (image' = image ↔ reserved_zero image).
Proof.
  intros Hlen. eexists _, _. split; [by apply pkcs11_unpack_header_ok|]. split.
  - eapply pkcs11_repack_header_ok;
      try (by simplify_map_eq);
      first [ apply length_slice; lia | apply u32_of_slice; lia ].
  - unfold set_header.
    rewrite (reencoded_eq image (slice 72 76 image))
      by (done || apply length_slice; lia).
    tauto.
Qed.

Lemma pkcs11_unpack_repack_witness :
  (256 ≤ length demo_image)%nat ∧ reserved_zero demo_image ∧
  ∃ h image', Pkcs11.unpack_header demo_image = Ok h ∧
              Pkcs11.repack_header demo_image h = Ok image' ∧
              (image' = demo_image ↔ reserved_zero demo_image).
Proof.
  assert (H : (256 ≤ length demo_image)%nat) by (vm_compute; lia).
  split; [exact H|]. split; [by repeat split|].
  exact (pkcs11_unpack_repack demo_image H).
Defined.

(** X5. In [stm32-sign.py] the same round trip gives the buffer back
    exactly when, besides, the four bytes at 0x48 equal the four bytes at
    0x60: the second is what the decoder keeps and the encoder writes at
    both places. *)
Theorem local_unpack_repack (image : bytes) :
  (256 ≤ length image)%nat →
  ∃ h image', Local.unpack_header image = Ok h ∧
              Local.repack_header image h = Ok image' ∧
              (image' = image ↔
               reserved_zero image ∧
               slice 0x48 0x4C image = slice 0x60 0x64 image).
Proof.
  intros Hlen. eexists _, _. split; [by apply local_unpack_header_ok|]. split.
  - eapply local_repack_header_ok;
      try (by simplify_map_eq);
      first [ apply length_slice; lia | apply u32_of_slice; lia ].
  - unfold set_header.
    change 0x48%nat with 72%nat. change 0x4C%nat with 76%nat.
    change 0x60%nat with 96%nat. change 0x64%nat with 100%nat.
    apply (reencoded_eq image (slice 96 100 image));
      [done | apply length_slice; lia].
Qed.

Lemma local_unpack_repack_witness :
  (256 ≤ length demo_image)%nat ∧ reserved_zero demo_image ∧
  slice 0x48 0x4C demo_image ≠ slice 0x60 0x64 demo_image ∧
  ∃ h image', Local.unpack_header demo_image = Ok h ∧
              Local.repack_header demo_image h = Ok image' ∧
              (image' = demo_image ↔
               reserved_zero demo_image ∧
               slice 0x48 0x4C demo_image = slice 0x60 0x64 demo_image).
Proof.
  assert (H : (256 ≤ length demo_image)%nat) by (vm_compute; lia).
  split; [exact H|]. split; [by repeat split|].
  split; [by vm_compute|].
  exact (local_unpack_repack demo_image H).
Defined.

(** ** Failures *)

Lemma getitem_None (h : gmap string value) k :
  h !! k = None → getitem h k = Raise KeyError.
Proof. intros H. unfold getitem. by rewrite H. Qed.

Lemma getitem_Raise (h : gmap string value) k e :
  getitem h k = Raise e → e = KeyError.
Proof. unfold getitem. destruct (h !! k); [done|]. by intros [= <-]. Qed.

Local Ltac key_error H :=
  rewrite (getitem_None _ _ H);
  repeat lazymatch goal with
  | |- (Raise _ ≫= _) = _ => reflexivity
  | |- (Ok _ ≫= _) = _ => rewrite res_bind_Ok
  | |- (getitem ?h ?key ≫= _) = _ =>
      let E := fresh "E" in
      destruct (getitem h key) as [?|?] eqn:E;
      [ rewrite res_bind_Ok; clear E
      | apply getitem_Raise in E; subst; reflexivity ]
  end.

(** X6. Encoding a dictionary that lacks one of the keys the encoder
    reads raises [KeyError], whatever the other entries are. The encoder
    of [stm32-sign-pkcs11.py] reads [rollback_version], which a dictionary
    decoded by [stm32-sign.py] does not have. *)
Theorem repack_header_missing_key (image : bytes) (h : gmap string value)
    (k : string) :
  k ∈ common_keys ∪ {["rollback_version"]} →
  h !! k = None →
  Pkcs11.repack_header image h = Raise KeyError ∧
  (k ≠ "rollback_version" → Local.repack_header image h = Raise KeyError).
Proof.
  intros Hk Hnone. unfold common_keys in Hk. set_unfold in Hk.
  destruct_or!; try (exfalso; assumption); subst k;
    (split;
     [ unfold Pkcs11.repack_header; key_error Hnone
     | intros Hne;
       first [ exfalso; apply Hne; reflexivity
             | unfold Local.repack_header; key_error Hnone ] ]).
Qed.

Lemma repack_header_missing_key_witness :
  ("rollback_version" : string) ∈ common_keys ∪ {["rollback_version"]} ∧
  demo_header !! "rollback_version" = None ∧
  Local.wf_header demo_header = true ∧
  Pkcs11.repack_header demo_image demo_header = Raise KeyError.
Proof.
  assert (H1 : ("rollback_version" : string) ∈ common_keys ∪ {["rollback_version"]})
    by set_solver.
  assert (H2 : demo_header !! "rollback_version" = None) by reflexivity.
  split; [exact H1|]. split; [exact H2|]. split; [by vm_compute|].
  exact (proj1 (repack_header_missing_key demo_image demo_header
                  "rollback_version" H1 H2)).
Defined.

(** X7. A buffer shorter than 256 bytes, the empty one included, makes
    signing and verifying raise [struct.error] in both files, whatever its
    first bytes, the key and the token are; signing leaves the buffer as it
    was, and the token is not opened. *)
Theorem short_buffer_struct_error {Entropy PrivateKey PublicKey}
    (lib : CryptoLib Entropy) (p11 : Pkcs11Lib Entropy PrivateKey PublicKey)
    (image : bytes) (key : EccKey) (rng : Entropy)
    (module_path token key_label : string) (pin : option string) :
  (length image < 256)%nat →
  Local.sign_image lib image key rng = (Raise StructError, image) ∧
  Local.verify_signature lib image key = Raise StructError ∧
  Pkcs11.pkcs11_sign_image lib p11 image module_path token key_label pin rng
    = (Raise StructError, image) ∧
  Pkcs11.pkcs11_verify_signature lib p11 image module_path token key_label pin
    = Raise StructError.
Proof.
  intros Hlen.
  unfold Local.sign_image, Local.verify_signature, Pkcs11.pkcs11_sign_image,
    Pkcs11.pkcs11_verify_signature.
  by rewrite local_unpack_header_short, pkcs11_unpack_header_short by done.
Qed.

Lemma short_buffer_struct_error_witness :
  (length STM2 < 256)%nat ∧
  Local.sign_image demo_lib STM2 demo_key () = (Raise StructError, STM2) ∧
  Local.verify_signature demo_lib STM2 demo_key = Raise StructError ∧
  Pkcs11.pkcs11_sign_image demo_lib demo_p11 STM2 "softhsm" "boot" "key6892"
    None () = (Raise StructError, STM2) ∧
  Pkcs11.pkcs11_verify_signature demo_lib demo_p11 STM2 "softhsm" "boot"
    "key6892" None = Raise StructError.
Proof.
  assert (H : (length STM2 < 256)%nat) by (vm_compute; lia).
  split; [exact H|].
  exact (short_buffer_struct_error demo_lib demo_p11 STM2 demo_key ()
           "softhsm" "boot" "key6892" None H).
Defined.

(** X8. When the token cannot be opened, or holds no private or no public
    key under the label, signing an image with magic [STM2] raises the
    token's error and leaves the buffer as it was; when the token cannot
    be opened or holds no public key under the label, verifying raises
    it. *)
Theorem pkcs11_token_failure {Entropy PrivateKey PublicKey}
    (lib : CryptoLib Entropy) (p11 : Pkcs11Lib Entropy PrivateKey PublicKey)
    (image : bytes) (rng : Entropy)
    (module_path token key_label : string) (pin : option string) (e : exn) :
  (256 ≤ length image)%nat → take 4 image = STM2 →
  ((session ← token_open p11 module_path token pin;
    privkey ← get_private_key session key_label;
    pubkey ← get_public_key session key_label;
    Ok (privkey, pubkey)) = Raise e →
   Pkcs11.pkcs11_sign_image lib p11 image module_path token key_label pin rng
     = (Raise e, image)) ∧
  ((session ← token_open p11 module_path token pin;
    get_public_key session key_label) = Raise e →
   Pkcs11.pkcs11_verify_signature lib p11 image module_path token key_label pin
     = Raise e).
Proof.
  intros Hlen Hmagic. split; intros Hfail.
  - unfold Pkcs11.pkcs11_sign_image.
    rewrite pkcs11_unpack_header_ok by done.
    dict_lookup. cbv beta iota.
    rewrite decide_False by (rewrite slice_0_take, Hmagic; intros Hc; by apply Hc).
    destruct (token_open p11 module_path token pin) as [session|e0];
      [|by injection Hfail as ->].
    rewrite res_bind_Ok in Hfail.
    destruct (get_private_key session key_label) as [privkey|e0];
      [|by injection Hfail as ->].
    rewrite res_bind_Ok in Hfail.
    destruct (get_public_key session key_label) as [pubkey|e0];
      [done|by injection Hfail as ->].
  - unfold Pkcs11.pkcs11_verify_signature.
    rewrite pkcs11_unpack_header_ok by done. rewrite res_bind_Ok.
    dict_lookup. rewrite !res_bind_Ok.
    destruct (token_open p11 module_path token pin) as [session|e0];
      [|by injection Hfail as ->].
    rewrite res_bind_Ok in Hfail. rewrite res_bind_Ok.
    destruct (get_public_key session key_label) as [pubkey|e0];
      [done|by injection Hfail as ->].
Qed.

Lemma pkcs11_token_failure_witness :
  (256 ≤ length demo_image)%nat ∧ take 4 demo_image = STM2 ∧
  Pkcs11.pkcs11_sign_image demo_lib demo_p11 demo_image "softhsm" "boot"
    "no such key" None () = (Raise PKCS11Error, demo_image) ∧
  Pkcs11.pkcs11_verify_signature demo_lib demo_p11 demo_image "softhsm"
    "boot" "no such key" None = Raise PKCS11Error.
Proof.
  assert (H1 : (256 ≤ length demo_image)%nat) by (vm_compute; lia).
  assert (H2 : take 4 demo_image = STM2) by reflexivity.
  do 2 (split; [assumption|]).
  destruct (pkcs11_token_failure demo_lib demo_p11 demo_image () "softhsm"
              "boot" "no such key" None PKCS11Error H1 H2) as [Hs Hv].
  split; [apply Hs | apply Hv]; reflexivity.
Defined.

(** X9. When the library's signer raises, [sign_image] of [stm32-sign.py]
    raises the same error after it has rewritten the header: the buffer
    keeps its old signature field and already holds the cleared option
    flags, the algorithm 1 and the raw public key of the key. *)
Theorem local_sign_image_signer_raises {Entropy} (lib : CryptoLib Entropy)
    (image : bytes) (key : EccKey) (rng : Entropy) (e : exn) :
  (256 ≤ length image)%nat → take 4 image = STM2 →
  curve key ∈ p256_names → p256_point key →
  (∀ digest, DSS_sign lib key rng digest = Raise e) →
  ∃ image',
    Local.sign_image lib image key rng = (Raise e, image') ∧
    length image' = length image ∧
    slice 0x04 0x44 image' = slice 0x04 0x44 image ∧
    slice 0x64 0x68 image' = le_bytes 4 0 ∧
    slice 0x68 0x6C image' = le_bytes 4 1 ∧
    slice 0x6C 0xAC image' = Local.get_raw_pubkey key ∧
    drop 256 image' = drop 256 image.
Proof.
  intros Hlen Hmagic Hcurve Hpt Hsign.
  pose proof (local_length_get_raw_pubkey key Hpt) as Hpk.
  assert (Hold : length (slice 4 68 image) = 64%nat) by (apply length_slice; lia).
  eexists. split.
  { unfold Local.sign_image.
    rewrite local_unpack_header_ok by done.
    dict_lookup. cbv beta iota.
    rewrite decide_False by (rewrite slice_0_take, Hmagic; intros Hc; by apply Hc).
    rewrite local_key_algorithm_p256 by done.
    rewrite local_sign_image_repack by done.
    cbv zeta. by rewrite Hsign. }
  change 0x04%nat with 4%nat. change 0x44%nat with 68%nat.
  change 0x64%nat with 100%nat. change 0x68%nat with 104%nat.
  change 0x6C%nat with 108%nat. change 0xAC%nat with 172%nat.
  by rewrite length_rebuilt, rebuilt_signature, rebuilt_option_flags,
    rebuilt_ecdsa_algo, rebuilt_ecdsa_pubkey, rebuilt_payload by done.
Qed.

Lemma local_sign_image_signer_raises_witness :
  slice 0x6C 0xAC demo_image ≠ Local.get_raw_pubkey demo_key_public ∧
  ∃ image',
    Local.sign_image demo_lib demo_image demo_key_public () = (Raise TypeError, image') ∧
    length image' = length demo_image ∧
    slice 0x04 0x44 image' = slice 0x04 0x44 demo_image ∧
    slice 0x64 0x68 image' = le_bytes 4 0 ∧
    slice 0x68 0x6C image' = le_bytes 4 1 ∧
    slice 0x6C 0xAC image' = Local.get_raw_pubkey demo_key_public ∧
    drop 256 image' = drop 256 demo_image.
Proof.
  split; [by vm_compute|].
  apply (local_sign_image_signer_raises demo_lib demo_image demo_key_public ()).
  - vm_compute; lia.
  - reflexivity.
  - apply list_elem_of_here.
  - split; split; by vm_compute.
  - reflexivity.
Defined.

(** X10. The same in [stm32-sign-pkcs11.py] when the token's signature
    mechanism raises. *)
Theorem pkcs11_sign_image_signer_raises {Entropy PrivateKey PublicKey}
    (lib : CryptoLib Entropy) (p11 : Pkcs11Lib Entropy PrivateKey PublicKey)
    (image : bytes) (module_path token key_label : string)
    (pin : option string) (rng : Entropy)
    (session : Session PrivateKey PublicKey)
    (privkey : PrivateKey) (pubkey : PublicKey) (e : exn) :
  (256 ≤ length image)%nat → take 4 image = STM2 →
  token_open p11 module_path token pin = Ok session →
  get_private_key session key_label = Ok privkey →
  get_public_key session key_label = Ok pubkey →
  curve (import_key p11 pubkey) ∈ p256_names →
  p256_point (import_key p11 pubkey) →
  (∀ digest, token_sign p11 privkey rng digest = Raise e) →
  ∃ image',
    Pkcs11.pkcs11_sign_image lib p11 image module_path token key_label pin rng
      = (Raise e, image') ∧
    length image' = length image ∧
    slice 0x04 0x44 image' = slice 0x04 0x44 image ∧
    slice 0x64 0x68 image' = le_bytes 4 0 ∧
    slice 0x68 0x6C image' = le_bytes 4 1 ∧
    slice 0x6C 0xAC image' = Pkcs11.get_raw_pubkey p11 pubkey ∧
    drop 256 image' = drop 256 image.
Proof.
  intros Hlen Hmagic Hopen Hpriv Hpub Hcurve Hpt Hsign.
  pose proof (pkcs11_length_get_raw_pubkey p11 pubkey Hpt) as Hpk.
  assert (Hold : length (slice 4 68 image) = 64%nat) by (apply length_slice; lia).
  eexists. split.
  { unfold Pkcs11.pkcs11_sign_image.
    rewrite pkcs11_unpack_header_ok by done.
    dict_lookup. cbv beta iota.
    rewrite decide_False by (rewrite slice_0_take, Hmagic; intros Hc; by apply Hc).
    rewrite Hopen, Hpriv, Hpub.
    rewrite pkcs11_key_algorithm_p256 by done.
    rewrite pkcs11_sign_image_repack by done.
    cbv zeta. by rewrite Hsign. }
  change 0x04%nat with 4%nat. change 0x44%nat with 68%nat.
  change 0x64%nat with 100%nat. change 0x68%nat with 104%nat.
  change 0x6C%nat with 108%nat. change 0xAC%nat with 172%nat.
  by rewrite length_rebuilt, rebuilt_signature, rebuilt_option_flags,
    rebuilt_ecdsa_algo, rebuilt_ecdsa_pubkey, rebuilt_payload by done.
Qed.

Lemma pkcs11_sign_image_signer_raises_witness :
  slice 0x6C 0xAC demo_image ≠ Pkcs11.get_raw_pubkey demo_p11_locked demo_key ∧
  ∃ image',
    Pkcs11.pkcs11_sign_image demo_lib demo_p11_locked demo_image "softhsm"
      "boot" "key6892" None () = (Raise PKCS11Error, image') ∧
    length image' = length demo_image ∧
    slice 0x04 0x44 image' = slice 0x04 0x44 demo_image ∧
    slice 0x64 0x68 image' = le_bytes 4 0 ∧
    slice 0x68 0x6C image' = le_bytes 4 1 ∧
    slice 0x6C 0xAC image' = Pkcs11.get_raw_pubkey demo_p11_locked demo_key ∧
    drop 256 image' = drop 256 demo_image.
Proof.
  split; [by vm_compute|].
  apply (pkcs11_sign_image_signer_raises demo_lib demo_p11_locked demo_image
           "softhsm" "boot" "key6892" None () demo_session demo_key demo_key).
  - vm_compute; lia.
  - reflexivity.
  - reflexivity.
  - reflexivity.
  - reflexivity.
  - apply list_elem_of_here.
  - split; split; by vm_compute.
  - reflexivity.
Defined.

(** X11. [sign_image] of [stm32-sign.py] checks the signature it has just
    written and drops the verdict: it returns 0 whenever the signer
    returned 64 bytes, also when the check rejects them. *)
Theorem local_sign_image_drops_verdict {Entropy} (lib : CryptoLib Entropy)
    (image : bytes) (key : EccKey) (rng : Entropy) :
  (256 ≤ length image)%nat → take 4 image = STM2 →
  curve key ∈ p256_names → p256_point key →
  (∀ digest, ∃ sig, DSS_sign lib key rng digest = Ok sig ∧ length sig = 64%nat) →
  ∃ image' verdict,
    Local.sign_image lib image key rng = (Ok 0, image') ∧
    Local.verify_signature lib image' key = Ok verdict.
Proof.
  intros Hlen Hmagic Hcurve Hpt Hsign.
  pose proof (local_length_get_raw_pubkey key Hpt) as Hpk.
  assert (Hold : length (slice 4 68 image) = 64%nat) by (apply length_slice; lia).
  destruct (Hsign (SHA256 lib (drop 72
    (rebuilt image (le_to_Z (slice 96 100 image)) (Local.get_raw_pubkey key)
       (slice 4 68 image))))) as (sig & Hs & Hsig).
  assert (Hv : ∃ verdict, Local.verify_signature lib
    (rebuilt image (le_to_Z (slice 96 100 image)) (Local.get_raw_pubkey key) sig)
    key = Ok verdict).
  { rewrite local_verify_signature_ok by (by rewrite length_rebuilt).
    case_decide; [case_match|]; eauto. }
  destruct Hv as (verdict & Hv).
  eexists _, verdict. split; [|exact Hv].
  unfold Local.sign_image.
  rewrite local_unpack_header_ok by done.
  dict_lookup. cbv beta iota.
  rewrite decide_False by (rewrite slice_0_take, Hmagic; intros Hc; by apply Hc).
  rewrite local_key_algorithm_p256 by done.
  rewrite local_sign_image_repack by done.
  cbv zeta. rewrite Hs.
  rewrite rebuilt_set_signature by done.
  by rewrite Hv.
Qed.

Lemma local_sign_image_drops_verdict_witness :
  ∃ image',
    Local.sign_image demo_lib_deaf demo_image demo_key () = (Ok 0, image') ∧
    Local.verify_signature demo_lib_deaf image' demo_key = Ok 2.
Proof.
  destruct (local_sign_image_drops_verdict demo_lib_deaf demo_image demo_key ())
    as (image' & verdict & Hs & Hv).
  - vm_compute; lia.
  - reflexivity.
  - apply list_elem_of_here.
  - split; split; by vm_compute.
  - intros digest. exists (demo_tag demo_key digest).
    split; [reflexivity | apply length_demo_tag].
  - exists image'. split; [exact Hs|].
    assert (Hi : image' = snd (Local.sign_image demo_lib_deaf demo_image demo_key ()))
      by (by rewrite Hs).
    rewrite Hi. reflexivity.
Defined.

(** ** Signing again, and what verifying reads *)

Lemma rebuilt_rebuilt (image : bytes) (w3 w : Z) (pk sig pk' sig' : bytes) :
  (256 ≤ length image)%nat → length pk = 64%nat → length sig = 64%nat →
  rebuilt (rebuilt image w3 pk sig) w pk' sig' = rebuilt image w pk' sig'.
Proof.
  intros Hlen Hpk Hsig. unfold rebuilt at 1.
  rewrite rebuilt_magic, rebuilt_checksum, rebuilt_length, rebuilt_entry_addr,
    rebuilt_load_addr, rebuilt_w9, rebuilt_payload by done.
  reflexivity.
Qed.

(** X12. In [stm32-sign.py], signing an image that was signed before, with
    any key, gives what signing the first image gives: nothing of the
    earlier signing is left. *)
Theorem local_sign_image_again {Entropy} (lib : CryptoLib Entropy)
    (image : bytes) (key1 key2 : EccKey) (rng1 rng2 : Entropy) :
  (256 ≤ length image)%nat → take 4 image = STM2 →
  curve key1 ∈ p256_names → p256_point key1 → dss_sound lib key1 →
  curve key2 ∈ p256_names → p256_point key2 → dss_sound lib key2 →
  ∃ image1,
    Local.sign_image lib image key1 rng1 = (Ok 0, image1) ∧
    Local.sign_image lib image1 key2 rng2 = Local.sign_image lib image key2 rng2.
Proof.
  intros Hlen Hmagic Hc1 Hp1 Hs1 Hc2 Hp2 Hs2.
  pose proof (local_length_get_raw_pubkey key1 Hp1) as Hpk1.
  pose proof (local_length_get_raw_pubkey key2 Hp2) as Hpk2.
  destruct (local_sign_image_ok lib image key1 rng1 Hlen Hmagic Hc1 Hp1 Hs1)
    as (sig1 & _ & Hsig1 & Hres1 & _).
  eexists. split; [exact Hres1|].
  set (image1 := rebuilt image (le_to_Z (slice 96 100 image))
                   (Local.get_raw_pubkey key1) sig1).
  assert (Hlen1 : (256 ≤ length image1)%nat)
    by (unfold image1; by rewrite length_rebuilt).
  assert (Hmagic1 : take 4 image1 = STM2).
  { rewrite <- slice_0_take. unfold image1.
    rewrite rebuilt_magic by done. by rewrite slice_0_take. }
  assert (Hw : slice 96 100 image1 = slice 96 100 image)
    by (unfold image1; by rewrite rebuilt_w9).
  assert (Hre : ∀ s, rebuilt image1 (le_to_Z (slice 96 100 image1))
                       (Local.get_raw_pubkey key2) s =
                     rebuilt image (le_to_Z (slice 96 100 image))
                       (Local.get_raw_pubkey key2) s).
  { intros s. rewrite Hw. unfold image1. by apply rebuilt_rebuilt. }
  destruct (local_sign_image_ok lib image1 key2 rng2 Hlen1 Hmagic1 Hc2 Hp2 Hs2)
    as (sa & Hsa & Hla & Hra & _).
  destruct (local_sign_image_ok lib image key2 rng2 Hlen Hmagic Hc2 Hp2 Hs2)
    as (sb & Hsb & Hlb & Hrb & _).
  rewrite Hra, Hrb. rewrite Hre in Hsa |- *.
  rewrite (rebuilt_tail image _ _ sb) in Hsa by done.
  rewrite Hsb in Hsa. by injection Hsa as ->.
Qed.

Lemma local_sign_image_again_witness :
  ∃ image1,
    Local.sign_image demo_lib demo_forged demo_key () = (Ok 0, image1) ∧
    Local.sign_image demo_lib image1 demo_key () =
      Local.sign_image demo_lib demo_forged demo_key ().
Proof.
  apply (local_sign_image_again demo_lib demo_forged demo_key demo_key () ()).
  - vm_compute; lia.
  - reflexivity.
  - apply list_elem_of_here.
  - split; split; by vm_compute.
  - by apply demo_lib_sound.
  - apply list_elem_of_here.
  - split; split; by vm_compute.
  - by apply demo_lib_sound.
Defined.

(** X13. The same in [stm32-sign-pkcs11.py], for two key labels of one
    token. *)
Theorem pkcs11_sign_image_again {Entropy PrivateKey PublicKey}
    (lib : CryptoLib Entropy) (p11 : Pkcs11Lib Entropy PrivateKey PublicKey)
    (image : bytes) (module_path token label1 label2 : string)
    (pin : option string) (rng1 rng2 : Entropy)
    (session : Session PrivateKey PublicKey)
    (privkey1 privkey2 : PrivateKey) (pubkey1 pubkey2 : PublicKey) :
  (256 ≤ length image)%nat → take 4 image = STM2 →
  token_open p11 module_path token pin = Ok session →
  get_private_key session label1 = Ok privkey1 →
  get_public_key session label1 = Ok pubkey1 →
  curve (import_key p11 pubkey1) ∈ p256_names →
  p256_point (import_key p11 pubkey1) →
  token_signs p11 privkey1 →
  get_private_key session label2 = Ok privkey2 →
  get_public_key session label2 = Ok pubkey2 →
  curve (import_key p11 pubkey2) ∈ p256_names →
  p256_point (import_key p11 pubkey2) →
  token_signs p11 privkey2 →
  ∃ image1,
    Pkcs11.pkcs11_sign_image lib p11 image module_path token label1 pin rng1
      = (Ok 0, image1) ∧
    Pkcs11.pkcs11_sign_image lib p11 image1 module_path token label2 pin rng2
      = Pkcs11.pkcs11_sign_image lib p11 image module_path token label2 pin rng2.
Proof.
  intros Hlen Hmagic Hopen Hv1 Hb1 Hc1 Hp1 Hs1 Hv2 Hb2 Hc2 Hp2 Hs2.
  pose proof (pkcs11_length_get_raw_pubkey p11 pubkey1 Hp1) as Hpk1.
  pose proof (pkcs11_length_get_raw_pubkey p11 pubkey2 Hp2) as Hpk2.
  assert (Hold : length (slice 4 68 image) = 64%nat) by (apply length_slice; lia).
  set (pk1 := Pkcs11.get_raw_pubkey p11 pubkey1) in *.
  set (pk2 := Pkcs11.get_raw_pubkey p11 pubkey2) in *.
  set (w := le_to_Z (slice 72 76 image)).
  destruct (Hs1 rng1 (SHA256 lib (drop 72 (rebuilt image w pk1 (slice 4 68 image)))))
    as (sig1 & Hsign1 & Hsig1).
  pose proof (pkcs11_sign_image_ok lib p11 image module_path token label1 pin
                rng1 session privkey1 pubkey1 sig1 Hlen Hmagic Hopen Hv1 Hb1
                Hc1 Hp1 Hsign1) as Hres1.
  fold pk1 w in Hres1. rewrite rebuilt_set_signature in Hres1 by done.
  eexists. split; [exact Hres1|].
  set (image1 := rebuilt image w pk1 sig1).
  assert (Hlen1 : (256 ≤ length image1)%nat)
    by (unfold image1; by rewrite length_rebuilt).
  assert (Hmagic1 : take 4 image1 = STM2).
  { rewrite <- slice_0_take. unfold image1.
    rewrite rebuilt_magic by done. by rewrite slice_0_take. }
  assert (Hw : le_to_Z (slice 72 76 image1) = w).
  { unfold image1. rewrite rebuilt_w3 by done.
    apply le_to_Z_bytes. apply u32_of_slice; lia. }
  assert (Hsg : slice 4 68 image1 = sig1)
    by (unfold image1; by rewrite rebuilt_signature).
  assert (Hdig : drop 72 (rebuilt image1 w pk2 sig1) =
                 drop 72 (rebuilt image w pk2 (slice 4 68 image))).
  { unfold image1. rewrite rebuilt_rebuilt by done. by apply rebuilt_tail. }
  destruct (Hs2 rng2 (SHA256 lib (drop 72 (rebuilt image w pk2 (slice 4 68 image)))))
    as (sig2 & Hsign2 & Hsig2).
  rewrite (pkcs11_sign_image_ok lib p11 image1 module_path token label2 pin
             rng2 session privkey2 pubkey2 sig2);
    [|done..| fold pk2; by rewrite Hw, Hsg, Hdig].
  rewrite (pkcs11_sign_image_ok lib p11 image module_path token label2 pin
             rng2 session privkey2 pubkey2 sig2) by done.
  fold pk2 w. rewrite Hw, Hsg.
  rewrite !rebuilt_set_signature by (done || by rewrite length_rebuilt).
  unfold image1. by rewrite rebuilt_rebuilt.
Qed.

Lemma pkcs11_sign_image_again_witness :
  ∃ image1,
    Pkcs11.pkcs11_sign_image demo_lib demo_p11 demo_image "softhsm" "boot"
      "key6892" None () = (Ok 0, image1) ∧
    Pkcs11.pkcs11_sign_image demo_lib demo_p11 image1 "softhsm" "boot"
      "key6892" None () =
    Pkcs11.pkcs11_sign_image demo_lib demo_p11 demo_image "softhsm" "boot"
      "key6892" None ().
Proof.
  apply (pkcs11_sign_image_again demo_lib demo_p11 demo_image "softhsm" "boot"
           "key6892" "key6892" None () () demo_session
           demo_key demo_key demo_key demo_key).
  - vm_compute; lia.
  - reflexivity.
  - reflexivity.
  - reflexivity.
  - reflexivity.
  - apply list_elem_of_here.
  - split; split; by vm_compute.
  - apply demo_p11_signs.
  - reflexivity.
  - reflexivity.
  - apply list_elem_of_here.
  - split; split; by vm_compute.
  - apply demo_p11_signs.
Defined.

Lemma pkcs11_verify_signature_unfold {Entropy PrivateKey PublicKey}
    (lib : CryptoLib Entropy) (p11 : Pkcs11Lib Entropy PrivateKey PublicKey)
    (image : bytes) (module_path token key_label : string) (pin : option string) :
  (256 ≤ length image)%nat →
  Pkcs11.pkcs11_verify_signature lib p11 image module_path token key_label pin =
    (session ← token_open p11 module_path token pin;
     pubkey ← get_public_key session key_label;
     if DSS_verify lib (import_key p11 pubkey) (SHA256 lib (drop 72 image))
          (slice 4 68 image)
     then Ok 0 else Ok 2).
Proof.
  intros Hlen. unfold Pkcs11.pkcs11_verify_signature.
  rewrite pkcs11_unpack_header_ok by done. rewrite res_bind_Ok.
  dict_lookup. by rewrite !res_bind_Ok.
Qed.

(** X14. Verifying reads the signature field and the bytes from 0x48 on,
    and nothing else: two images that agree there get the same outcome,
    whatever their magic and checksum are. Neither file tests the magic
    when it verifies. *)
Theorem verify_ignores_magic_and_checksum {Entropy PrivateKey PublicKey}
    (lib : CryptoLib Entropy) (p11 : Pkcs11Lib Entropy PrivateKey PublicKey)
    (image1 image2 : bytes) (key : EccKey)
    (module_path token key_label : string) (pin : option string) :
  (256 ≤ length image1)%nat → (256 ≤ length image2)%nat →
  slice 0x04 0x44 image1 = slice 0x04 0x44 image2 →
  drop 0x48 image1 = drop 0x48 image2 →
  Local.verify_signature lib image1 key = Local.verify_signature lib image2 key ∧
  Pkcs11.pkcs11_verify_signature lib p11 image1 module_path token key_label pin =
  Pkcs11.pkcs11_verify_signature lib p11 image2 module_path token key_label pin.
Proof.
  change 0x04%nat with 4%nat. change 0x44%nat with 68%nat.
  change 0x48%nat with 72%nat.
  intros H1 H2 Hsig Htail.
  assert (Hpk : slice 108 172 image1 = slice 108 172 image2).
  { transitivity (slice 36 100 (drop 72 image1));
      [by rewrite slice_drop|]. rewrite Htail. by rewrite slice_drop. }
  split.
  - rewrite !local_verify_signature_ok by done. by rewrite Hsig, Htail, Hpk.
  - rewrite !pkcs11_verify_signature_unfold by done. by rewrite Hsig, Htail.
Qed.

Lemma verify_ignores_magic_and_checksum_witness :
  take 4 (replicate 72 xff ++ drop 72 demo_image) ≠ STM2 ∧
  Local.verify_signature demo_lib demo_image demo_key =
    Local.verify_signature demo_lib
      (replicate 4 xff ++ slice 4 68 demo_image ++ replicate 4 xff ++
       drop 72 demo_image) demo_key ∧
  Pkcs11.pkcs11_verify_signature demo_lib demo_p11 demo_image "softhsm" "boot"
    "key6892" None =
  Pkcs11.pkcs11_verify_signature demo_lib demo_p11
    (replicate 4 xff ++ slice 4 68 demo_image ++ replicate 4 xff ++
     drop 72 demo_image) "softhsm" "boot" "key6892" None.
Proof.
  split; [by vm_compute|].
  apply (verify_ignores_magic_and_checksum demo_lib demo_p11 demo_image
           (replicate 4 xff ++ slice 4 68 demo_image ++ replicate 4 xff ++
            drop 72 demo_image) demo_key "softhsm" "boot" "key6892" None).
  - vm_compute; lia.
  - vm_compute; lia.
  - reflexivity.
  - reflexivity.
Defined.

(** ** Signing, seen through the decoder *)

Lemma le_to_Z_4_0 : le_to_Z (le_bytes 4 0) = 0.
Proof. reflexivity. Qed.

Lemma le_to_Z_4_1 : le_to_Z (le_bytes 4 1) = 1.
Proof. reflexivity. Qed.

Lemma local_unpack_rebuilt (image : bytes) (pk sig : bytes) (h : gmap string value) :
  (256 ≤ length image)%nat → length pk = 64%nat → length sig = 64%nat →
  Local.unpack_header image = Ok h →
  Local.unpack_header (rebuilt image (le_to_Z (slice 96 100 image)) pk sig) =
    Ok (<["signature" := VBytes sig]> (
        <["option_flags" := VInt 0]> (
        <["ecdsa_algo" := VInt 1]> (
        <["ecdsa_pubkey" := VBytes pk]> h)))).
Proof.
  intros Hlen Hpk Hsig. rewrite local_unpack_header_ok by done. intros [= <-].
  rewrite local_unpack_header_ok by (by rewrite length_rebuilt).
  rewrite rebuilt_magic, rebuilt_signature, rebuilt_checksum, rebuilt_w3,
    rebuilt_length, rebuilt_entry_addr, rebuilt_load_addr, rebuilt_w9,
    rebuilt_option_flags, rebuilt_ecdsa_algo, rebuilt_ecdsa_pubkey by done.
  rewrite le_to_Z_4_0, le_to_Z_4_1.
  reflexivity.
Qed.

Lemma pkcs11_unpack_rebuilt (image : bytes) (pk sig : bytes) (h : gmap string value) :
  (256 ≤ length image)%nat → length pk = 64%nat → length sig = 64%nat →
  Pkcs11.unpack_header image = Ok h →
  Pkcs11.unpack_header (rebuilt image (le_to_Z (slice 72 76 image)) pk sig) =
    Ok (<["signature" := VBytes sig]> (
        <["option_flags" := VInt 0]> (
        <["ecdsa_algo" := VInt 1]> (
        <["ecdsa_pubkey" := VBytes pk]> h)))).
Proof.
  intros Hlen Hpk Hsig. rewrite pkcs11_unpack_header_ok by done. intros [= <-].
  rewrite pkcs11_unpack_header_ok by (by rewrite length_rebuilt).
  rewrite rebuilt_magic, rebuilt_signature, rebuilt_checksum, rebuilt_w3,
    rebuilt_length, rebuilt_entry_addr, rebuilt_load_addr, rebuilt_w9,
    rebuilt_option_flags, rebuilt_ecdsa_algo, rebuilt_ecdsa_pubkey by done.
  rewrite le_to_Z_4_0, le_to_Z_4_1.
  rewrite (le_to_Z_bytes 4) by (apply u32_of_slice; lia).
  reflexivity.
Qed.

(** X15. Seen through the decoder of its own file, a successful signing
    is four assignments: the header decoded from the signed image is the
    header decoded from the image with [ecdsa_pubkey], [ecdsa_algo = 1],
    [option_flags = 0] and [signature] replaced, and every other entry as
    it was. In both files. *)
Theorem signed_header_is_updated_header {Entropy PrivateKey PublicKey}
    (lib : CryptoLib Entropy) (p11 : Pkcs11Lib Entropy PrivateKey PublicKey)
    (image : bytes) (key : EccKey) (rng : Entropy)
    (module_path token key_label : string) (pin : option string)
    (session : Session PrivateKey PublicKey)
    (privkey : PrivateKey) (pubkey : PublicKey) :
  (256 ≤ length image)%nat → take 4 image = STM2 →
  curve key ∈ p256_names → p256_point key → dss_sound lib key →
  token_open p11 module_path token pin = Ok session →
  get_private_key session key_label = Ok privkey →
  get_public_key session key_label = Ok pubkey →
  curve (import_key p11 pubkey) ∈ p256_names →
  p256_point (import_key p11 pubkey) →
  token_signs p11 privkey →
  (∃ h image' sig,
     Local.unpack_header image = Ok h ∧
     Local.sign_image lib image key rng = (Ok 0, image') ∧
     Local.unpack_header image' =
       Ok (<["signature" := VBytes sig]> (
           <["option_flags" := VInt 0]> (
           <["ecdsa_algo" := VInt 1]> (
           <["ecdsa_pubkey" := VBytes (Local.get_raw_pubkey key)]> h))))) ∧
  (∃ h image' sig,
     Pkcs11.unpack_header image = Ok h ∧
     Pkcs11.pkcs11_sign_image lib p11 image module_path token key_label pin rng
       = (Ok 0, image') ∧
     Pkcs11.unpack_header image' =
       Ok (<["signature" := VBytes sig]> (
           <["option_flags" := VInt 0]> (
           <["ecdsa_algo" := VInt 1]> (
           <["ecdsa_pubkey" := VBytes (Pkcs11.get_raw_pubkey p11 pubkey)]> h))))).
Proof.
  intros Hlen Hmagic Hcurve Hpt Hsound Hopen Hpriv Hpub Hcurve' Hpt' Htok.
  split.
  - pose proof (local_length_get_raw_pubkey key Hpt) as Hpk.
    destruct (local_sign_image_ok lib image key rng Hlen Hmagic Hcurve Hpt Hsound)
      as (sig & _ & Hsig & Hres & _).
    eexists _, _, sig. split; [by apply local_unpack_header_ok|].
    split; [exact Hres|].
    apply local_unpack_rebuilt; try done. by apply local_unpack_header_ok.
  - pose proof (pkcs11_length_get_raw_pubkey p11 pubkey Hpt') as Hpk.
    assert (Hold : length (slice 4 68 image) = 64%nat) by (apply length_slice; lia).
    destruct (Htok rng (SHA256 lib (drop 72
      (rebuilt image (le_to_Z (slice 72 76 image))
         (Pkcs11.get_raw_pubkey p11 pubkey) (slice 4 68 image)))))
      as (sig & Hsign & Hsig).
    eexists _, _, sig. split; [by apply pkcs11_unpack_header_ok|].
    split.
    { erewrite pkcs11_sign_image_ok by eauto.
      by rewrite rebuilt_set_signature by done. }
    apply pkcs11_unpack_rebuilt; try done. by apply pkcs11_unpack_header_ok.
Qed.

Lemma signed_header_is_updated_header_witness :
  (∃ h image' sig,
     Local.unpack_header demo_image = Ok h ∧
     Local.sign_image demo_lib demo_image demo_key () = (Ok 0, image') ∧
     Local.unpack_header image' =
       Ok (<["signature" := VBytes sig]> (
           <["option_flags" := VInt 0]> (
           <["ecdsa_algo" := VInt 1]> (
           <["ecdsa_pubkey" := VBytes (Local.get_raw_pubkey demo_key)]> h))))) ∧
  (∃ h image' sig,
     Pkcs11.unpack_header demo_image = Ok h ∧
     Pkcs11.pkcs11_sign_image demo_lib demo_p11 demo_image "softhsm" "boot"
       "key6892" None () = (Ok 0, image') ∧
     Pkcs11.unpack_header image' =
       Ok (<["signature" := VBytes sig]> (
           <["option_flags" := VInt 0]> (
           <["ecdsa_algo" := VInt 1]> (
           <["ecdsa_pubkey" := VBytes (Pkcs11.get_raw_pubkey demo_p11 demo_key)]> h))))).
Proof.
  apply (signed_header_is_updated_header demo_lib demo_p11 demo_image demo_key ()
           "softhsm" "boot" "key6892" None demo_session demo_key demo_key).
  - vm_compute; lia.
  - reflexivity.
  - apply list_elem_of_here.
  - split; split; by vm_compute.
  - by apply demo_lib_sound.
  - reflexivity.
  - reflexivity.
  - reflexivity.
  - apply list_elem_of_here.
  - split; split; by vm_compute.
  - apply demo_p11_signs.
Defined.

(** ** Signing, byte by byte: on the demo image *)

Lemma pkcs11_sign_image_frame_witness :
  ∃ image',
    Pkcs11.pkcs11_sign_image demo_lib demo_p11 demo_image "softhsm" "boot"
      "key6892" None () = (Ok 0, image') ∧
    length image' = length demo_image ∧
    slice 0x00 0x04 image' = slice 0x00 0x04 demo_image ∧
    slice 0x44 0x48 image' = slice 0x44 0x48 demo_image ∧
    slice 0x48 0x4C image' = slice 0x48 0x4C demo_image ∧
    slice 0x4C 0x50 image' = slice 0x4C 0x50 demo_image ∧
    slice 0x50 0x54 image' = slice 0x50 0x54 demo_image ∧
    slice 0x58 0x5C image' = slice 0x58 0x5C demo_image ∧
    slice 0x60 0x64 image' = slice 0x60 0x64 demo_image ∧
    drop 256 image' = drop 256 demo_image ∧
    slice 0x64 0x68 image' = le_bytes 4 0 ∧
    slice 0x68 0x6C image' = le_bytes 4 1 ∧
    slice 0x6C 0xAC image' = Pkcs11.get_raw_pubkey demo_p11 demo_key ∧
    reserved_zero image'.
Proof.
  apply (pkcs11_sign_image_frame demo_lib demo_p11 demo_image "softhsm" "boot"
           "key6892" None () demo_session demo_key demo_key).
  - vm_compute; lia.
  - reflexivity.
  - reflexivity.
  - reflexivity.
  - reflexivity.
  - apply list_elem_of_here.
  - split; split; by vm_compute.
  - apply demo_p11_signs.
Defined.

Lemma local_sign_image_frame_witness :
  ∃ image',
    Local.sign_image demo_lib demo_image demo_key () = (Ok 0, image') ∧
    length image' = length demo_image ∧
    slice 0x00 0x04 image' = slice 0x00 0x04 demo_image ∧
    slice 0x44 0x48 image' = slice 0x44 0x48 demo_image ∧
    slice 0x4C 0x50 image' = slice 0x4C 0x50 demo_image ∧
    slice 0x50 0x54 image' = slice 0x50 0x54 demo_image ∧
    slice 0x58 0x5C image' = slice 0x58 0x5C demo_image ∧
    slice 0x60 0x64 image' = slice 0x60 0x64 demo_image ∧
    drop 256 image' = drop 256 demo_image ∧
    slice 0x64 0x68 image' = le_bytes 4 0 ∧
    slice 0x68 0x6C image' = le_bytes 4 1 ∧
    slice 0x6C 0xAC image' = Local.get_raw_pubkey demo_key ∧
    reserved_zero image'.
Proof.
  apply (local_sign_image_frame demo_lib demo_image demo_key ()).
  - vm_compute; lia.
  - reflexivity.
  - apply list_elem_of_here.
  - split; split; by vm_compute.
  - by apply demo_lib_sound.
Defined.

(** ** [main] *)

Section LocalMain.
Context {Entropy FS : Type} (lib : CryptoLib Entropy) (fsys : FileSystem FS).
Context (ECC_import_key : bytes → option string → res EccKey).

Local Abbreviation main := (LocalCli.main lib fsys ECC_import_key).
Local Abbreviation main_verify := (LocalCli.main_verify lib fsys).

Lemma local_main_verify_fs options key fs :
  snd (main_verify options key fs) = fs.
Proof. unfold LocalCli.main_verify. by repeat case_match. Qed.

Lemma local_main_verify_none options key fs :
  given (LocalCli.verify_file options) = None →
  main_verify options key fs = (Exit 0, fs).
Proof. intros H. unfold LocalCli.main_verify. by rewrite H. Qed.

(** X18. The exit status of [stm32-sign.py] does not tell the verdict:
    asked to verify a readable file of 256 bytes or more, [main] returns
    0, also when [verify_signature] returned 1 or 2. *)
Theorem local_main_verify_exit_status (options : LocalCli.Options)
    (rng : Entropy) (fs : FS) (key_path path : string) (pem data : bytes)
    (key : EccKey) :
  given (LocalCli.key_file options) = Some key_path →
  read_file fsys fs key_path = OsOk pem →
  ECC_import_key pem (LocalCli.keypass options) = Ok key →
  given (LocalCli.sign options) = None →
  given (LocalCli.verify_file options) = Some path →
  read_file fsys fs path = OsOk data →
  (256 ≤ length data)%nat →
  main options rng fs = (Exit 0, fs).
Proof.
  intros Hk Hr Hi Hs Hv Hd Hlen. unfold LocalCli.main.
  rewrite Hk, Hr, Hi, Hs. unfold LocalCli.main_verify. rewrite Hv, Hd.
  rewrite local_verify_signature_ok by done.
  by repeat case_match.
Qed.

(** X19. Asked to sign a file of 256 bytes or more that does not start
    with [STM2] and to write the result, [main] of [stm32-sign.py] drops
    the -1 of [sign_image], writes the bytes it read to the output file
    and returns 0. *)
Theorem local_main_sign_bad_magic (options : LocalCli.Options)
    (rng : Entropy) (fs fs' : FS) (key_path path out_path : string)
    (pem data : bytes) (key : EccKey) :
  given (LocalCli.key_file options) = Some key_path →
  read_file fsys fs key_path = OsOk pem →
  ECC_import_key pem (LocalCli.keypass options) = Ok key →
  has_private key = true →
  given (LocalCli.sign options) = Some path →
  read_file fsys fs path = OsOk data →
  (256 ≤ length data)%nat → take 4 data ≠ STM2 →
  given (LocalCli.outfile options) = Some out_path →
  write_file fsys fs out_path data = OsOk fs' →
  given (LocalCli.verify_file options) = None →
  main options rng fs = (Exit 0, fs').
Proof.
  intros Hk Hr Hi Hp Hs Hd Hlen Hmagic Ho Hw Hv. unfold LocalCli.main.
  rewrite Hk, Hr, Hi, Hs, Hp, Hd. cbn [negb].
  unfold Local.sign_image.
  rewrite local_unpack_header_ok by done.
  dict_lookup. cbv beta iota.
  rewrite decide_True by (rewrite slice_0_take; congruence).
  rewrite Ho, Hw. by apply local_main_verify_none.
Qed.

(** X20. Asked to sign an image with a P-256 key and to write the result,
    [main] of [stm32-sign.py] returns 0 and writes to the output file an
    image of the same length and payload that [verify_signature] accepts
    with the key. *)
Theorem local_main_sign_writes_signed (options : LocalCli.Options)
    (rng : Entropy) (fs : FS) (key_path path out_path : string)
    (pem data : bytes) (key : EccKey) :
  given (LocalCli.key_file options) = Some key_path →
  read_file fsys fs key_path = OsOk pem →
  ECC_import_key pem (LocalCli.keypass options) = Ok key →
  has_private key = true →
  curve key ∈ p256_names → p256_point key → dss_sound lib key →
  given (LocalCli.sign options) = Some path →
  read_file fsys fs path = OsOk data →
  (256 ≤ length data)%nat → take 4 data = STM2 →
  given (LocalCli.outfile options) = Some out_path →
  (∀ contents, ∃ fs', write_file fsys fs out_path contents = OsOk fs') →
  given (LocalCli.verify_file options) = None →
  ∃ signed fs',
    main options rng fs = (Exit 0, fs') ∧
    write_file fsys fs out_path signed = OsOk fs' ∧
    Local.verify_signature lib signed key = Ok 0 ∧
    length signed = length data ∧ drop 256 signed = drop 256 data.
Proof.
  intros Hk Hr Hi Hp Hc Hpt Hso Hs Hd Hlen Hmagic Ho Hw Hv.
  pose proof (local_length_get_raw_pubkey key Hpt) as Hpk.
  destruct (local_sign_image_ok lib data key rng Hlen Hmagic Hc Hpt Hso)
    as (sig & _ & Hsig & Hres & Hver).
  destruct (Hw (rebuilt data (le_to_Z (slice 96 100 data))
                  (Local.get_raw_pubkey key) sig)) as (fs' & Hfs').
  eexists _, fs'. split; [|split; [exact Hfs'|split; [exact Hver|]]].
  - unfold LocalCli.main.
    rewrite Hk, Hr, Hi, Hs, Hp, Hd. cbn [negb]. rewrite Hres, Ho, Hfs'.
    by apply local_main_verify_none.
  - by rewrite length_rebuilt, rebuilt_payload by done.
Qed.

(** X21. Asked to sign with a key on a curve that is not P-256, [main] of
    [stm32-sign.py] ends with the uncaught [ValueError] and writes no
    file, also when an output file was asked for. *)
Theorem local_main_sign_unsupported_curve (options : LocalCli.Options)
    (rng : Entropy) (fs : FS) (key_path path : string)
    (pem data : bytes) (key : EccKey) :
  given (LocalCli.key_file options) = Some key_path →
  read_file fsys fs key_path = OsOk pem →
  ECC_import_key pem (LocalCli.keypass options) = Ok key →
  has_private key = true → curve key ∉ p256_names →
  given (LocalCli.sign options) = Some path →
  read_file fsys fs path = OsOk data →
  (256 ≤ length data)%nat → take 4 data = STM2 →
  main options rng fs = (Uncaught ValueError, fs).
Proof.
  intros Hk Hr Hi Hp Hc Hs Hd Hlen Hmagic. unfold LocalCli.main.
  rewrite Hk, Hr, Hi, Hs, Hp, Hd. cbn [negb].
  unfold Local.sign_image.
  rewrite local_unpack_header_ok by done.
  dict_lookup. cbv beta iota.
  rewrite decide_False by (rewrite slice_0_take, Hmagic; intros Hx; by apply Hx).
  by rewrite local_key_algorithm_other.
Qed.

(** X22. A file shorter than 256 bytes, the empty one included, ends
    [main] of [stm32-sign.py] with the uncaught [struct.error], whether
    it was to be signed or to be verified; nothing is written. *)
Theorem local_main_short_file (options : LocalCli.Options)
    (rng : Entropy) (fs : FS) (key_path path : string)
    (pem data : bytes) (key : EccKey) :
  given (LocalCli.key_file options) = Some key_path →
  read_file fsys fs key_path = OsOk pem →
  ECC_import_key pem (LocalCli.keypass options) = Ok key →
  has_private key = true →
  read_file fsys fs path = OsOk data →
  (length data < 256)%nat →
  given (LocalCli.sign options) = Some path ∨
  (given (LocalCli.sign options) = None ∧
   given (LocalCli.verify_file options) = Some path) →
  main options rng fs = (Uncaught StructError, fs).
Proof.
  intros Hk Hr Hi Hp Hd Hlen [Hs|[Hs Hv]]; unfold LocalCli.main.
  - rewrite Hk, Hr, Hi, Hs, Hp, Hd. cbn [negb].
    unfold Local.sign_image. by rewrite local_unpack_header_short.
  - rewrite Hk, Hr, Hi, Hs. unfold LocalCli.main_verify. rewrite Hv, Hd.
    by rewrite local_verify_signature_short.
Qed.

(** X23. A file that cannot be read ends [main] of [stm32-sign.py] in two
    ways: the error number is the exit status when the file was to be
    verified, and the [OSError] is uncaught when it was to be signed. *)
Theorem local_main_unreadable_file (options : LocalCli.Options)
    (rng : Entropy) (fs : FS) (key_path path : string)
    (pem : bytes) (key : EccKey) (errno : Z) :
  given (LocalCli.key_file options) = Some key_path →
  read_file fsys fs key_path = OsOk pem →
  ECC_import_key pem (LocalCli.keypass options) = Ok key →
  has_private key = true →
  read_file fsys fs path = OsError errno →
  (given (LocalCli.sign options) = Some path →
   main options rng fs = (UncaughtOSError errno, fs)) ∧
  (given (LocalCli.sign options) = None →
   given (LocalCli.verify_file options) = Some path →
   main options rng fs = (Exit errno, fs)).
Proof.
  intros Hk Hr Hi Hp Hd. split.
  - intros Hs. unfold LocalCli.main.
    by rewrite Hk, Hr, Hi, Hs, Hp, Hd.
  - intros Hs Hv. unfold LocalCli.main.
    rewrite Hk, Hr, Hi, Hs. unfold LocalCli.main_verify. by rewrite Hv, Hd.
Qed.

Lemma local_main_writes_only_outfile (options : LocalCli.Options)
    (rng : Entropy) (fs : FS) :
  snd (main options rng fs) = fs ∨
  ∃ out_path contents,
    given (LocalCli.outfile options) = Some out_path ∧
    write_file fsys fs out_path contents = OsOk (snd (main options rng fs)).
Proof.
  unfold LocalCli.main.
  repeat (case_match; try (left; reflexivity);
          try (left; apply local_main_verify_fs)).
  right. eexists _, _. split; [reflexivity|].
  rewrite local_main_verify_fs. eassumption.
Qed.

End LocalMain.

Section Pkcs11Main.
Context {Entropy PrivateKey PublicKey FS : Type}.
Context (lib : CryptoLib Entropy) (p11 : Pkcs11Lib Entropy PrivateKey PublicKey).
Context (fsys : FileSystem FS).

Local Abbreviation main := (Pkcs11Cli.main lib p11 fsys).
Local Abbreviation main_verify := (Pkcs11Cli.main_verify lib p11 fsys).

Lemma pkcs11_main_verify_fs options mp tok label fs :
  snd (main_verify options mp tok label fs) = fs.
Proof. unfold Pkcs11Cli.main_verify. by repeat case_match. Qed.

Lemma pkcs11_main_verify_none options mp tok label fs :
  given (Pkcs11Cli.verify_file options) = None →
  main_verify options mp tok label fs = (Exit 0, fs).
Proof. intros H. unfold Pkcs11Cli.main_verify. by rewrite H. Qed.

(** X24. The exit status of [stm32-sign-pkcs11.py] does not tell the
    verdict either: asked to verify a readable file of 256 bytes or more
    against a key the token holds, [main] returns 0, also when
    [pkcs11_verify_signature] returned 2. *)
Theorem pkcs11_main_verify_exit_status (options : Pkcs11Cli.Options)
    (rng : Entropy) (fs : FS) (mp tok label path : string) (data : bytes)
    (session : Session PrivateKey PublicKey) (pubkey : PublicKey) :
  given (Pkcs11Cli.module_path options) = Some mp →
  given (Pkcs11Cli.token options) = Some tok →
  given (Pkcs11Cli.key_label options) = Some label →
  given (Pkcs11Cli.sign options) = None →
  given (Pkcs11Cli.verify_file options) = Some path →
  read_file fsys fs path = OsOk data →
  (256 ≤ length data)%nat →
  token_open p11 mp tok (Pkcs11Cli.pin options) = Ok session →
  get_public_key session label = Ok pubkey →
  main options rng fs = (Exit 0, fs).
Proof.
  intros Hm Ht Hl Hs Hv Hd Hlen Hopen Hpub. unfold Pkcs11Cli.main.
  rewrite Hm, Ht, Hl, Hs. unfold Pkcs11Cli.main_verify. rewrite Hv, Hd.
  rewrite (pkcs11_verify_signature_ok lib p11 _ _ _ _ _ _ _ Hlen Hopen Hpub).
  by destruct (DSS_verify _ _ _ _).
Qed.

(** X25. Asked to sign a file of 256 bytes or more that does not start
    with [STM2] and to write the result, [main] of [stm32-sign-pkcs11.py]
    drops the -1 of [pkcs11_sign_image], writes the bytes it read to the
    output file and returns 0; the token is not opened. *)
Theorem pkcs11_main_sign_bad_magic (options : Pkcs11Cli.Options)
    (rng : Entropy) (fs fs' : FS) (mp tok label path out_path : string)
    (data : bytes) :
  given (Pkcs11Cli.module_path options) = Some mp →
  given (Pkcs11Cli.token options) = Some tok →
  given (Pkcs11Cli.key_label options) = Some label →
  given (Pkcs11Cli.sign options) = Some path →
  read_file fsys fs path = OsOk data →
  (256 ≤ length data)%nat → take 4 data ≠ STM2 →
  given (Pkcs11Cli.outfile options) = Some out_path →
  write_file fsys fs out_path data = OsOk fs' →
  given (Pkcs11Cli.verify_file options) = None →
  main options rng fs = (Exit 0, fs').
Proof.
  intros Hm Ht Hl Hs Hd Hlen Hmagic Ho Hw Hv. unfold Pkcs11Cli.main.
  rewrite Hm, Ht, Hl, Hs, Hd.
  unfold Pkcs11.pkcs11_sign_image.
  rewrite pkcs11_unpack_header_ok by done.
  dict_lookup. cbv beta iota.
  rewrite decide_True by (rewrite slice_0_take; congruence).
  rewrite Ho, Hw. by apply pkcs11_main_verify_none.
Qed.

Lemma pkcs11_main_writes_only_outfile (options : Pkcs11Cli.Options)
    (rng : Entropy) (fs : FS) :
  snd (main options rng fs) = fs ∨
  ∃ out_path contents,
    given (Pkcs11Cli.outfile options) = Some out_path ∧
    write_file fsys fs out_path contents = OsOk (snd (main options rng fs)).
Proof.
  unfold Pkcs11Cli.main.
  repeat (case_match; try (left; reflexivity);
          try (left; apply pkcs11_main_verify_fs)).
  right. eexists _, _. split; [reflexivity|].
  rewrite pkcs11_main_verify_fs. eassumption.
Qed.

End Pkcs11Main.

(** X26. Whatever the options and the files are, [main] of either file
    leaves the files as they were or as one write to the path given as
    output file leaves them: it writes nowhere else, and never to the file
    it signs or verifies unless that is the output path. *)
Theorem main_writes_only_outfile {Entropy PrivateKey PublicKey FS}
    (lib : CryptoLib Entropy) (p11 : Pkcs11Lib Entropy PrivateKey PublicKey)
    (fsys : FileSystem FS)
    (ECC_import_key : bytes → option string → res EccKey)
    (local_options : LocalCli.Options) (p11_options : Pkcs11Cli.Options)
    (rng : Entropy) (fs : FS) :
  (snd (LocalCli.main lib fsys ECC_import_key local_options rng fs) = fs ∨
   ∃ out_path contents,
     given (LocalCli.outfile local_options) = Some out_path ∧
     write_file fsys fs out_path contents =
       OsOk (snd (LocalCli.main lib fsys ECC_import_key local_options rng fs))) ∧
  (snd (Pkcs11Cli.main lib p11 fsys p11_options rng fs) = fs ∨
   ∃ out_path contents,
     given (Pkcs11Cli.outfile p11_options) = Some out_path ∧
     write_file fsys fs out_path contents =
       OsOk (snd (Pkcs11Cli.main lib p11 fsys p11_options rng fs))).
Proof.
  split; [apply local_main_writes_only_outfile
         | apply pkcs11_main_writes_only_outfile].
Qed.

(** *** [main] on the demo files *)

Lemma local_main_verify_exit_status_witness :
  Local.verify_signature demo_lib demo_forged demo_key = Ok 1 ∧
  LocalCli.main demo_lib demo_files demo_import_key
    (demo_options (Some "key.pem") None None (Some "forged.stm32")) () demo_fs
    = (Exit 0, demo_fs).
Proof.
  split; [by vm_compute|].
  apply (local_main_verify_exit_status demo_lib demo_files demo_import_key
           _ () demo_fs "key.pem" "forged.stm32" demo_pem demo_forged demo_key);
    try reflexivity.
  vm_compute; lia.
Defined.

Lemma local_main_sign_bad_magic_witness :
  LocalCli.main demo_lib demo_files demo_import_key
    (demo_options (Some "key.pem") (Some "notes.txt") (Some "out.stm32") None)
    () demo_fs
    = (Exit 0, <["out.stm32" := demo_not_stm32]> demo_fs).
Proof.
  apply (local_main_sign_bad_magic demo_lib demo_files demo_import_key
           _ () demo_fs _ "key.pem" "notes.txt" "out.stm32" demo_pem
           demo_not_stm32 demo_key);
    try reflexivity.
  - vm_compute; lia.
  - by vm_compute.
Defined.

Lemma local_main_sign_writes_signed_witness :
  ∃ signed fs',
    LocalCli.main demo_lib demo_files demo_import_key
      (demo_options (Some "key.pem") (Some "tf-a.stm32") (Some "out.stm32") None)
      () demo_fs = (Exit 0, fs') ∧
    write_file demo_files demo_fs "out.stm32" signed = OsOk fs' ∧
    Local.verify_signature demo_lib signed demo_key = Ok 0 ∧
    length signed = length demo_image ∧ drop 256 signed = drop 256 demo_image.
Proof.
  apply (local_main_sign_writes_signed demo_lib demo_files demo_import_key
           _ () demo_fs "key.pem" "tf-a.stm32" "out.stm32" demo_pem
           demo_image demo_key);
    try reflexivity.
  - apply list_elem_of_here.
  - split; split; by vm_compute.
  - by apply demo_lib_sound.
  - vm_compute; lia.
  - intros contents. eexists. reflexivity.
Defined.

Lemma local_main_sign_unsupported_curve_witness :
  LocalCli.main demo_lib demo_files demo_import_key
    (demo_options (Some "p384.pem") (Some "tf-a.stm32") (Some "out.stm32") None)
    () demo_fs = (Uncaught ValueError, demo_fs).
Proof.
  apply (local_main_sign_unsupported_curve demo_lib demo_files demo_import_key
           _ () demo_fs "p384.pem" "tf-a.stm32" demo_pem_p384 demo_image
           demo_key_p384);
    try reflexivity.
  - apply (bool_decide_unpack _). by vm_compute.
  - vm_compute; lia.
Defined.

Lemma local_main_short_file_witness :
  LocalCli.main demo_lib demo_files demo_import_key
    (demo_options (Some "key.pem") None None (Some "empty.bin")) () demo_fs
    = (Uncaught StructError, demo_fs).
Proof.
  apply (local_main_short_file demo_lib demo_files demo_import_key
           _ () demo_fs "key.pem" "empty.bin" demo_pem [] demo_key);
    try reflexivity.
  - vm_compute; lia.
  - right. split; reflexivity.
Defined.

Lemma local_main_unreadable_file_witness :
  LocalCli.main demo_lib demo_files demo_import_key
    (demo_options (Some "key.pem") (Some "missing.stm32") None None) () demo_fs
    = (UncaughtOSError 2, demo_fs) ∧
  LocalCli.main demo_lib demo_files demo_import_key
    (demo_options (Some "key.pem") None None (Some "missing.stm32")) () demo_fs
    = (Exit 2, demo_fs).
Proof.
  split.
  - apply (local_main_unreadable_file demo_lib demo_files demo_import_key
             _ () demo_fs "key.pem" "missing.stm32" demo_pem demo_key 2);
      reflexivity.
  - apply (local_main_unreadable_file demo_lib demo_files demo_import_key
             _ () demo_fs "key.pem" "missing.stm32" demo_pem demo_key 2);
      reflexivity.
Defined.

Lemma pkcs11_main_verify_exit_status_witness :
  Pkcs11.pkcs11_verify_signature demo_lib demo_p11 demo_image "softhsm" "boot"
    "key6892" None = Ok 2 ∧
  Pkcs11Cli.main demo_lib demo_p11 demo_files
    (demo_p11_options None None (Some "tf-a.stm32")) () demo_fs
    = (Exit 0, demo_fs).
Proof.
  split; [by vm_compute|].
  apply (pkcs11_main_verify_exit_status demo_lib demo_p11 demo_files
           _ () demo_fs "softhsm" "boot" "key6892" "tf-a.stm32" demo_image
           demo_session demo_key);
    try reflexivity.
  vm_compute; lia.
Defined.

Lemma pkcs11_main_sign_bad_magic_witness :
  Pkcs11Cli.main demo_lib demo_p11 demo_files
    (demo_p11_options (Some "notes.txt") (Some "out.stm32") None) () demo_fs
    = (Exit 0, <["out.stm32" := demo_not_stm32]> demo_fs).
Proof.
  apply (pkcs11_main_sign_bad_magic demo_lib demo_p11 demo_files
           _ () demo_fs _ "softhsm" "boot" "key6892" "notes.txt" "out.stm32"
           demo_not_stm32);
    try reflexivity.
  - vm_compute; lia.
  - by vm_compute.
Defined.
